(** * audio/out/ao_lavc.c: the libavcodec audio encoding output of mpv

    A shallow embedding of the sample-to-frame and timestamp pipeline of
    [ao_lavc.c] ([init], [uninit], [get_space], [write_packet],
    [encode_audio_and_write], [encode], [play]) and the properties of it
    that the specification states.

    Conventions
    - C [int] and [int64_t] values are [Z]; arithmetic that can leave the
      range is wrapped explicitly ([wrap32], [wrap64], [wrap_size_t]).
    - C [double] values are the primitive binary64 floats of the kernel.
    - Everything the file calls but does not define (libavcodec, libavutil,
      encode_lavc.c, the channel map and format helpers) is a field of the
      class [External]; theorems hold for every instance. *)

From Stdlib Require Import ZArith List Bool Lia String Floats Uint63 Sorted.
Import ListNotations.
Local Open Scope Z_scope.

(* ===================================================================== *)
(** * Machine integers *)

Definition wrap (bits : Z) (z : Z) : Z :=
  (z + 2 ^ (bits - 1)) mod 2 ^ bits - 2 ^ (bits - 1).

Definition wrap32 : Z -> Z := wrap 32.
Definition wrap64 : Z -> Z := wrap 64.
Definition wrap_size_t (z : Z) : Z := z mod 2 ^ 64.

Definition INT_MAX : Z := 2 ^ 31 - 1.
Definition INT64_MIN : Z := - 2 ^ 63.
Definition INT64_MAX : Z := 2 ^ 63 - 1.

(** [FFMIN] and [FFMAX] of libavutil/common.h, as the macros expand. *)
Definition FFMIN (a b : Z) : Z := if b <? a then b else a.
Definition FFMAX (a b : Z) : Z := if b <? a then a else b.

(* ===================================================================== *)
(** * Doubles *)

(** Conversion of an integer to [double]: the binary64 value nearest to
    it, ties to even (exact up to 2^53 in magnitude, and at every power of
    two, so [(double) INT64_MIN] is -0x1p+63). *)
Definition Z_to_double (z : Z) : float :=
  SF2Prim (binary_normalize prec emax z 0 false).

(** The integer part of [floor x], when [x] is finite. *)
Definition floorZ (x : float) : option Z :=
  match Prim2SF x with
  | S754_zero _ => Some 0
  | S754_finite s m e =>
      let v := if s then Z.neg m else Z.pos m in
      Some (if 0 <=? e then v * 2 ^ e else v / 2 ^ (- e))
  | S754_infinity _ | S754_nan => None
  end.

Definition ceilZ (x : float) : option Z :=
  option_map Z.opp (floorZ (PrimFloat.opp x)).

(** Conversion of a [double] that holds an integer to [int64_t] / [int].
    Outside the target range the conversion is undefined in C; the model
    takes what x86-64 produces there (the "integer indefinite" value). *)
Definition double_to_int64 (v : option Z) : Z :=
  match v with
  | Some z => if (INT64_MIN <=? z) && (z <=? INT64_MAX) then z else INT64_MIN
  | None => INT64_MIN
  end.

Definition double_to_int (v : option Z) : Z :=
  match v with
  | Some z => if (- 2 ^ 31 <=? z) && (z <=? INT_MAX) then z else - 2 ^ 31
  | None => - 2 ^ 31
  end.

(** The product of two [int]s computed in [double], as in
    [a * (double) b]: both conversions are exact, and the IEEE-754 product
    is the exact product rounded to 53 significant bits, ties to even.
    [round53] is that rounding on the integers. *)
Definition round53_nonneg (z : Z) : Z :=
  let e := Z.log2 z - 52 in
  if e <=? 0 then z
  else
    let q := z / 2 ^ e in
    let r := z mod 2 ^ e in
    let half := 2 ^ (e - 1) in
    let q' := if r <? half then q
              else if half <? r then q + 1
              else if Z.even q then q else q + 1 in
    q' * 2 ^ e.

Definition round53 (z : Z) : Z :=
  if z <? 0 then - round53_nonneg (- z) else round53_nonneg z.

Definition double_mul_int (a b : Z) : Z := round53 (a * b).

(* ===================================================================== *)
(** * Rational time bases *)

Record AVRational := mkRational { num : Z; den : Z }.

(** [a]'s tick is at least as long as [b]'s: a.num/a.den >= b.num/b.den,
    cross-multiplied. *)
Definition coarser (a b : AVRational) : Prop :=
  num b * den a <= num a * den b.

Definition positive_base (a : AVRational) : Prop := 0 < num a /\ 0 < den a.

(** Modelled from the spec: [av_rescale_q] is libavutil's and not part of
    this repository.  Section 4.1: "rescale(x, from, to) computes
    round(x * from.num * to.den / (from.den * to.num))", rounding to
    nearest; of the two tie rules the spec allows, halves go away from
    zero (libavutil's AV_ROUND_NEAR_INF).  [round_div n d] is the integer
    nearest to the rational n/d. *)
Definition round_div (n d : Z) : Z :=
  let n' := if d <? 0 then - n else n in
  let d' := Z.abs d in
  if n' <? 0 then - ((2 * (- n') + d') / (2 * d'))
  else (2 * n' + d') / (2 * d').

Definition rescale (x : Z) (from to : AVRational) : Z :=
  round_div (x * num from * den to) (den from * num to).

(* ===================================================================== *)
(** * Data model *)

Inductive msg_level := MSGL_ERR | MSGL_WARN | MSGL_V.
Definition message : Type := msg_level * string.

(** One channel buffer ([void *]), as the bytes it points to. *)
Abbreviation plane := (list Byte.byte) (only parsing).

Record AVFrame := mkFrame {
  frame_format : Z;
  nb_samples : Z;
  extended_data : list plane;
  linesize0 : Z;
  frame_pts : Z;
  quality : Z
}.

Record AVPacket := mkPacket {
  stream_index : Z;
  pkt_pts : Z;
  pkt_dts : Z;
  duration : Z
}.

Record AVStream := mkStream {
  index : Z;
  stream_time_base : AVRational
}.

Record AVCodec := mkAVCodec {
  supported_samplerates : list Z;
  sample_fmts : option (list Z)
}.

Record mp_chmap := mkChmap {
  chmap_num : Z;
  speaker : list Z
}.

(** The encoder behind [AVCodecContext]: libavcodec's send/receive API.
    [avcodec_receive_packets] stands for the run of successful
    [avcodec_receive_packet] calls up to the first one that does not hand
    out a packet, and gives the status of that last call. *)
Class Encoder := {
  encoder : Type;
  avcodec_send_frame : encoder -> option AVFrame -> Z * encoder;
  avcodec_receive_packets : encoder -> list AVPacket * Z * encoder
}.

Record AVCodecContext `{Encoder} := mkCodecCtx {
  codec_time_base : AVRational;
  sample_rate : Z;
  channels : Z;
  channel_layout : Z;
  sample_fmt : Z;
  bits_per_raw_sample : Z;
  frame_size : Z;
  codec_id : Z;
  global_quality : Z;
  enc : encoder;
  (** ghost: every argument [avcodec_send_frame] was called with, oldest
      first; [None] is the end-of-stream (flush) submission *)
  sent : list (option AVFrame)
}.

(** [struct priv]; [sample_padding] is neither read nor written in the file
    and is left out. *)
Record priv `{Encoder} := mkPriv {
  stream : option AVStream;
  codec : option AVCodecContext;
  pcmhack : Z;
  aframesize : Z;
  aframecount : Z;
  savepts : Z;
  framecount : Z;
  lastpts : Z;
  sample_size : Z;
  expected_next_pts : float;
  worst_time_base : AVRational;
  worst_time_base_is_stream : Z;
  shutdown : bool
}.

Record encode_opts := mkOpts { rawts : bool; copyts : bool }.

Record encode_lavc_context := mkEctx {
  options : encode_opts;
  ac : AVCodec;
  discontinuity_pts_offset : float;
  next_in_pts : float;
  audio_pts_offset : float;
  last_audio_in_pts : float;
  samples_since_last_pts : Z;
  (** ghost: the packets handed to [encode_lavc_write_frame], oldest first *)
  muxed : list AVPacket
}.

Record ao `{Encoder} := mkAo {
  samplerate : Z;
  ao_channels : mp_chmap;
  format : Z;
  sstride : Z;
  untimed : bool;
  ao_priv : option priv;
  encode_lavc_ctx : encode_lavc_context;
  (** ghost: what went to MP_ERR / MP_WARN / MP_VERBOSE, oldest first *)
  log : list message
}.

(** Everything [ao_lavc.c] uses but does not define. *)
Class External `{Encoder} := {
  AV_NOPTS_VALUE : Z;
  MP_NOPTS_VALUE : float;
  AV_NUM_DATA_POINTERS : Z;
  AOPLAY_FINAL_CHUNK : Z;
  AV_SAMPLE_FMT_NONE : Z;
  AVERROR_EAGAIN : Z;
  AVERROR_EOF : Z;
  av_rescale_q : Z -> AVRational -> AVRational -> Z;
  av_get_bits_per_sample : Z -> Z;
  encode_lavc_alloc_stream :
    encode_lavc_context -> option (AVStream * AVCodecContext);
  encode_lavc_open_codec :
    encode_lavc_context -> AVCodecContext -> option AVCodecContext;
  encode_lavc_getoffset : encode_lavc_context -> AVCodecContext -> float;
  encode_lavc_write_frame :
    encode_lavc_context -> AVStream -> AVPacket -> Z;
  af_select_best_samplerate : Z -> list Z -> Z;
  af_get_best_sample_formats : Z -> list Z;
  af_from_avformat : Z -> Z;
  af_to_avformat : Z -> Z;
  af_fmt_to_bytes : Z -> Z;
  af_fmt_is_planar : Z -> bool;
  af_fill_silence : nat -> Z -> list Byte.byte;
  af_fill_silence_length :
    forall n fmt, List.length (af_fill_silence n fmt) = n;
  ao_chmap_sel_adjust2 : mp_chmap -> option mp_chmap;
  mp_chmap_reorder_to_lavc : mp_chmap -> mp_chmap;
  mp_chmap_to_lavc : mp_chmap -> Z
}.

(** ** Field updates *)

Section Updates.
Context `{Encoder}.

Definition set_enc (e : encoder) (fr : list (option AVFrame))
    (c : AVCodecContext) : AVCodecContext :=
  mkCodecCtx _ (codec_time_base c) (sample_rate c) (channels c)
    (channel_layout c) (sample_fmt c) (bits_per_raw_sample c)
    (frame_size c) (codec_id c) (global_quality c) e fr.

Definition set_codec (c : option AVCodecContext) (p : priv) : priv :=
  mkPriv _ (stream p) c (pcmhack p) (aframesize p) (aframecount p)
    (savepts p) (framecount p) (lastpts p) (sample_size p)
    (expected_next_pts p) (worst_time_base p)
    (worst_time_base_is_stream p) (shutdown p).

Definition set_aframecount (v : Z) (p : priv) : priv :=
  mkPriv _ (stream p) (codec p) (pcmhack p) (aframesize p) v
    (savepts p) (framecount p) (lastpts p) (sample_size p)
    (expected_next_pts p) (worst_time_base p)
    (worst_time_base_is_stream p) (shutdown p).

Definition set_savepts (v : Z) (p : priv) : priv :=
  mkPriv _ (stream p) (codec p) (pcmhack p) (aframesize p) (aframecount p)
    v (framecount p) (lastpts p) (sample_size p)
    (expected_next_pts p) (worst_time_base p)
    (worst_time_base_is_stream p) (shutdown p).

Definition set_lastpts (v : Z) (p : priv) : priv :=
  mkPriv _ (stream p) (codec p) (pcmhack p) (aframesize p) (aframecount p)
    (savepts p) (framecount p) v (sample_size p)
    (expected_next_pts p) (worst_time_base p)
    (worst_time_base_is_stream p) (shutdown p).

Definition set_expected_next_pts (v : float) (p : priv) : priv :=
  mkPriv _ (stream p) (codec p) (pcmhack p) (aframesize p) (aframecount p)
    (savepts p) (framecount p) (lastpts p) (sample_size p)
    v (worst_time_base p)
    (worst_time_base_is_stream p) (shutdown p).

Definition set_worst_time_base (tb : AVRational) (is_stream : Z)
    (p : priv) : priv :=
  mkPriv _ (stream p) (codec p) (pcmhack p) (aframesize p) (aframecount p)
    (savepts p) (framecount p) (lastpts p) (sample_size p)
    (expected_next_pts p) tb is_stream (shutdown p).

Definition set_shutdown (v : bool) (p : priv) : priv :=
  mkPriv _ (stream p) (codec p) (pcmhack p) (aframesize p) (aframecount p)
    (savepts p) (framecount p) (lastpts p) (sample_size p)
    (expected_next_pts p) (worst_time_base p)
    (worst_time_base_is_stream p) v.

Definition set_audio_pts_offset (v : float) (c : encode_lavc_context) :=
  mkEctx (options c) (ac c) (discontinuity_pts_offset c) (next_in_pts c)
    v (last_audio_in_pts c) (samples_since_last_pts c) (muxed c).

Definition set_discontinuity_pts_offset (v : float)
    (c : encode_lavc_context) :=
  mkEctx (options c) (ac c) v (next_in_pts c)
    (audio_pts_offset c) (last_audio_in_pts c) (samples_since_last_pts c)
    (muxed c).

Definition set_next_in_pts (v : float) (c : encode_lavc_context) :=
  mkEctx (options c) (ac c) (discontinuity_pts_offset c) v
    (audio_pts_offset c) (last_audio_in_pts c) (samples_since_last_pts c)
    (muxed c).

Definition set_samples_since_last_pts (v : Z) (c : encode_lavc_context) :=
  mkEctx (options c) (ac c) (discontinuity_pts_offset c) (next_in_pts c)
    (audio_pts_offset c) (last_audio_in_pts c) v (muxed c).

Definition set_muxed (v : list AVPacket) (c : encode_lavc_context) :=
  mkEctx (options c) (ac c) (discontinuity_pts_offset c) (next_in_pts c)
    (audio_pts_offset c) (last_audio_in_pts c) (samples_since_last_pts c)
    v.

Definition set_priv (p : option priv) (a : ao) : ao :=
  mkAo _ (samplerate a) (ao_channels a) (format a) (sstride a) (untimed a)
    p (encode_lavc_ctx a) (log a).

Definition set_ectx (c : encode_lavc_context) (a : ao) : ao :=
  mkAo _ (samplerate a) (ao_channels a) (format a) (sstride a) (untimed a)
    (ao_priv a) c (log a).

Definition mp_msg (lvl : msg_level) (text : string) (a : ao) : ao :=
  mkAo _ (samplerate a) (ao_channels a) (format a) (sstride a) (untimed a)
    (ao_priv a) (encode_lavc_ctx a) (log a ++ [(lvl, text)]).

Definition MP_ERR := mp_msg MSGL_ERR.
Definition MP_WARN := mp_msg MSGL_WARN.
Definition MP_VERBOSE := mp_msg MSGL_V.
End Updates.

(** Sequencing of steps that can fail to produce a state: [None] is a
    dereference of a null [priv], [stream] or [codec], a failed [assert],
    or a loop that has not finished within its fuel. *)
Notation "x <- e ;; k" :=
  (match e with Some x => k | None => None end)
  (at level 61, e at next level, right associativity).
Notation "' pat <- e ;; k" :=
  (match e with Some pat => k | None => None end)
  (at level 61, pat pattern, e at next level, right associativity).

(* ===================================================================== *)
(** * The functions of ao_lavc.c *)

Section AoLavc.
Context `{External}.

(** ** supports_format, select_format *)

Fixpoint supports_format_from (fmts : list Z) (fmt : Z) : bool :=
  match fmts with
  | [] => false
  | f :: rest =>
      if f =? AV_SAMPLE_FMT_NONE then false
      else if af_from_avformat f =? fmt then true
      else supports_format_from rest fmt
  end.

Definition supports_format (c : AVCodec) (fmt : Z) : bool :=
  match sample_fmts c with
  | None => false
  | Some fmts => supports_format_from fmts fmt
  end.

Fixpoint select_format_from (c : AVCodec) (formats : list Z) (cur : Z) : Z :=
  match formats with
  | [] => cur
  | f :: rest =>
      if f =? 0 then cur
      else if supports_format c f then f
      else select_format_from c rest cur
  end.

Definition select_format (fmt : Z) (c : AVCodec) : Z :=
  select_format_from c (af_get_best_sample_formats fmt) fmt.

(** ** init *)

(** [talloc_zero(ao, struct priv)] *)
Definition zero_priv : priv :=
  mkPriv _ None None 0 0 0 0 0 0 0 0%float (mkRational 0 0) 0 false.

(** The [fail:] label. *)
Definition init_fail (p : priv) (a : ao) : Z * ao :=
  (-1, set_priv (Some (set_shutdown true p)) a).

(** [available] is what [encode_lavc_available(ao->encode_lavc_ctx)]
    answers. *)
Definition init (available : bool) (a0 : ao) : Z * ao :=
  let p0 := zero_priv in
  let a := set_priv (Some p0) a0 in
  if negb available then
    (-1, MP_ERR "the option --o (output file) must be specified" a)
  else
    let ectx := encode_lavc_ctx a in
    match encode_lavc_alloc_stream ectx with
    | None => init_fail p0 (MP_ERR "could not get a new audio stream" a)
    | Some (st, cc) =>
        let avcodec := ac ectx in
        let best :=
          af_select_best_samplerate (samplerate a)
            (supported_samplerates avcodec) in
        let rate := if 0 <? best then best else samplerate a in
        let st1 := mkStream (index st) (mkRational 1 rate) in
        let cc0 :=
          mkCodecCtx _ (mkRational 1 rate) rate (channels cc)
            (channel_layout cc) (sample_fmt cc) (bits_per_raw_sample cc)
            (frame_size cc) (codec_id cc) (global_quality cc) (enc cc)
            (sent cc) in
        let p1 :=
          mkPriv _ (Some st1) (Some cc0) 0 0 0 0 0 0 0 0%float
            (mkRational 0 0) 0 false in
        match ao_chmap_sel_adjust2 (ao_channels a) with
        | None =>
            init_fail p1
              (mkAo _ rate (ao_channels a) (format a) (sstride a)
                 (untimed a) (Some p1) ectx (log a))
        | Some adjusted =>
            let chmap := mp_chmap_reorder_to_lavc adjusted in
            let fmt := select_format (format a) avcodec in
            let ssize := af_fmt_to_bytes fmt in
            let cc1 :=
              mkCodecCtx _ (mkRational 1 rate) rate (chmap_num chmap)
                (mp_chmap_to_lavc chmap) (af_to_avformat fmt)
                (wrap32 (ssize * 8)) (frame_size cc) (codec_id cc)
                (global_quality cc) (enc cc) (sent cc) in
            let a1 :=
              mkAo _ rate chmap fmt (sstride a) (untimed a) (Some p1) ectx
                (log a) in
            match encode_lavc_open_codec ectx cc1 with
            | None =>
                init_fail
                  (mkPriv _ (Some st1) (Some cc1) 0 0 0 0 0 0 ssize 0%float
                     (mkRational 0 0) 0 false) a1
            | Some cc2 =>
                let hack :=
                  if frame_size cc2 <=? 1
                  then Z.quot (av_get_bits_per_sample (codec_id cc2)) 8
                  else 0 in
                let fsize := if hack =? 0 then frame_size cc2 else 16384 in
                let fcount :=
                  double_to_int
                    (ceilZ (Z_to_double rate * 0.25 / Z_to_double fsize)%float) in
                let p2 :=
                  mkPriv _ (Some st1) (Some cc2) hack fsize 0 AV_NOPTS_VALUE
                    (FFMAX fcount 1) AV_NOPTS_VALUE ssize 0%float
                    (mkRational 0 0) 0 false in
                let a2 :=
                  mkAo _ rate chmap fmt (sstride a) true (Some p2) ectx
                    (log a) in
                if AV_NUM_DATA_POINTERS <? chmap_num chmap
                then init_fail p2 a2
                else (0, a2)
            end
        end
    end.

(** ** get_space *)


(** ** write_packet *)

Definition write_packet (a : ao) (packet : AVPacket) : option ao :=
  p <- ao_priv a ;;
  st <- stream p ;;
  cc <- codec p ;;
  let ctb := codec_time_base cc in
  let stb := stream_time_base st in
  let '(pts1, a1) :=
    if negb (pkt_pts packet =? AV_NOPTS_VALUE) then
      (av_rescale_q (pkt_pts packet) ctb stb, a)
    else
      let a' := MP_WARN "encoder lost pts, why?" a in
      if negb (PrimFloat.eqb (Z_to_double (savepts p)) MP_NOPTS_VALUE)
      then (av_rescale_q (savepts p) ctb stb, a')
      else (pkt_pts packet, a') in
  let dts1 :=
    if negb (pkt_dts packet =? AV_NOPTS_VALUE)
    then av_rescale_q (pkt_dts packet) ctb stb
    else pkt_dts packet in
  let dur1 :=
    if 0 <? duration packet
    then av_rescale_q (duration packet) ctb stb
    else duration packet in
  let packet1 := mkPacket (index st) pts1 dts1 dur1 in
  let a2 := set_priv (Some (set_savepts AV_NOPTS_VALUE p)) a1 in
  let ectx := encode_lavc_ctx a2 in
  let a3 := set_ectx (set_muxed (muxed ectx ++ [packet1]) ectx) a2 in
  if encode_lavc_write_frame ectx st packet1 <? 0
  then Some (MP_ERR "error writing" a3)
  else Some a3.

(** ** encode_audio_and_write (the avcodec_send_frame /
       avcodec_receive_packet branch) *)

Definition receive_one (frame : option AVFrame) (a : ao)
    (packet : AVPacket) : option ao :=
  p <- ao_priv a ;;
  let a1 :=
    match frame with
    | Some f =>
        if savepts p =? AV_NOPTS_VALUE
        then set_priv (Some (set_savepts (frame_pts f) p)) a
        else a
    | None => a
    end in
  write_packet a1 packet.

Fixpoint receive_loop (frame : option AVFrame) (a : ao)
    (packets : list AVPacket) : option ao :=
  match packets with
  | [] => Some a
  | packet :: rest =>
      a1 <- receive_one frame a packet ;;
      receive_loop frame a1 rest
  end.

(** The call of [avcodec_receive_packet] that ends the loop. *)
Definition receive_end (frame : option AVFrame) (status : Z) (a : ao) : ao :=
  if status =? AVERROR_EAGAIN then
    match frame with
    | None => MP_ERR "sent flush frame, got EAGAIN" a
    | Some _ => a
    end
  else if status =? AVERROR_EOF then
    match frame with
    | Some _ => MP_ERR "sent audio frame, got EOF" a
    | None => a
    end
  else if status <? 0 then MP_ERR "error encoding" a
  else a.

Definition encode_audio_and_write (a : ao) (frame : option AVFrame)
    : option ao :=
  p <- ao_priv a ;;
  cc <- codec p ;;
  let '(status, e1) := avcodec_send_frame (enc cc) frame in
  let cc1 := set_enc e1 (sent cc ++ [frame]) cc in
  let a1 := set_priv (Some (set_codec (Some cc1) p)) a in
  if status <? 0 then Some (MP_ERR "error encoding" a1)
  else
    let '(packets, last, e2) := avcodec_receive_packets e1 in
    let a2 :=
      set_priv (Some (set_codec (Some (set_enc e2 (sent cc1) cc1)) p)) a in
    a3 <- receive_loop frame a2 packets ;;
    Some (receive_end frame last a3).

(** ** encode *)

(** [af_fmt_is_planar(ao->format) ? ao->channels.num : 1], a [size_t]. *)
Definition num_planes (a : ao) : Z :=
  wrap_size_t
    (if af_fmt_is_planar (format a) then chmap_num (ao_channels a) else 1).

(** [floor(t * tb.den / tb.num + 0.5)] stored into the [int64_t] pts. *)
Definition seconds_to_pts (t : float) (tb : AVRational) : Z :=
  double_to_int64
    (floorZ (t * Z_to_double (den tb) / Z_to_double (num tb) + 0.5)%float).

(** Lines 357-366: the pts of the frame in the codec base, checked against
    [lastpts] in the worst base.  Gives the value for [ac->lastpts], the
    value for [frame->pts], and whether the warning is printed. *)
Definition monotonic_pts (p : priv) (ctb : AVRational) (pts : Z)
    : Z * Z * bool :=
  let frame_pts := av_rescale_q pts ctb (worst_time_base p) in
  if negb (lastpts p =? AV_NOPTS_VALUE) && (frame_pts <=? lastpts p) then
    let frame_pts' := wrap64 (lastpts p + 1) in
    (frame_pts', av_rescale_q frame_pts' (worst_time_base p) ctb, true)
  else (frame_pts, pts, false).

(** [ac->aframecount * (double) ac->aframesize / ao->samplerate] *)
Definition realapts (a : ao) (p : priv) : float :=
  (Z_to_double (aframecount p) * Z_to_double (aframesize p)
     / Z_to_double (samplerate a))%float.

(** Lines 349-355: the pts of the frame before the monotonicity check. *)
Definition initial_frame_pts (a : ao) (p : priv) (cc : AVCodecContext)
    (apts : float) : Z :=
  if rawts (options (encode_lavc_ctx a)) || copyts (options (encode_lavc_ctx a))
  then seconds_to_pts apts (codec_time_base cc)
  else seconds_to_pts (realapts a p) (codec_time_base cc).

(** Lines 338-347 and 368: the frame, with the planes it points into cut to
    [linesize[0]] bytes. *)
Definition make_frame (a : ao) (p : priv) (cc : AVCodecContext)
    (planes : list plane) (pts : Z) : AVFrame :=
  let linesize := wrap32 (aframesize p * sstride a) in
  mkFrame (af_to_avformat (format a)) (aframesize p)
    (map (firstn (Z.to_nat linesize))
       (firstn (Z.to_nat (num_planes a)) planes))
    linesize pts (global_quality cc).

Definition encode (a : ao) (apts : float) (data : option (list plane))
    : option ao :=
  p <- ao_priv a ;;
  let ectx := encode_lavc_ctx a in
  let p1 := set_aframecount (wrap32 (aframecount p + 1)) p in
  match data with
  | Some planes =>
      let ectx1 := set_audio_pts_offset (realapts a p - apts)%float ectx in
      let a1 := set_ectx ectx1 (set_priv (Some p1) a) in
      if negb (num_planes a <=? AV_NUM_DATA_POINTERS) then None (* assert *)
      else
        cc <- codec p ;;
        let '(last, pts1, warned) :=
          monotonic_pts p (codec_time_base cc) (initial_frame_pts a p cc apts) in
        let a2 :=
          if warned
          then MP_WARN "audio frame pts went backwards, autofixed" a1
          else a1 in
        encode_audio_and_write
          (set_priv (Some (set_lastpts last p1)) a2)
          (Some (make_frame a p cc planes pts1))
  | None => encode_audio_and_write (set_priv (Some p1) a) None
  end.

(** ** play *)

(** Lines 403-414: the silence-padded scratch copy of a final chunk. *)
Definition pad_final_chunk (a : ao) (p : priv) (data : list plane)
    (samples : Z) : list plane * Z :=
  let bytelen := wrap_size_t (wrap32 (samples * sstride a)) in
  let extralen := wrap_size_t (wrap32 ((aframesize p - 1) * sstride a)) in
  let padded :=
    map (fun d => firstn (Z.to_nat bytelen) d
                    ++ af_fill_silence (Z.to_nat extralen) (format a))
      (firstn (Z.to_nat (num_planes a)) data) in
  (padded,
   wrap32 (wrap_size_t (bytelen + extralen) / wrap_size_t (sstride a))).

(** Lines 422-443: which of the two time bases is the worse one.  The
    products are taken in [double]. *)
Definition codec_base_is_worst (ctb stb : AVRational) : bool :=
  double_mul_int (num stb) (den ctb) <=? double_mul_int (num ctb) (den stb).

Definition choose_worst_time_base (a : ao) : option ao :=
  p <- ao_priv a ;;
  if den (worst_time_base p) =? 0 then
    cc <- codec p ;;
    st <- stream p ;;
    if codec_base_is_worst (codec_time_base cc) (stream_time_base st) then
      Some (MP_VERBOSE
              "NOTE: using codec time base for pts adjustment; the stream base is not worse."
              (set_priv (Some (set_worst_time_base (codec_time_base cc) 0 p)) a))
    else
      Some (MP_WARN
              "NOTE: not using codec time base for pts adjustment; the stream base is worse."
              (set_priv (Some (set_worst_time_base (stream_time_base st) 1 p)) a))
  else Some a.

(** Lines 462-480: fix and apply the discontinuity pts offset.  Gives
    [outpts] as it stands after line 480. *)
Definition apply_discontinuity (a : ao) (pts : float) : float * ao :=
  let ectx := encode_lavc_ctx a in
  if negb (rawts (options ectx)) && copyts (options ectx) then
    let nextpts := pts in
    let a1 :=
      if PrimFloat.eqb (discontinuity_pts_offset ectx) MP_NOPTS_VALUE then
        set_ectx
          (set_discontinuity_pts_offset (next_in_pts ectx - nextpts)%float
             ectx) a
      else if PrimFloat.ltb 30
                (PrimFloat.abs
                   (nextpts + discontinuity_pts_offset ectx
                    - next_in_pts ectx))%float then
        set_ectx
          (set_discontinuity_pts_offset (next_in_pts ectx - nextpts)%float
             ectx)
          (MP_WARN "detected an unexpected discontinuity" a)
      else a in
    ((pts + discontinuity_pts_offset (encode_lavc_ctx a1))%float, a1)
  else (pts, a).

(** Lines 485-491: one [encode] call per whole frame.  Gives the state and
    the final [bufpos]. *)
Fixpoint play_loop (fuel : nat) (a : ao) (data : list plane) (samples : Z)
    (outpts : float) (bufpos : Z) : option (ao * Z) :=
  p <- ao_priv a ;;
  if aframesize p <=? wrap32 (samples - bufpos) then
    match fuel with
    | O => None
    | S fuel' =>
        let start :=
          map (skipn (Z.to_nat (wrap32 (bufpos * sstride a))))
            (firstn (Z.to_nat (num_planes a)) data) in
        a1 <- encode a
                (outpts + Z_to_double bufpos / Z_to_double (samplerate a))%float
                (Some start) ;;
        play_loop fuel' a1 data samples outpts
          (wrap32 (bufpos + aframesize p))
    end
  else Some (a, bufpos).

(** Lines 422-520: what [play] does once the pts of the batch is settled. *)
Definition play_with_pts (fuel : nat) (a1 : ao) (pts : float)
    (data : list plane) (samples orig_samples : Z) (final : bool)
    : option (Z * ao) :=
  a2 <- choose_worst_time_base a1 ;;
  let '(outpts, a3) := apply_discontinuity a2 pts in
  p3 <- ao_priv a3 ;;
  cc <- codec p3 ;;
  let outpts :=
    (outpts + encode_lavc_getoffset (encode_lavc_ctx a3) cc)%float in
  '(a4, bufpos) <- play_loop fuel a3 data samples outpts 0 ;;
  p4 <- ao_priv a4 ;;
  let next := (pts + Z_to_double bufpos / Z_to_double (samplerate a4))%float in
  let a5 := set_priv (Some (set_expected_next_pts next p4)) a4 in
  let ectx5 := encode_lavc_ctx a5 in
  let a6 :=
    if negb (rawts (options ectx5)) && copyts (options ectx5) then
      let nextpts := (next + discontinuity_pts_offset ectx5)%float in
      if PrimFloat.ltb (next_in_pts ectx5) nextpts
      then set_ectx (set_next_in_pts nextpts ectx5) a5
      else a5
    else a5 in
  let taken := FFMIN bufpos orig_samples in
  let ectx6 := encode_lavc_ctx a6 in
  let a7 :=
    set_ectx
      (set_samples_since_last_pts
         (wrap64 (samples_since_last_pts ectx6 + taken)) ectx6) a6 in
  let a8 :=
    if final then
      if bufpos <? orig_samples
      then MP_ERR "did not write enough data at the end" a7
      else a7
    else
      if orig_samples <? bufpos
      then MP_ERR "audio buffer overflow (should never happen)" a7
      else a7 in
  Some (taken, a8).

(** Lines 395-396: the pts of the batch as [play] receives it. *)
Definition input_pts (a : ao) : float :=
  (last_audio_in_pts (encode_lavc_ctx a)
   + Z_to_double (samples_since_last_pts (encode_lavc_ctx a))
     / Z_to_double (samplerate a))%float.

(** [started] is what [encode_lavc_start(ectx)] answers at this call. *)
Definition play (fuel : nat) (started : bool) (a : ao) (data : list plane)
    (samples : Z) (flags : Z) : option (Z * ao) :=
  let orig_samples := samples in
  if negb started then
    Some (0, MP_WARN "not ready yet for encoding audio" a)
  else
    p <- ao_priv a ;;
    let pts := input_pts a in
    let final := negb (Z.land flags AOPLAY_FINAL_CHUNK =? 0) in
    let '(data, samples) :=
      if final && negb (Z.rem samples (aframesize p) =? 0)
      then pad_final_chunk a p data samples
      else (data, samples) in
    if PrimFloat.eqb pts MP_NOPTS_VALUE then
      play_with_pts fuel
        (MP_WARN
           "frame without pts, please report; synthesizing pts instead" a)
        (expected_next_pts p) data samples orig_samples final
    else play_with_pts fuel a pts data samples orig_samples final.

(** ** uninit *)

(** [started] is what [encode_lavc_start(ectx)] answers at this call. *)
Definition uninit (started : bool) (a : ao) : option ao :=
  match ao_priv a with
  | None => Some a
  | Some p =>
      if shutdown p then Some a
      else if negb started then
        Some (MP_WARN "not even ready to encode audio at end -> dropped" a)
      else
        a1 <- match stream p with
              | Some _ =>
                  cc <- codec p ;;
                  let ectx := encode_lavc_ctx a in
                  let outpts := expected_next_pts p in
                  let outpts :=
                    if negb (rawts (options ectx)) && copyts (options ectx)
                    then (outpts + discontinuity_pts_offset ectx)%float
                    else outpts in
                  let outpts :=
                    (outpts + encode_lavc_getoffset ectx cc)%float in
                  encode a outpts None
              | None => Some a
              end ;;
        p1 <- ao_priv a1 ;;
        Some (set_priv (Some (set_shutdown true p1)) a1)
  end.

(** ** drain: nothing to do. *)
Definition drain (a : ao) : ao := a.

End AoLavc.

(* ===================================================================== *)
(** * Observations on a session *)

Section Observations.
Context `{External}.

(** The session has its private data, its stream and its codec context. *)
Definition live (a : ao) : Prop :=
  exists p st cc,
    ao_priv a = Some p /\ stream p = Some st /\ codec p = Some cc.

(** What was handed to [avcodec_send_frame] so far. *)
Definition the_sent (a : ao) : list (option AVFrame) :=
  match ao_priv a with
  | Some p => match codec p with Some cc => sent cc | None => [] end
  | None => []
  end.

Definition is_flush (f : option AVFrame) : bool :=
  match f with None => true | Some _ => false end.

(** Number of end-of-stream submissions so far. *)
Definition flushes (a : ao) : nat := List.length (filter is_flush (the_sent a)).

Definition is_shutdown (a : ao) : bool :=
  match ao_priv a with Some p => shutdown p | None => false end.

(** The parts of a session that neither the encoder nor the muxer nor
    [encode] writes to. *)
Definition codec_fixed (cc : AVCodecContext) :=
  (codec_time_base cc, sample_rate cc, channels cc, channel_layout cc,
   sample_fmt cc, bits_per_raw_sample cc, frame_size cc, codec_id cc,
   global_quality cc).

Definition priv_fixed (p : priv) :=
  (stream p, option_map codec_fixed (codec p), pcmhack p, aframesize p,
   framecount p, sample_size p, expected_next_pts p, worst_time_base p,
   worst_time_base_is_stream p, shutdown p).

Definition ectx_fixed (c : encode_lavc_context) :=
  (options c, ac c, discontinuity_pts_offset c, next_in_pts c,
   last_audio_in_pts c, samples_since_last_pts c).

Definition ao_fixed (a : ao) :=
  (samplerate a, ao_channels a, format a, sstride a, untimed a,
   option_map priv_fixed (ao_priv a), ectx_fixed (encode_lavc_ctx a)).

(** A session after the encoder and the muxer have run: [savepts], the
    encoder state, both ghost traces and the log are new, the rest is
    that of [a], [p] and [cc]. *)
Definition io_update (a : ao) (p : priv) (cc : AVCodecContext) (sv : Z)
    (e : encoder) (snt : list (option AVFrame)) (mx : list AVPacket)
    (lg : list message) : ao :=
  mkAo _ (samplerate a) (ao_channels a) (format a) (sstride a) (untimed a)
    (Some
       (mkPriv _ (stream p)
          (Some
             (mkCodecCtx _ (codec_time_base cc) (sample_rate cc) (channels cc)
                (channel_layout cc) (sample_fmt cc) (bits_per_raw_sample cc)
                (frame_size cc) (codec_id cc) (global_quality cc) e snt))
          (pcmhack p) (aframesize p) (aframecount p) sv (framecount p)
          (lastpts p) (sample_size p) (expected_next_pts p)
          (worst_time_base p) (worst_time_base_is_stream p) (shutdown p)))
    (mkEctx (options (encode_lavc_ctx a)) (ac (encode_lavc_ctx a))
       (discontinuity_pts_offset (encode_lavc_ctx a))
       (next_in_pts (encode_lavc_ctx a))
       (audio_pts_offset (encode_lavc_ctx a))
       (last_audio_in_pts (encode_lavc_ctx a))
       (samples_since_last_pts (encode_lavc_ctx a)) mx)
    (log a ++ lg).


(** The session as [encode] hands it to [encode_audio_and_write]. *)
Definition before_submit (a : ao) (p : priv) (apts : float) (last : Z)
    (warned : bool) : ao :=
  set_priv
    (Some (set_lastpts last (set_aframecount (wrap32 (aframecount p + 1)) p)))
    ((if warned
      then MP_WARN "audio frame pts went backwards, autofixed"
      else fun x => x)
       (set_ectx
          (set_audio_pts_offset (realapts a p - apts)%float (encode_lavc_ctx a))
          a)).

(** The bytes of the frame that [play] cuts at sample [bufpos]: each plane
    from byte [bufpos * sstride] on, [aframesize * sstride] bytes long. *)
Definition frame_data (fsize stride planes : Z) (data : list plane)
    (bufpos : Z) : list plane :=
  map (firstn (Z.to_nat (wrap32 (fsize * stride))))
    (firstn (Z.to_nat planes)
       (map (skipn (Z.to_nat (wrap32 (bufpos * stride))))
          (firstn (Z.to_nat planes) data))).

(** The time base [choose_worst_time_base] settles on, and its
    [worst_time_base_is_stream] flag. *)
Definition chosen_base (p : priv) (cc : AVCodecContext) (st : AVStream)
    : AVRational * Z :=
  if den (worst_time_base p) =? 0 then
    if codec_base_is_worst (codec_time_base cc) (stream_time_base st)
    then (codec_time_base cc, 0)
    else (stream_time_base st, 1)
  else (worst_time_base p, worst_time_base_is_stream p).

(** [flags & AOPLAY_FINAL_CHUNK], and the test of line 403. *)
Definition is_final (flags : Z) : bool :=
  negb (Z.land flags AOPLAY_FINAL_CHUNK =? 0).

Definition needs_padding (p : priv) (samples flags : Z) : bool :=
  is_final flags && negb (Z.rem samples (aframesize p) =? 0).

(** Lines 416-420: the pts [play] works with, and what it prints when it
    has to make one up. *)
Definition effective_pts (a : ao) (p : priv) : float :=
  if PrimFloat.eqb (input_pts a) MP_NOPTS_VALUE
  then expected_next_pts p else input_pts a.

Definition missing_pts_warning (a : ao) : list message :=
  if PrimFloat.eqb (input_pts a) MP_NOPTS_VALUE
  then [(MSGL_WARN,
         "frame without pts, please report; synthesizing pts instead"%string)]
  else [].

(** What [play] relies on and never writes: the sample layout, the frame
    size, the stream and the codec time base. *)
Definition layout (a : ao) :=
  (sstride a, format a, ao_channels a,
   option_map
     (fun p => (aframesize p, stream p,
                option_map codec_time_base (codec p)))
     (ao_priv a)).

(** A run of [play] calls on one session, each with what
    [encode_lavc_start] answers, the buffers, the sample count and the
    flags; gives the counts returned. *)
Fixpoint play_calls (fuel : nat)
    (calls : list (bool * list plane * Z * Z)) (a : ao)
    : option (list Z * ao) :=
  match calls with
  | [] => Some ([], a)
  | (started, data, samples, flags) :: rest =>
      '(taken, a1) <- play fuel started a data samples flags ;;
      '(counts, a2) <- play_calls fuel rest a1 ;;
      Some (taken :: counts, a2)
  end.

(** A sample count that [play] can pad and frame within its fuel. *)
Definition fits (fuel : nat) (fsize stride samples : Z) : Prop :=
  0 <= samples /\
  (samples + fsize - 1) * stride <= INT_MAX /\
  (samples + fsize - 1) / fsize < Z.of_nat fuel.

(** A recorded pts that is neither the "unset" value nor the largest
    [int64_t], so that it has a successor. *)
Definition has_successor (v : Z) : Prop :=
  v <> AV_NOPTS_VALUE /\ INT64_MIN <= v < INT64_MAX.





End Observations.

(* ===================================================================== *)
(** * A concrete configuration, for running the model *)

(** An encoder that queues what it is sent and hands out one packet per
    frame, and end-of-stream once flushed. *)
Definition sample_encoder : Encoder :=
  {| encoder := list Z * bool;
     avcodec_send_frame := fun e f =>
       match f with
       | Some fr => (0, (fst e ++ [frame_pts fr], snd e))
       | None => (0, (fst e, true))
       end;
     avcodec_receive_packets := fun e =>
       (map (fun t => mkPacket 0 t t 1) (fst e),
        if snd e then -541478725 else -11,
        ([], snd e)) |}.

Definition sample_codec_ctx : @AVCodecContext sample_encoder :=
  @mkCodecCtx sample_encoder (mkRational 1 48000) 48000 2 3 1 16 10 0 0
    ([], false) [].

Definition sample_external : @External sample_encoder :=
  @Build_External sample_encoder
    INT64_MIN (-0x1p+63)%float 8 1 (-1) (-11) (-541478725)
    rescale
    (fun _ => 0)
    (fun _ => Some (mkStream 0 (mkRational 1 48000), sample_codec_ctx))
    (fun _ cc => Some cc)
    (fun _ _ => 0%float)
    (fun _ _ _ => 0)
    (fun rate _ => rate)
    (fun fmt => [fmt])
    (fun f => f)
    (fun f => f)
    (fun _ => 2)
    (fun _ => false)
    (fun n _ => repeat Byte.x00 n)
    (fun n _ => repeat_length Byte.x00 n)
    Some
    (fun c => c)
    (fun _ => 3).

(** Sessions as [init] leaves them: 10-sample frames at 48 kHz, interleaved
    16-bit samples, 4 bytes per sample step, codec time base 1/48000, given
    the stream time base, the options, [lastpts], the worst time base and
    the timing state of the shared context. *)
Definition sample_session (stb : AVRational) (opts : encode_opts) (last : Z)
    (worst : AVRational) (in_pts offset next : float) (nch : Z)
    : @ao sample_encoder :=
  @mkAo sample_encoder 48000 (mkChmap nch []) 1 4 true
    (Some
       (@mkPriv sample_encoder (Some (mkStream 0 stb))
          (Some sample_codec_ctx) 0 10 0 INT64_MIN 1200 last 2 0%float
          worst 0 false))
    (mkEctx opts (mkAVCodec [] None) offset next 0%float in_pts 0 [])
    [].

(** Just initialised; the muxer has set the stream time base to 1/1000. *)
Definition sample_ao : @ao sample_encoder :=
  sample_session (mkRational 1 1000) (mkOpts false false) INT64_MIN
    (mkRational 0 0) 0%float (-0x1p+63)%float 0%float 2.


(** The same after a frame at 3 seconds. *)
Definition sample_played : @ao sample_encoder :=
  sample_session (mkRational 1 1000) (mkOpts true false) 3000
    (mkRational 1 1000) 0%float (-0x1p+63)%float 0%float 2.

(** In copyts mode, next allowed input pts 10, with the given offset. *)
Definition sample_copyts (offset : float) : @ao sample_encoder :=
  sample_session (mkRational 1 1000) (mkOpts false true) INT64_MIN
    (mkRational 1 1000) 0%float offset 10%float 2.


(** With nine channels asked for. *)
Definition sample_nine_channels : @ao sample_encoder :=
  sample_session (mkRational 1 1000) (mkOpts false false) INT64_MIN
    (mkRational 0 0) 0%float (-0x1p+63)%float 0%float 9.

(** One plane of 25 samples, 4 bytes each. *)
Definition sample_data : list plane :=
  [map (fun n => match Byte.of_nat n with Some b => b | None => Byte.x00 end)
     (seq 1 100)].

(** Two time bases whose cross products differ by one past the 54th bit:
    the codec tick is 2^28/(2^27+1), the stream tick (2^27+1)/(2^26+1). *)
Definition close_codec_base : AVRational := mkRational (2 ^ 28) (2 ^ 27 + 1).
Definition close_stream_base : AVRational :=
  mkRational (2 ^ 27 + 1) (2 ^ 26 + 1).


Definition sample_lowest_pts : float := (-0x1p+63 / 48000)%float.

(** The same with that pts as the pts of the input. *)
Definition sample_lowest : @ao sample_encoder :=
  sample_session (mkRational 1 48000) (mkOpts true false) INT64_MIN
    (mkRational 1 48000) sample_lowest_pts (-0x1p+63)%float 0%float 2.


(** [sample_ao] with two frames still held by the encoder, the first of
    them without a pts. *)
Definition sample_pending_codec_ctx : @AVCodecContext sample_encoder :=
  @mkCodecCtx sample_encoder (mkRational 1 48000) 48000 2 3 1 16 10 0 0
    ([INT64_MIN; 480], false) [].

Definition sample_pending_priv : @priv sample_encoder :=
  @mkPriv sample_encoder (Some (mkStream 0 (mkRational 1 1000)))
    (Some sample_pending_codec_ctx) 0 10 0 INT64_MIN 1200 INT64_MIN 2
    0%float (mkRational 0 0) 0 false.

Definition sample_pending : @ao sample_encoder :=
  @mkAo sample_encoder 48000 (mkChmap 2 []) 1 4 true
    (Some sample_pending_priv)
    (mkEctx (mkOpts false false) (mkAVCodec [] None) (-0x1p+63)%float
       0%float 0%float 0%float 0 [])
    [].

(** The stream and the private data of [sample_ao], a frame of 10 samples
    with pts 480, and an encoder of the older interface that answers as
    [sample_encoder] does. *)
Definition sample_stream : AVStream := mkStream 0 (mkRational 1 1000).

Definition sample_priv : @priv sample_encoder :=
  @mkPriv sample_encoder (Some sample_stream) (Some sample_codec_ctx)
    0 10 0 INT64_MIN 1200 INT64_MIN 2 0%float (mkRational 0 0) 0 false.

Definition sample_frame : AVFrame := mkFrame 1 10 [] 40 480 0.

Definition sample_encode_audio2 (e : list Z * bool) (f : option AVFrame)
    : Z * option AVPacket * (list Z * bool) :=
  match f with
  | Some fr => (0, Some (mkPacket 0 (frame_pts fr) (frame_pts fr) 1), e)
  | None => (0, None, e)
  end.

(* ===================================================================== *)
(** * The packet side and the older encoder interface *)

Section PacketSide.
Context `{External}.

(** Lines 218-241: the packet as [write_packet] hands it to the muxer, when
    [ac->savepts] holds [sv]. *)
Definition written_packet (st : AVStream) (cc : AVCodecContext) (sv : Z)
    (packet : AVPacket) : AVPacket :=
  let ctb := codec_time_base cc in
  let stb := stream_time_base st in
  mkPacket (index st)
    (if negb (pkt_pts packet =? AV_NOPTS_VALUE)
     then av_rescale_q (pkt_pts packet) ctb stb
     else if negb (PrimFloat.eqb (Z_to_double sv) MP_NOPTS_VALUE)
          then av_rescale_q sv ctb stb
          else pkt_pts packet)
    (if negb (pkt_dts packet =? AV_NOPTS_VALUE)
     then av_rescale_q (pkt_dts packet) ctb stb
     else pkt_dts packet)
    (if 0 <? duration packet
     then av_rescale_q (duration packet) ctb stb
     else duration packet).

(** The pts that lines 292-295 save for the packets of one submission. *)
Definition pts_for (frame : option AVFrame) : Z :=
  match frame with
  | Some f => frame_pts f
  | None => AV_NOPTS_VALUE
  end.

Definition the_muxed (a : ao) : list AVPacket := muxed (encode_lavc_ctx a).

Definition the_savepts (a : ao) : option Z := option_map savepts (ao_priv a).

(** ** encode_audio_and_write, the [avcodec_encode_audio2] branch (lines
    301-320).  The call gives the status, the packet if it got one, and the
    new encoder state. *)
Definition encode_audio_and_write_old_api
    (avcodec_encode_audio2 :
       encoder -> option AVFrame -> Z * option AVPacket * encoder)
    (a : ao) (frame : option AVFrame) : option ao :=
  p <- ao_priv a ;;
  cc <- codec p ;;
  let '(status, got_packet, e1) := avcodec_encode_audio2 (enc cc) frame in
  let cc1 := set_enc e1 (sent cc ++ [frame]) cc in
  let a1 := set_priv (Some (set_codec (Some cc1) p)) a in
  if status <? 0 then Some (MP_ERR "error encoding" a1)
  else
    match got_packet with
    | None => Some a1
    | Some packet => receive_one frame a1 packet
    end.

(** What the encoder answers to a run of submissions from state [e]: for
    each one the packets that the loop of lines 270-299 reads back after it,
    none when [avcodec_send_frame] refuses it (line 263). *)
Fixpoint encoder_run (e : encoder) (subs : list (option AVFrame))
    : list (option AVFrame * list AVPacket) * encoder :=
  match subs with
  | [] => ([], e)
  | f :: rest =>
      let '(status, e1) := avcodec_send_frame e f in
      let '(packets, e2) :=
        if status <? 0 then ([], e1)
        else let '(packets, _, e2) := avcodec_receive_packets e1 in
             (packets, e2) in
      let '(out, e') := encoder_run e2 rest in
      ((f, packets) :: out, e')
  end.

(** The packets of such a run as [write_packet] hands them to the muxer. *)
Definition muxer_input (st : AVStream) (cc : AVCodecContext)
    (run : list (option AVFrame * list AVPacket)) : list AVPacket :=
  flat_map
    (fun r => map (written_packet st cc (pts_for (fst r))) (snd r)) run.

(** [a'] is [a] after the submissions [subs] went through the encoder and
    their packets to the muxer, with no pts left saved. *)
Definition forwarded (st : AVStream) (cc : AVCodecContext) (a a' : ao)
    (subs : list (option AVFrame)) : Prop :=
  exists p' cc',
    ao_priv a' = Some p' /\ stream p' = Some st /\ codec p' = Some cc' /\
    savepts p' = AV_NOPTS_VALUE /\
    codec_time_base cc' = codec_time_base cc /\
    sent cc' = sent cc ++ subs /\
    enc cc' = snd (encoder_run (enc cc) subs) /\
    the_muxed a'
    = the_muxed a ++ muxer_input st cc (fst (encoder_run (enc cc) subs)) /\
    is_shutdown a' = is_shutdown a.

(** A session from its first [play] call to [uninit], with the encoder
    started by then; gives the counts that the [play] calls return. *)
Definition session (fuel : nat) (calls : list (bool * list plane * Z * Z))
    (a : ao) : option (list Z * ao) :=
  '(counts, a1) <- play_calls fuel calls a ;;
  a2 <- uninit true a1 ;;
  Some (counts, a2).

End PacketSide.

(* ===================================================================== *)
(** * Rounding to nearest and the round trip through a finer base *)

Lemma round_div_pos_den (n d : Z) :
  0 < d ->
  round_div n d =
    if n <? 0 then - ((2 * (- n) + d) / (2 * d)) else (2 * n + d) / (2 * d).
Proof.
  intros Hd. unfold round_div.
  assert (Hlt : (d <? 0) = false) by (apply Z.ltb_ge; lia).
  rewrite Hlt, Z.abs_eq by lia. reflexivity.
Qed.

(** The result is within half a unit of n/d. *)
Lemma round_div_near (n d : Z) :
  0 < d -> Z.abs (2 * n - 2 * d * round_div n d) <= d.
Proof.
  intros Hd. rewrite round_div_pos_den by assumption.
  destruct (Z.ltb_spec n 0) as [Hn | Hn].
  - pose proof (Z.div_mod (2 * (- n) + d) (2 * d) ltac:(lia)) as E.
    pose proof (Z.mod_pos_bound (2 * (- n) + d) (2 * d) ltac:(lia)) as B.
    lia.
  - pose proof (Z.div_mod (2 * n + d) (2 * d) ltac:(lia)) as E.
    pose proof (Z.mod_pos_bound (2 * n + d) (2 * d) ltac:(lia)) as B.
    lia.
Qed.

(** An integer strictly within half a unit of n/d is the rounded value. *)
Lemma round_div_unique (n d x : Z) :
  0 < d -> Z.abs (2 * n - 2 * d * x) < d -> round_div n d = x.
Proof.
  intros Hd Hx. pose proof (round_div_near n d Hd) as Hr.
  set (r := round_div n d) in *.
  assert (Z.abs (2 * d * (r - x)) < 2 * d) by lia.
  assert (Z.abs (r - x) < 1) by nia.
  lia.
Qed.

Lemma round_div_exact (x d : Z) : 0 < d -> round_div (x * d) d = x.
Proof.
  intros Hd. apply round_div_unique; [assumption |].
  replace (2 * (x * d) - 2 * d * x) with 0 by ring. simpl. lia.
Qed.

(** C2 (as amended): for time bases with positive numerators and positive
    denominators, if A's tick is at least as long as B's, then rescaling any
    integer from A to B and back to A, rounding to nearest, gives the
    integer back. *)
Theorem rescale_round_trip (x : Z) (A B : AVRational) :
  positive_base A -> positive_base B -> coarser A B ->
  rescale (rescale x A B) B A = x.
Proof.
  intros [HnA HdA] [HnB HdB] Hc. unfold coarser in Hc. unfold rescale.
  set (b := num A * den B) in *.
  set (c := num B * den A) in *.
  assert (Hb : 0 < b) by (subst b; nia).
  assert (Hcpos : 0 < c) by (subst c; nia).
  replace (x * num A * den B) with (x * b) by (subst b; ring).
  replace (den A * num B) with c by (subst c; ring).
  pose proof (round_div_near (x * b) c Hcpos) as Hy.
  set (y := round_div (x * b) c) in *.
  replace (y * num B * den A) with (y * c) by (subst c; ring).
  replace (den B * num A) with b by (subst b; ring).
  apply round_div_unique; [assumption |].
  destruct (Z.eq_dec b c) as [E | NE].
  - rewrite E in *.
    assert (Z.abs (2 * c * (x - y)) <= c) by
      (replace (2 * c * (x - y)) with (2 * (x * c) - 2 * c * y) by ring;
       assumption).
    assert (Z.abs (x - y) < 1) by nia.
    replace y with x by lia.
    replace (2 * (x * c) - 2 * c * x) with 0 by ring. simpl. lia.
  - replace (2 * (y * c) - 2 * b * x) with (- (2 * (x * b) - 2 * c * y))
      by ring.
    rewrite Z.abs_opp. lia.
Qed.

Lemma rescale_round_trip_witness :
  rescale (rescale 7 (mkRational 1 1000) (mkRational 1 48000))
    (mkRational 1 48000) (mkRational 1 1000) = 7.
Proof.
  apply rescale_round_trip; unfold positive_base, coarser; simpl; lia.
Defined.

(** C2 (as stated): positive denominators alone do not give the round trip;
    with ticks -1 and -2 the value 1 comes back as 2. *)
Lemma rescale_round_trip_needs_positive_numerators :
  let A := mkRational (-1) 1 in
  let B := mkRational (-2) 1 in
  0 < den A /\ 0 < den B /\ coarser A B /\
  rescale (rescale 1 A B) B A <> 1.
Proof.
  cbv -[Z.lt Z.le]. repeat split; lia.
Qed.

(* ===================================================================== *)
(** * The encoder and muxer side: what a submission can change *)

(** Case analysis on the tests of a goal, outermost first. *)
Ltac split_if :=
  match goal with
  | |- context [if ?b then _ else _] => destruct b
  end.
Ltac split_ifs := repeat split_if.

Section EncoderSide.
Context `{External}.

Lemma io_update_again (a : ao) (p : priv) (cc : AVCodecContext)
    sv e snt mx lg p' cc' sv' e' snt' mx' lg' :
  ao_priv (io_update a p cc sv e snt mx lg) = Some p' ->
  codec p' = Some cc' ->
  io_update (io_update a p cc sv e snt mx lg) p' cc' sv' e' snt' mx' lg'
  = io_update a p cc sv' e' snt' mx' (lg ++ lg').
Proof.
  intros Hp Hc. simpl in Hp. injection Hp as <-. simpl in Hc.
  injection Hc as <-. unfold io_update. simpl. rewrite app_assoc.
  reflexivity.
Qed.

Lemma io_update_id (a : ao) (p : priv) (cc : AVCodecContext) :
  ao_priv a = Some p -> codec p = Some cc ->
  a = io_update a p cc (savepts p) (enc cc) (sent cc)
        (muxed (encode_lavc_ctx a)) [].
Proof.
  intros Hp Hc. destruct a as [? ? ? ? ? pr ec lg]. simpl in *. subst pr.
  destruct p; simpl in *. subst. destruct cc, ec. unfold io_update. simpl.
  rewrite app_nil_r. reflexivity.
Qed.

Lemma write_packet_shape (a : ao) (packet : AVPacket) p st cc :
  ao_priv a = Some p -> stream p = Some st -> codec p = Some cc ->
  exists mx lg,
    write_packet a packet
    = Some (io_update a p cc AV_NOPTS_VALUE (enc cc) (sent cc) mx lg).
Proof.
  intros Hp Hs Hc. unfold write_packet. rewrite Hp, Hs, Hc.
  destruct a as [? ? ? ? ? pr ec lg]. simpl in Hp. subst pr.
  destruct p; simpl in Hs, Hc; subst. destruct cc, ec.
  cbv [io_update MP_WARN MP_ERR mp_msg set_priv set_ectx set_savepts
       set_muxed]; simpl.
  split_ifs; simpl;
    eexists; eexists; f_equal;
    try (rewrite app_nil_r; reflexivity);
    try (rewrite <- app_assoc; reflexivity);
    try reflexivity.
Qed.
Lemma receive_one_shape (frame : option AVFrame) (a : ao)
    (packet : AVPacket) p st cc :
  ao_priv a = Some p -> stream p = Some st -> codec p = Some cc ->
  exists mx lg,
    receive_one frame a packet
    = Some (io_update a p cc AV_NOPTS_VALUE (enc cc) (sent cc) mx lg).
Proof.
  intros Hp Hs Hc. unfold receive_one. rewrite Hp.
  destruct frame as [f |].
  - destruct (savepts p =? AV_NOPTS_VALUE).
    + destruct (write_packet_shape
                  (set_priv (Some (set_savepts (frame_pts f) p)) a) packet
                  (set_savepts (frame_pts f) p) st cc)
        as (mx & lg & E); try reflexivity; try assumption.
      rewrite E. exists mx, lg. reflexivity.
    + apply (write_packet_shape a packet p st cc); assumption.
  - apply (write_packet_shape a packet p st cc); assumption.
Qed.

Lemma receive_loop_shape (frame : option AVFrame) (packets : list AVPacket) :
  forall (a : ao) p st cc,
    ao_priv a = Some p -> stream p = Some st -> codec p = Some cc ->
    exists sv mx lg,
      receive_loop frame a packets
      = Some (io_update a p cc sv (enc cc) (sent cc) mx lg).
Proof.
  induction packets as [| packet rest IH]; intros a p st cc Hp Hs Hc.
  - simpl. exists (savepts p), (muxed (encode_lavc_ctx a)), [].
    f_equal. apply io_update_id; assumption.
  - simpl.
    destruct (receive_one_shape frame a packet p st cc Hp Hs Hc)
      as (mx & lg & E).
    rewrite E.
    edestruct (IH (io_update a p cc AV_NOPTS_VALUE (enc cc) (sent cc) mx lg))
      as (sv' & mx' & lg' & E'); [reflexivity | exact Hs | reflexivity |].
    rewrite E'. simpl enc. simpl sent.
    erewrite io_update_again by reflexivity.
    eexists; eexists; eexists; reflexivity.
Qed.

Lemma receive_end_shape (frame : option AVFrame) (status : Z) (a : ao) :
  exists lg,
    receive_end frame status a
    = mkAo _ (samplerate a) (ao_channels a) (format a) (sstride a)
        (untimed a) (ao_priv a) (encode_lavc_ctx a) (log a ++ lg).
Proof.
  unfold receive_end, MP_ERR, mp_msg.
  destruct a as [? ? ? ? ? pr ec lg]; simpl.
  repeat match goal with
         | |- context [if ?b then _ else _] => destruct b
         | |- context [match ?f with Some _ => _ | None => _ end] =>
             destruct f
         end;
    first [ exists []; rewrite app_nil_r; reflexivity
          | eexists; reflexivity ].
Qed.

(** Whatever the encoder and the muxer answer, submitting a frame (or the
    end-of-stream marker) returns, records the submission, and leaves the
    rest of the session alone but for [savepts] and the log. *)
Lemma encode_audio_and_write_shape (a : ao) (frame : option AVFrame) p st cc :
  ao_priv a = Some p -> stream p = Some st -> codec p = Some cc ->
  exists sv e mx lg,
    encode_audio_and_write a frame
    = Some (io_update a p cc sv e (sent cc ++ [frame]) mx lg).
Proof.
  intros Hp Hs Hc. unfold encode_audio_and_write. rewrite Hp, Hc.
  destruct (avcodec_send_frame (enc cc) frame) as [status e1].
  destruct (status <? 0).
  - exists (savepts p), e1, (muxed (encode_lavc_ctx a)),
      [(MSGL_ERR, "error encoding"%string)].
    f_equal. destruct a as [? ? ? ? ? pr ec lg]. simpl in Hp. subst pr.
    destruct p; simpl in Hc; subst. destruct cc, ec. reflexivity.
  - destruct (avcodec_receive_packets e1) as [[packets last] e2].
    set (cc2 := set_enc e2 (sent (set_enc e1 (sent cc ++ [frame]) cc))
                  (set_enc e1 (sent cc ++ [frame]) cc)).
    set (a2 := set_priv (Some (set_codec (Some cc2) p)) a).
    destruct (receive_loop_shape frame packets a2 (set_codec (Some cc2) p)
                st cc2) as (sv & mx & lg & E);
      [reflexivity | exact Hs | reflexivity |].
    rewrite E.
    destruct (receive_end_shape frame last
                (io_update a2 (set_codec (Some cc2) p) cc2 sv (enc cc2)
                   (sent cc2) mx lg)) as (lg' & E').
    rewrite E'. exists sv, e2, mx, (lg ++ lg'). f_equal.
    unfold io_update. simpl. rewrite app_assoc. reflexivity.
Qed.

End EncoderSide.

(* ===================================================================== *)
(** * encode: one frame, one timestamp *)

Lemma wrap64_small (z : Z) : INT64_MIN <= z <= INT64_MAX -> wrap64 z = z.
Proof.
  unfold wrap64, wrap, INT64_MIN, INT64_MAX. intros Hz.
  rewrite Z.mod_small; lia.
Qed.

Lemma wrap32_small (z : Z) : - 2 ^ 31 <= z <= INT_MAX -> wrap32 z = z.
Proof.
  unfold wrap32, wrap, INT_MAX. intros Hz.
  rewrite Z.mod_small; lia.
Qed.

Section EncodeProps.
Context `{External}.

Lemma encode_flush_shape (a : ao) (apts : float) p st cc :
  ao_priv a = Some p -> stream p = Some st -> codec p = Some cc ->
  exists sv e mx lg,
    encode a apts None
    = Some (io_update a (set_aframecount (wrap32 (aframecount p + 1)) p) cc
              sv e (sent cc ++ [None]) mx lg).
Proof.
  intros Hp Hs Hc. unfold encode. rewrite Hp.
  set (p1 := set_aframecount (wrap32 (aframecount p + 1)) p).
  destruct (encode_audio_and_write_shape (set_priv (Some p1) a) None p1 st cc)
    as (sv & e & mx & lg & E); [reflexivity | exact Hs | exact Hc |].
  rewrite E. exists sv, e, mx, lg. reflexivity.
Qed.

Lemma encode_frame_unfold (a : ao) (apts : float) (planes : list plane) p cc :
  ao_priv a = Some p -> codec p = Some cc ->
  num_planes a <= AV_NUM_DATA_POINTERS ->
  encode a apts (Some planes)
  = let '(last, pts1, warned) :=
      monotonic_pts p (codec_time_base cc) (initial_frame_pts a p cc apts) in
    encode_audio_and_write (before_submit a p apts last warned)
      (Some (make_frame a p cc planes pts1)).
Proof.
  intros Hp Hc Hn. unfold encode. rewrite Hp, Hc.
  assert (E : (num_planes a <=? AV_NUM_DATA_POINTERS) = true)
    by (apply Z.leb_le; exact Hn).
  rewrite E. simpl negb. cbv iota.
  destruct (monotonic_pts p (codec_time_base cc)
              (initial_frame_pts a p cc apts)) as [[last pts1] warned].
  unfold before_submit. destruct warned; reflexivity.
Qed.

Lemma encode_frame_shape (a : ao) (apts : float) (planes : list plane)
    p st cc last pts1 warned :
  ao_priv a = Some p -> stream p = Some st -> codec p = Some cc ->
  num_planes a <= AV_NUM_DATA_POINTERS ->
  monotonic_pts p (codec_time_base cc) (initial_frame_pts a p cc apts)
  = (last, pts1, warned) ->
  exists sv e mx lg,
    encode a apts (Some planes)
    = Some (io_update (before_submit a p apts last warned)
              (set_lastpts last
                 (set_aframecount (wrap32 (aframecount p + 1)) p))
              cc sv e (sent cc ++ [Some (make_frame a p cc planes pts1)])
              mx lg).
Proof.
  intros Hp Hs Hc Hn Hm.
  rewrite (encode_frame_unfold a apts planes p cc Hp Hc Hn), Hm.
  apply encode_audio_and_write_shape with (st := st).
  - unfold before_submit. reflexivity.
  - exact Hs.
  - exact Hc.
Qed.

(** What one [encode] call with a frame leaves of the session. *)
Lemma encode_frame_facts (a : ao) (apts : float) (planes : list plane)
    p st cc :
  ao_priv a = Some p -> stream p = Some st -> codec p = Some cc ->
  num_planes a <= AV_NUM_DATA_POINTERS ->
  exists a' p' cc' lg,
    encode a apts (Some planes) = Some a' /\
    ao_priv a' = Some p' /\ stream p' = Some st /\ codec p' = Some cc' /\
    ao_fixed a' = ao_fixed a /\
    lastpts p' =
      fst (fst (monotonic_pts p (codec_time_base cc)
                  (initial_frame_pts a p cc apts))) /\
    sent cc' =
      sent cc ++
      [Some (make_frame a p cc planes
               (snd (fst (monotonic_pts p (codec_time_base cc)
                            (initial_frame_pts a p cc apts)))))] /\
    log a' = log a ++ lg.
Proof.
  intros Hp Hs Hc Hn.
  destruct (monotonic_pts p (codec_time_base cc)
              (initial_frame_pts a p cc apts)) as [[last pts1] warned] eqn:Hm.
  destruct (encode_frame_shape a apts planes p st cc last pts1 warned
              Hp Hs Hc Hn Hm) as (sv & e & mx & lg & E).
  rewrite E. eexists. eexists. eexists.
  exists ((if warned
           then [(MSGL_WARN, "audio frame pts went backwards, autofixed"%string)]
           else []) ++ lg).
  split; [reflexivity |].
  split; [reflexivity |].
  split; [exact Hs |].
  split; [reflexivity |].
  split.
  - unfold ao_fixed, io_update, before_submit. simpl.
    destruct warned; simpl; rewrite Hp; simpl; unfold priv_fixed; simpl;
      rewrite Hc; reflexivity.
  - split; [reflexivity |]. split; [reflexivity |].
    unfold io_update, before_submit. destruct warned; simpl.
    + rewrite <- app_assoc. reflexivity.
    + reflexivity.
Qed.

End EncodeProps.

Section Monotonicity.
Context `{External}.


Lemma monotonic_pts_clamped (p : priv) (ctb : AVRational) (pts : Z) :
  has_successor (lastpts p) ->
  av_rescale_q pts ctb (worst_time_base p) <= lastpts p ->
  monotonic_pts p ctb pts
  = (lastpts p + 1,
     av_rescale_q (lastpts p + 1) (worst_time_base p) ctb, true).
Proof.
  intros [Hset Hrange] Hle. unfold monotonic_pts.
  assert (E : (lastpts p =? AV_NOPTS_VALUE) = false)
    by (apply Z.eqb_neq; exact Hset).
  assert (E' : (av_rescale_q pts ctb (worst_time_base p) <=? lastpts p) = true)
    by (apply Z.leb_le; exact Hle).
  rewrite E, E'. simpl.
  rewrite wrap64_small by (unfold INT64_MIN, INT64_MAX in *; lia).
  reflexivity.
Qed.

(** C3: when the pts of a frame, rescaled into the worst time base, is not
    above the recorded [lastpts] (and there is one, with a successor in
    [int64_t]), [encode] records exactly [lastpts + 1], gives the frame that
    value rescaled back into the codec time base, prints one warning, and
    goes on to submit the frame. *)
Theorem encode_clamps_backward_pts (a : ao) (apts : float)
    (planes : list plane) p st cc :
  ao_priv a = Some p -> stream p = Some st -> codec p = Some cc ->
  num_planes a <= AV_NUM_DATA_POINTERS ->
  has_successor (lastpts p) ->
  av_rescale_q (initial_frame_pts a p cc apts) (codec_time_base cc)
    (worst_time_base p) <= lastpts p ->
  let clamped := lastpts p + 1 in
  let frame :=
    make_frame a p cc planes
      (av_rescale_q clamped (worst_time_base p) (codec_time_base cc)) in
  let pre := before_submit a p apts clamped true in
  encode a apts (Some planes) = encode_audio_and_write pre (Some frame) /\
  log pre
  = log a ++ [(MSGL_WARN, "audio frame pts went backwards, autofixed"%string)] /\
  option_map lastpts (ao_priv pre) = Some clamped /\
  exists a' p',
    encode a apts (Some planes) = Some a' /\
    ao_priv a' = Some p' /\
    lastpts p' = clamped /\
    the_sent a' = the_sent a ++ [Some frame] /\
    frame_pts frame
    = av_rescale_q clamped (worst_time_base p) (codec_time_base cc).
Proof.
  intros Hp Hs Hc Hn Hsucc Hle clamped frame pre.
  pose proof (monotonic_pts_clamped p (codec_time_base cc)
                (initial_frame_pts a p cc apts) Hsucc Hle) as Hm.
  split.
  - rewrite (encode_frame_unfold a apts planes p cc Hp Hc Hn), Hm.
    reflexivity.
  - split; [reflexivity |]. split; [reflexivity |].
    destruct (encode_frame_facts a apts planes p st cc Hp Hs Hc Hn)
      as (a' & p' & cc' & lg & E & Hp' & Hs' & Hc' & _ & Hl & Hsent & _).
    rewrite Hm in Hl, Hsent. simpl in Hl, Hsent.
    exists a', p'. repeat split; try assumption.
    unfold the_sent. rewrite Hp, Hp', Hc, Hc'. exact Hsent.
Qed.






End Monotonicity.

(* ===================================================================== *)
(** * play: cutting a batch into frames *)

Section PlayProps.
Context `{External}.

Lemma ao_fixed_priv (a a' : ao) p p' :
  ao_fixed a' = ao_fixed a -> ao_priv a = Some p -> ao_priv a' = Some p' ->
  priv_fixed p' = priv_fixed p.
Proof.
  intros E Hp Hp'. unfold ao_fixed in E. rewrite Hp, Hp' in E. simpl in E.
  congruence.
Qed.

Lemma ao_fixed_num_planes (a a' : ao) :
  ao_fixed a' = ao_fixed a -> num_planes a' = num_planes a.
Proof.
  intros E. unfold ao_fixed in E. unfold num_planes.
  replace (format a') with (format a) by congruence.
  replace (ao_channels a') with (ao_channels a) by congruence.
  reflexivity.
Qed.

Lemma play_loop_step (fuel : nat) (a : ao) (data : list plane)
    (samples : Z) (outpts : float) (bufpos : Z) p :
  ao_priv a = Some p ->
  play_loop (S fuel) a data samples outpts bufpos
  = if aframesize p <=? wrap32 (samples - bufpos) then
      a1 <- encode a
              (outpts + Z_to_double bufpos / Z_to_double (samplerate a))%float
              (Some (map (skipn (Z.to_nat (wrap32 (bufpos * sstride a))))
                       (firstn (Z.to_nat (num_planes a)) data))) ;;
      play_loop fuel a1 data samples outpts (wrap32 (bufpos + aframesize p))
    else Some (a, bufpos).
Proof. intros Hp. simpl. rewrite Hp. reflexivity. Qed.

Lemma play_loop_spec (fuel : nat) :
  forall (a : ao) (data : list plane) (samples : Z) (outpts : float)
         (bufpos : Z) p st cc,
    ao_priv a = Some p -> stream p = Some st -> codec p = Some cc ->
    0 < aframesize p ->
    num_planes a <= AV_NUM_DATA_POINTERS ->
    0 <= bufpos <= samples -> samples <= INT_MAX ->
    (samples - bufpos) / aframesize p < Z.of_nat fuel ->
    exists a' p' cc' frames lg,
      play_loop fuel a data samples outpts bufpos
      = Some (a', bufpos + aframesize p * Z.of_nat (List.length frames)) /\
      Z.of_nat (List.length frames) = (samples - bufpos) / aframesize p /\
      ao_priv a' = Some p' /\ stream p' = Some st /\ codec p' = Some cc' /\
      ao_fixed a' = ao_fixed a /\
      sent cc' = sent cc ++ map Some frames /\
      Forall (fun f => nb_samples f = aframesize p) frames /\
      map extended_data frames
      = map (fun i => frame_data (aframesize p) (sstride a) (num_planes a)
                        data (bufpos + aframesize p * Z.of_nat i))
          (seq 0 (List.length frames)) /\
      log a' = log a ++ lg.
Proof.
  induction fuel as [| fuel IH];
    intros a data samples outpts bufpos p st cc Hp Hs Hc HF Hn Hb Hmax Hfuel.
  - exfalso. pose proof (Z.div_pos (samples - bufpos) (aframesize p)). lia.
  - assert (Hw : wrap32 (samples - bufpos) = samples - bufpos)
      by (apply wrap32_small; unfold INT_MAX in *; lia).
    rewrite (play_loop_step fuel a data samples outpts bufpos p Hp), Hw.
    destruct (Z.leb_spec (aframesize p) (samples - bufpos)) as [Hgo | Hstop].
    + destruct (encode_frame_facts a
                  (outpts + Z_to_double bufpos / Z_to_double (samplerate a))%float
                  (map (skipn (Z.to_nat (wrap32 (bufpos * sstride a))))
                     (firstn (Z.to_nat (num_planes a)) data))
                  p st cc Hp Hs Hc Hn)
        as (a1 & p1 & cc1 & lg1 & E & Hp1 & Hs1 & Hc1 & Hfix & _ & Hsent & Hlog).
      pose proof (ao_fixed_priv a a1 p p1 Hfix Hp Hp1) as Hpf.
      assert (HF1 : aframesize p1 = aframesize p)
        by (unfold priv_fixed in Hpf; congruence).
      assert (Hss : sstride a1 = sstride a)
        by (unfold ao_fixed in Hfix; congruence).
      pose proof (ao_fixed_num_planes a a1 Hfix) as Hnp.
      assert (Hw2 : wrap32 (bufpos + aframesize p) = bufpos + aframesize p)
        by (apply wrap32_small; unfold INT_MAX in *; lia).
      assert (Hdiv : (samples - bufpos) / aframesize p
                     = (samples - (bufpos + aframesize p)) / aframesize p + 1).
      { replace (samples - bufpos)
          with ((samples - (bufpos + aframesize p)) + 1 * aframesize p) by ring.
        rewrite Z.div_add by lia. reflexivity. }
      destruct (IH a1 data samples outpts (bufpos + aframesize p) p1 st cc1)
        as (a' & p' & cc' & frames & lg & E' & Hlen & Hp' & Hs' & Hc' & Hfix'
            & Hsent' & Hnb & Hdata & Hlog');
        try assumption; try (rewrite ?HF1, ?Hnp; lia).
      rewrite HF1, Hss, Hnp in *.
      eexists a', p', cc', (_ :: frames), (lg1 ++ lg).
      split.
      { rewrite E, Hw2, E'. f_equal. f_equal. simpl List.length. lia. }
      split; [simpl List.length; lia |].
      split; [exact Hp' |]. split; [exact Hs' |]. split; [exact Hc' |].
      split; [congruence |].
      split; [rewrite Hsent', Hsent; simpl; rewrite <- app_assoc; reflexivity |].
      split; [constructor; [reflexivity | exact Hnb] |].
      split.
      { cbn [map List.length seq]. f_equal.
        - unfold make_frame, frame_data. cbn [extended_data].
          replace (bufpos + aframesize p * Z.of_nat 0) with bufpos by lia.
          reflexivity.
        - rewrite Hdata, <- seq_shift, map_map. apply map_ext. intros i.
          f_equal. lia. }
      rewrite Hlog', Hlog, app_assoc. reflexivity.
    + exists a, p, cc, [], []. simpl List.length.
      assert (Hz : (samples - bufpos) / aframesize p = 0)
        by (apply Z.div_small; lia).
      repeat split; try assumption; try (rewrite ?app_nil_r; reflexivity).
      * f_equal. f_equal. simpl. lia.
      * simpl. lia.
      * constructor.
Qed.

Lemma choose_worst_time_base_shape (a : ao) p st cc :
  ao_priv a = Some p -> stream p = Some st -> codec p = Some cc ->
  exists lg,
    choose_worst_time_base a
    = Some (mkAo _ (samplerate a) (ao_channels a) (format a) (sstride a)
              (untimed a)
              (Some (set_worst_time_base (fst (chosen_base p cc st))
                       (snd (chosen_base p cc st)) p))
              (encode_lavc_ctx a) (log a ++ lg)).
Proof.
  intros Hp Hs Hc. unfold choose_worst_time_base, chosen_base.
  rewrite Hp, Hs, Hc.
  destruct (den (worst_time_base p) =? 0).
  - destruct (codec_base_is_worst (codec_time_base cc) (stream_time_base st));
      eexists; reflexivity.
  - exists []. f_equal. destruct a as [? ? ? ? ? pr ec lg]. simpl in Hp.
    subst pr. destruct p. simpl. rewrite app_nil_r. reflexivity.
Qed.

Lemma apply_discontinuity_shape (a : ao) (pts : float) :
  exists off lg,
    snd (apply_discontinuity a pts)
    = mkAo _ (samplerate a) (ao_channels a) (format a) (sstride a)
        (untimed a) (ao_priv a)
        (set_discontinuity_pts_offset off (encode_lavc_ctx a))
        (log a ++ lg).
Proof.
  unfold apply_discontinuity.
  destruct a as [? ? ? ? ? pr ec lg]. destruct ec. simpl.
  repeat (split_if; simpl);
    first [ eexists; exists []; rewrite app_nil_r; reflexivity
          | eexists; eexists; reflexivity ].
Qed.

(** What [play] does from line 422 on, for a batch of [samples] whole or
    padded samples out of [orig_samples]: [samples / aframesize] frames of
    [aframesize] samples each are submitted, cut from consecutive positions
    of [data], and the count returned is the smaller of the samples framed
    and [orig_samples]. *)
Lemma play_with_pts_spec (fuel : nat) (a : ao) (pts : float)
    (data : list plane) (samples orig_samples : Z) (final : bool) p st cc :
  ao_priv a = Some p -> stream p = Some st -> codec p = Some cc ->
  0 < aframesize p ->
  num_planes a <= AV_NUM_DATA_POINTERS ->
  0 <= samples <= INT_MAX ->
  samples / aframesize p < Z.of_nat fuel ->
  exists a' p' cc' frames lg,
    let framed := aframesize p * Z.of_nat (List.length frames) in
    play_with_pts fuel a pts data samples orig_samples final
    = Some (FFMIN framed orig_samples, a') /\
    Z.of_nat (List.length frames) = samples / aframesize p /\
    ao_priv a' = Some p' /\ stream p' = Some st /\ codec p' = Some cc' /\
    sent cc' = sent cc ++ map Some frames /\
    Forall (fun f => nb_samples f = aframesize p) frames /\
    map extended_data frames
    = map (fun i => frame_data (aframesize p) (sstride a) (num_planes a)
                      data (aframesize p * Z.of_nat i))
        (seq 0 (List.length frames)) /\
    samples_since_last_pts (encode_lavc_ctx a')
    = wrap64 (samples_since_last_pts (encode_lavc_ctx a)
              + FFMIN framed orig_samples) /\
    worst_time_base p' = fst (chosen_base p cc st) /\
    expected_next_pts p'
    = (pts + Z_to_double framed / Z_to_double (samplerate a))%float /\
    log a' = log a ++ lg /\
    layout a' = layout a.
Proof.
  intros Hp Hs Hc HF Hn Hsamples Hfuel. unfold play_with_pts.
  destruct (choose_worst_time_base_shape a p st cc Hp Hs Hc) as (lg2 & E2).
  rewrite E2. clear E2.
  set (p2 := set_worst_time_base (fst (chosen_base p cc st))
               (snd (chosen_base p cc st)) p).
  set (a2 := mkAo _ (samplerate a) (ao_channels a) (format a) (sstride a)
               (untimed a) (Some p2) (encode_lavc_ctx a) (log a ++ lg2)).
  destruct (apply_discontinuity_shape a2 pts) as (off & lg3 & E3).
  destruct (apply_discontinuity a2 pts) as [outpts a3]. simpl in E3.
  subst a3. cbn [ao_priv]. cbn [codec p2 set_worst_time_base].
  rewrite Hc.
  match goal with
  | |- context [play_loop fuel ?a3 data samples ?o 0] =>
      destruct (play_loop_spec fuel a3 data samples o 0 p2 st cc)
        as (a4 & p4 & cc4 & frames & lg4 & E4 & Hlen & Hp4 & Hs4 & Hc4
            & Hfix & Hsent & Hnb & Hdata & Hlog);
        [ reflexivity | exact Hs | exact Hc | exact HF | exact Hn | lia
        | lia | rewrite Z.sub_0_r; exact Hfuel | ]
  end.
  rewrite E4. clear E4. rewrite Hp4.
  rewrite Z.sub_0_r in Hlen. rewrite Z.add_0_l.
  cbn [aframesize p2 set_worst_time_base] in *.
  assert (Hrate : samplerate a4 = samplerate a)
    by (unfold ao_fixed in Hfix; simpl in Hfix; congruence).
  assert (Hsince : samples_since_last_pts (encode_lavc_ctx a4)
                   = samples_since_last_pts (encode_lavc_ctx a))
    by (unfold ao_fixed, ectx_fixed in Hfix; simpl in Hfix; congruence).
  pose proof (ao_fixed_priv _ _ _ _ Hfix eq_refl Hp4) as Hpf.
  assert (Hworst : worst_time_base p4 = fst (chosen_base p cc st))
    by (unfold priv_fixed in Hpf; simpl in Hpf; congruence).
  eexists. exists (set_expected_next_pts
                     (pts + Z_to_double
                              (aframesize p * Z.of_nat (List.length frames))
                            / Z_to_double (samplerate a4))%float p4).
  exists cc4, frames.
  exists (lg2 ++ lg3 ++ lg4 ++
          (if final then
             if aframesize p * Z.of_nat (List.length frames) <? orig_samples
             then [(MSGL_ERR, "did not write enough data at the end"%string)]
             else []
           else
             if orig_samples <? aframesize p * Z.of_nat (List.length frames)
             then [(MSGL_ERR,
                    "audio buffer overflow (should never happen)"%string)]
             else [])).
  cbv zeta.
  split; [reflexivity |].
  split; [exact Hlen |].
  split.
  { split_ifs; reflexivity. }
  split; [exact Hs4 |]. split; [exact Hc4 |]. split; [exact Hsent |].
  split; [exact Hnb |].
  split.
  { rewrite Hdata. apply map_ext. intros i. f_equal. }
  split.
  { rewrite <- Hsince.
    split_ifs; reflexivity. }
  split; [exact Hworst |].
  split; [simpl; rewrite Hrate; reflexivity |].
  split.
  { split_ifs; simpl; rewrite Hlog; simpl;
      rewrite <- ?app_assoc, ?app_nil_r; reflexivity. }
  assert (Hss : sstride a4 = sstride a)
    by (unfold ao_fixed in Hfix; simpl in Hfix; congruence).
  assert (Hfmt : format a4 = format a)
    by (unfold ao_fixed in Hfix; simpl in Hfix; congruence).
  assert (Hch : ao_channels a4 = ao_channels a)
    by (unfold ao_fixed in Hfix; simpl in Hfix; congruence).
  assert (HF4 : aframesize p4 = aframesize p)
    by (unfold priv_fixed in Hpf; simpl in Hpf; congruence).
  assert (Htb : codec_time_base cc4 = codec_time_base cc).
  { unfold priv_fixed in Hpf. simpl in Hpf. rewrite Hc4, Hc in Hpf.
    simpl in Hpf. unfold codec_fixed in Hpf. congruence. }
  unfold layout. rewrite Hp.
  split_ifs; simpl; rewrite Hss, Hfmt, Hch, HF4, Hs4, Hc4, Hs, Hc; simpl;
    rewrite Htb; reflexivity.
Qed.

Lemma wrap_size_t_small (z : Z) : 0 <= z <= INT_MAX -> wrap_size_t z = z.
Proof.
  unfold wrap_size_t, INT_MAX. intros Hz. apply Z.mod_small. lia.
Qed.

(** The padded copy holds the original bytes followed by
    [aframesize - 1] samples of silence. *)
Lemma pad_final_chunk_spec (a : ao) (p : priv) (data : list plane)
    (samples : Z) :
  0 < samples -> 0 < aframesize p -> 0 < sstride a ->
  (samples + aframesize p - 1) * sstride a <= INT_MAX ->
  pad_final_chunk a p data samples
  = (map (fun d => firstn (Z.to_nat (samples * sstride a)) d
                   ++ af_fill_silence
                        (Z.to_nat ((aframesize p - 1) * sstride a)) (format a))
       (firstn (Z.to_nat (num_planes a)) data),
     samples + aframesize p - 1).
Proof.
  intros Hs HF Hst Hmax. unfold pad_final_chunk.
  set (s := sstride a) in *. set (F := aframesize p) in *.
  assert (Hsum : (samples + F - 1) * s = samples * s + (F - 1) * s) by ring.
  assert (Ha : 0 <= samples * s) by (apply Z.mul_nonneg_nonneg; lia).
  assert (Hb : 0 <= (F - 1) * s) by (apply Z.mul_nonneg_nonneg; lia).
  assert (Hc : samples + F - 1 <= (samples + F - 1) * s) by nia.
  assert (Hd : s <= (samples + F - 1) * s) by nia.
  assert (H1 : 0 <= samples * s <= INT_MAX) by lia.
  assert (H2 : 0 <= (F - 1) * s <= INT_MAX) by lia.
  assert (H3 : 0 <= s <= INT_MAX) by lia.
  assert (H4 : 0 <= samples + F - 1 <= INT_MAX) by lia.
  rewrite (wrap32_small (samples * s)) by (unfold INT_MAX in *; lia).
  rewrite (wrap32_small ((F - 1) * s)) by (unfold INT_MAX in *; lia).
  rewrite (wrap_size_t_small (samples * s)) by assumption.
  rewrite (wrap_size_t_small ((F - 1) * s)) by assumption.
  rewrite (wrap_size_t_small s) by assumption.
  rewrite <- Hsum.
  rewrite wrap_size_t_small by lia.
  rewrite Z.div_mul by lia.
  rewrite wrap32_small by (unfold INT_MAX in *; lia).
  reflexivity.
Qed.

(** [play] with a started encoder: the frames it submits and the count it
    returns. *)
Lemma play_spec (fuel : nat) (a : ao) (data : list plane)
    (samples flags : Z) p st cc :
  ao_priv a = Some p -> stream p = Some st -> codec p = Some cc ->
  0 < aframesize p ->
  num_planes a <= AV_NUM_DATA_POINTERS ->
  0 <= samples -> 0 < sstride a ->
  (samples + aframesize p - 1) * sstride a <= INT_MAX ->
  (samples + aframesize p - 1) / aframesize p < Z.of_nat fuel ->
  let padded := needs_padding p samples flags in
  let work := if padded then pad_final_chunk a p data samples
              else (data, samples) in
  exists a' p' cc' frames lg,
    let framed := aframesize p * Z.of_nat (List.length frames) in
    play fuel true a data samples flags = Some (FFMIN framed samples, a') /\
    Z.of_nat (List.length frames) = snd work / aframesize p /\
    snd work = (if padded then samples + aframesize p - 1 else samples) /\
    ao_priv a' = Some p' /\ stream p' = Some st /\ codec p' = Some cc' /\
    sent cc' = sent cc ++ map Some frames /\
    Forall (fun f => nb_samples f = aframesize p) frames /\
    map extended_data frames
    = map (fun i => frame_data (aframesize p) (sstride a) (num_planes a)
                      (fst work) (aframesize p * Z.of_nat i))
        (seq 0 (List.length frames)) /\
    samples_since_last_pts (encode_lavc_ctx a')
    = wrap64 (samples_since_last_pts (encode_lavc_ctx a)
              + FFMIN framed samples) /\
    expected_next_pts p'
    = (effective_pts a p
       + Z_to_double framed / Z_to_double (samplerate a))%float /\
    log a' = log a ++ missing_pts_warning a ++ lg /\
    worst_time_base p' = fst (chosen_base p cc st) /\
    layout a' = layout a.
Proof.
  intros Hp Hs Hc HF Hn Hsamples Hst Hmax Hfuel padded work.
  assert (Hwork : snd work
                  = if padded then samples + aframesize p - 1 else samples).
  { subst work. destruct padded eqn:Epad; [| reflexivity].
    assert (0 < samples).
    { subst padded. unfold needs_padding in Epad.
      apply andb_prop in Epad. destruct Epad as [_ Erem].
      destruct (Z.eqb_spec (Z.rem samples (aframesize p)) 0) as [| Hne];
        [discriminate |].
      destruct (Z.eq_dec samples 0) as [-> | ?]; [| lia].
      rewrite Z.rem_0_l in Hne by lia. congruence. }
    rewrite pad_final_chunk_spec by assumption. reflexivity. }
  assert (Hrange : 0 <= snd work <= INT_MAX).
  { rewrite Hwork. destruct padded; nia. }
  assert (Hfuel' : snd work / aframesize p < Z.of_nat fuel).
  { rewrite Hwork. destruct padded; [exact Hfuel |].
    eapply Z.le_lt_trans; [| exact Hfuel].
    apply Z.div_le_mono; lia. }
  unfold play. simpl negb. cbv iota. rewrite Hp.
  fold (is_final flags). fold (needs_padding p samples flags).
  fold padded. fold work.
  destruct work as [data' samples'] eqn:Ework. simpl in Hwork, Hrange, Hfuel'.
  simpl fst. simpl snd.
  unfold effective_pts, missing_pts_warning.
  destruct (PrimFloat.eqb (input_pts a) MP_NOPTS_VALUE).
  - destruct (play_with_pts_spec fuel
                (MP_WARN
                   "frame without pts, please report; synthesizing pts instead"
                   a)
                (expected_next_pts p) data' samples' samples
                (is_final flags) p st cc)
      as (a' & p' & cc' & frames & lg & E & Hlen & Hp' & Hs' & Hc' & Hsent
          & Hnb & Hdata & Hsince & Hworst & Hnext & Hlog & Hlay);
      try assumption; try reflexivity.
    exists a', p', cc', frames, lg.
    cbv zeta in *. repeat split; try assumption.
    simpl in Hlog. rewrite Hlog, <- app_assoc. reflexivity.
  - destruct (play_with_pts_spec fuel a (input_pts a) data' samples' samples
                (is_final flags) p st cc)
      as (a' & p' & cc' & frames & lg & E & Hlen & Hp' & Hs' & Hc' & Hsent
          & Hnb & Hdata & Hsince & Hworst & Hnext & Hlog & Hlay);
      try assumption.
    exists a', p', cc', frames, lg.
    cbv zeta in *. repeat split; assumption.
Qed.

End PlayProps.

(* ===================================================================== *)
(** * play: the count of samples it reports *)

Lemma FFMIN_min (a b : Z) : FFMIN a b = Z.min a b.
Proof. unfold FFMIN. destruct (Z.ltb_spec b a); lia. Qed.

(** A count that is not a multiple of the frame size needs one frame more
    than it fills, once [aframesize - 1] samples are added to it. *)
Lemma padded_frame_count (samples fsize : Z) :
  0 <= samples -> 0 < fsize -> Z.rem samples fsize <> 0 ->
  (samples + fsize - 1) / fsize = samples / fsize + 1 /\
  samples < fsize * ((samples + fsize - 1) / fsize).
Proof.
  intros Hs HF Hrem. rewrite Z.rem_mod_nonneg in Hrem by lia.
  pose proof (Z.div_mod samples fsize ltac:(lia)) as E.
  pose proof (Z.mod_pos_bound samples fsize HF) as B.
  assert (Hq : (samples + fsize - 1) / fsize = samples / fsize + 1).
  { symmetry.
    apply (Z.div_unique_pos _ _ _ (samples mod fsize - 1)); lia. }
  split; [exact Hq |]. rewrite Hq. nia.
Qed.

Section Consumed.
Context `{External}.

(** C10: whatever [play] is given, the count it returns is the smaller of
    the samples it framed and the count it was called with, so never more
    than that count, also when the padding of a final chunk makes it frame
    more; and that same count is what it adds to [samples_since_last_pts]. *)
Theorem play_returns_at_most_samples (fuel : nat) (started : bool) (a : ao)
    (data : list plane) (samples flags : Z) p st cc :
  ao_priv a = Some p -> stream p = Some st -> codec p = Some cc ->
  0 < aframesize p ->
  num_planes a <= AV_NUM_DATA_POINTERS ->
  0 <= samples -> 0 < sstride a ->
  (samples + aframesize p - 1) * sstride a <= INT_MAX ->
  (samples + aframesize p - 1) / aframesize p < Z.of_nat fuel ->
  exists taken a' frames,
    let framed := aframesize p * Z.of_nat (List.length frames) in
    play fuel started a data samples flags = Some (taken, a') /\
    the_sent a' = the_sent a ++ map Some frames /\
    taken = Z.min framed samples /\
    taken <= samples /\
    samples_since_last_pts (encode_lavc_ctx a')
    = (if started
       then wrap64 (samples_since_last_pts (encode_lavc_ctx a) + taken)
       else samples_since_last_pts (encode_lavc_ctx a)) /\
    (started = true -> needs_padding p samples flags = true ->
     samples < framed /\ taken = samples).
Proof.
  intros Hp Hs Hc HF Hn Hsamples Hst Hmax Hfuel.
  destruct started.
  - destruct (play_spec fuel a data samples flags p st cc)
      as (a' & p' & cc' & frames & lg & E & Hlen & Hwork & Hp' & Hs' & Hc'
          & Hsent & _ & _ & Hsince & _ & _ & _ & _); try assumption.
    cbv zeta in *. rewrite FFMIN_min in *.
    exists (Z.min (aframesize p * Z.of_nat (List.length frames)) samples),
      a', frames.
    cbv zeta.
    split; [exact E |].
    split; [unfold the_sent; rewrite Hp, Hp', Hc, Hc'; exact Hsent |].
    split; [reflexivity |]. split; [lia |]. split; [exact Hsince |].
    intros _ Hpad. rewrite Hpad in Hwork, Hlen. rewrite Hwork in Hlen.
    assert (Hrem : Z.rem samples (aframesize p) <> 0).
    { unfold needs_padding in Hpad. apply andb_prop in Hpad.
      destruct Hpad as [_ Hr].
      destruct (Z.eqb_spec (Z.rem samples (aframesize p)) 0);
        [discriminate | assumption]. }
    destruct (padded_frame_count samples (aframesize p) Hsamples HF Hrem)
      as [_ Hlt].
    rewrite Hlen. lia.
  - exists 0, (MP_WARN "not ready yet for encoding audio" a), [].
    cbv zeta. unfold play. simpl.
    split; [reflexivity |].
    split; [unfold the_sent; simpl; rewrite Hp, app_nil_r; reflexivity |].
    repeat split; try lia; try reflexivity; discriminate.
Qed.

End Consumed.

(* ===================================================================== *)
(** * play: the padded final chunk *)



Section FinalChunk.
Context `{External}.



End FinalChunk.

(* ===================================================================== *)
(** * play: a batch without pts *)

Section MissingPts.
Context `{External}.


End MissingPts.

(* ===================================================================== *)
(** * play: the discontinuity offset *)

Section Discontinuity.
Context `{External}.







End Discontinuity.

(* ===================================================================== *)
(** * uninit: the flush at shutdown *)

Section Shutdown.
Context `{External}.

Lemma flushes_after_flush (a a' : ao) :
  the_sent a' = the_sent a ++ [None] -> flushes a' = S (flushes a).
Proof.
  intros E. unfold flushes. rewrite E, filter_app, length_app. simpl. lia.
Qed.

(** With the encoder started, [uninit] submits the end-of-stream marker
    once and marks the session; from then on [uninit] does nothing. *)
Lemma uninit_started (a : ao) p st cc :
  ao_priv a = Some p -> stream p = Some st -> codec p = Some cc ->
  shutdown p = false ->
  exists a1,
    uninit true a = Some a1 /\
    the_sent a1 = the_sent a ++ [None] /\
    is_shutdown a1 = true /\
    forall started, uninit started a1 = Some a1.
Proof.
  intros Hp Hs Hc Hsh. unfold uninit. rewrite Hp, Hsh, Hs, Hc. simpl negb.
  cbv iota.
  match goal with
  | |- context [encode a ?o None] =>
      destruct (encode_flush_shape a o p st cc Hp Hs Hc)
        as (sv & e & mx & lg & E)
  end.
  rewrite E. cbn [ao_priv io_update].
  eexists. split; [reflexivity |].
  split; [unfold the_sent; simpl; rewrite Hp, Hc; reflexivity |].
  split; [reflexivity |].
  intros started. reflexivity.
Qed.

(** With the encoder not started, [uninit] only prints a warning. *)
Lemma uninit_not_started (a : ao) p :
  ao_priv a = Some p -> shutdown p = false ->
  uninit false a
  = Some (MP_WARN "not even ready to encode audio at end -> dropped" a).
Proof.
  intros Hp Hsh. unfold uninit. rewrite Hp, Hsh. reflexivity.
Qed.

(** C7 (as amended): two calls of [uninit] on a session submit the
    end-of-stream marker at most once.  When the encoder has started at the
    first call, that call submits it exactly once and marks the session
    shut down, and the second call does nothing.  When the encoder has not
    started, the call submits nothing, prints a warning and leaves the
    session unmarked, so that the next call decides anew. *)
Theorem uninit_twice_flushes_at_most_once (started1 started2 : bool)
    (a : ao) p st cc :
  ao_priv a = Some p -> stream p = Some st -> codec p = Some cc ->
  shutdown p = false ->
  exists a1 a2,
    uninit started1 a = Some a1 /\
    uninit started2 a1 = Some a2 /\
    (flushes a2 <= flushes a + 1)%nat /\
    (started1 = true ->
     flushes a1 = (flushes a + 1)%nat /\ is_shutdown a1 = true /\ a2 = a1) /\
    (started1 = false ->
     the_sent a1 = the_sent a /\ is_shutdown a1 = false /\
     log a1
     = log a ++
       [(MSGL_WARN,
         "not even ready to encode audio at end -> dropped"%string)] /\
     flushes a2 = (if started2 then flushes a + 1 else flushes a)%nat).
Proof.
  intros Hp Hs Hc Hsh. destruct started1.
  - destruct (uninit_started a p st cc Hp Hs Hc Hsh)
      as (a1 & E1 & Hsent & Hshut & Hnoop).
    exists a1, a1. rewrite (Hnoop started2).
    pose proof (flushes_after_flush a a1 Hsent) as Hf.
    repeat split; try assumption; try lia; discriminate.
  - rewrite (uninit_not_started a p Hp Hsh).
    set (a1 := MP_WARN "not even ready to encode audio at end -> dropped" a).
    assert (Hsame : the_sent a1 = the_sent a) by reflexivity.
    assert (Hfl : flushes a1 = flushes a) by reflexivity.
    destruct started2.
    + destruct (uninit_started a1 p st cc Hp Hs Hc Hsh)
        as (a2 & E2 & Hsent & _ & _).
      exists a1, a2. rewrite E2.
      pose proof (flushes_after_flush a1 a2 Hsent) as Hf.
      repeat split; try reflexivity; try lia; try discriminate.
      unfold is_shutdown. simpl. rewrite Hp. exact Hsh.
    + exists a1, (MP_WARN "not even ready to encode audio at end -> dropped" a1).
      rewrite (uninit_not_started a1 p Hp Hsh).
      repeat split; try reflexivity; try discriminate.
      * change (flushes a <= flushes a + 1)%nat. lia.
      * unfold is_shutdown. simpl. rewrite Hp. exact Hsh.
Qed.

End Shutdown.

(* ===================================================================== *)
(** * init: too many channels *)

Section Init.
Context `{External}.

(** C9: when the channel map that the negotiation settles on has more
    channels than [AV_NUM_DATA_POINTERS], [init] returns -1, whatever the
    other steps answer, and on every path through [fail:], that is,
    whenever the encoding context is available, it marks the session shut
    down.  The return of lines 93-96, taken when the context is not
    available, comes before [fail:]: there [init] returns -1 and leaves the
    session unmarked, whatever the channel count. *)
Theorem init_rejects_too_many_channels (available : bool) (a0 : ao) :
  ((forall adjusted,
       ao_chmap_sel_adjust2 (ao_channels a0) = Some adjusted ->
       AV_NUM_DATA_POINTERS < chmap_num (mp_chmap_reorder_to_lavc adjusted)) ->
   fst (init available a0) = -1 /\
   (available = true -> is_shutdown (snd (init available a0)) = true)) /\
  (available = false ->
   fst (init available a0) = -1 /\
   is_shutdown (snd (init available a0)) = false /\
   log (snd (init available a0))
   = log a0
     ++ [(MSGL_ERR,
          "the option --o (output file) must be specified"%string)]).
Proof.
  split.
  - intros Hmany. unfold init. destruct available; cbn [negb].
    + destruct (encode_lavc_alloc_stream
                  (encode_lavc_ctx (set_priv (Some zero_priv) a0)))
        as [[st cc] |]; [| repeat split; try reflexivity; discriminate].
      cbn [ao_channels set_priv].
      destruct (ao_chmap_sel_adjust2 (ao_channels a0)) as [adjusted |] eqn:Eadj;
        [| repeat split; try reflexivity; discriminate].
      specialize (Hmany adjusted eq_refl).
      match goal with
      | |- context [encode_lavc_open_codec ?e ?c] =>
          destruct (encode_lavc_open_codec e c) as [cc2 |];
            [| repeat split; try reflexivity; discriminate]
      end.
      assert (E : (AV_NUM_DATA_POINTERS
                   <? chmap_num (mp_chmap_reorder_to_lavc adjusted)) = true)
        by (apply Z.ltb_lt; exact Hmany).
      rewrite E. repeat split; try reflexivity; discriminate.
    + repeat split; try reflexivity; discriminate.
  - intros ->. repeat split; reflexivity.
Qed.

(** The check of line 162 is what keeps the [assert] of [encode] from
    failing on interleaved and on planar formats alike. *)
Lemma init_success_bounds_channels (available : bool) (a0 : ao) :
  fst (init available a0) = 0 ->
  chmap_num (ao_channels (snd (init available a0))) <= AV_NUM_DATA_POINTERS /\
  is_shutdown (snd (init available a0)) = false.
Proof.
  unfold init. destruct available; cbn [negb]; [| discriminate].
  destruct (encode_lavc_alloc_stream (encode_lavc_ctx (set_priv (Some zero_priv) a0)))
    as [[st cc] |]; [| discriminate].
  cbn [ao_channels set_priv].
  destruct (ao_chmap_sel_adjust2 (ao_channels a0)) as [adjusted |];
    [| discriminate].
  match goal with
  | |- context [encode_lavc_open_codec ?e ?c] =>
      destruct (encode_lavc_open_codec e c) as [cc2 |]; [| discriminate]
  end.
  destruct (Z.ltb_spec AV_NUM_DATA_POINTERS
              (chmap_num (mp_chmap_reorder_to_lavc adjusted)));
    [discriminate |].
  intros _. split; [assumption | reflexivity].
Qed.

End Init.

(* ===================================================================== *)
(** * The worst time base: a comparison of products taken in double *)

Lemma round53_nonneg_spec (z : Z) :
  0 <= z ->
  let e := Z.log2 z - 52 in
  (e <= 0 /\ round53_nonneg z = z) \/
  (0 < e /\
   exists k, round53_nonneg z = k * 2 ^ e /\ 2 ^ 52 <= k <= 2 ^ 53 /\
             Z.abs (2 * z - 2 * (k * 2 ^ e)) <= 2 ^ e).
Proof.
  intros Hz e. unfold round53_nonneg. fold e.
  destruct (Z.leb_spec e 0) as [He | He]; [left; split; [exact He | reflexivity] |].
  right. split; [exact He |].
  assert (Hzpos : 0 < z).
  { destruct (Z.eq_dec z 0) as [-> | ?]; [| lia].
    subst e. simpl in He. lia. }
  pose proof (Z.log2_spec z Hzpos) as [Hlo Hhi].
  assert (HL : Z.log2 z = 52 + e) by (subst e; lia).
  rewrite HL in Hlo. rewrite HL in Hhi.
  replace (Z.succ (52 + e)) with (53 + e) in Hhi by lia.
  rewrite Z.pow_add_r in Hlo, Hhi by lia.
  set (P := 2 ^ e) in *.
  assert (HP : 0 < P) by (subst P; apply Z.pow_pos_nonneg; lia).
  assert (Hhalf : P = 2 * 2 ^ (e - 1)).
  { subst P. replace e with (Z.succ (e - 1)) at 1 by lia.
    rewrite Z.pow_succ_r by lia. reflexivity. }
  set (half := 2 ^ (e - 1)) in *.
  pose proof (Z.div_mod z P ltac:(lia)) as Ediv.
  pose proof (Z.mod_pos_bound z P HP) as Hr.
  set (q := z / P) in *. set (r := z mod P) in *.
  assert (Hq : 2 ^ 52 <= q < 2 ^ 53).
  { split.
    - subst q. apply Z.div_le_lower_bound; lia.
    - subst q. apply Z.div_lt_upper_bound; lia. }
  destruct (Z.ltb_spec r half) as [H1 | H1].
  - exists q. split; [reflexivity |]. split; [lia |]. lia.
  - destruct (Z.ltb_spec half r) as [H2 | H2].
    + exists (q + 1). split; [reflexivity |]. split; [lia |]. lia.
    + destruct (Z.even q).
      * exists q. split; [reflexivity |]. split; [lia |]. lia.
      * exists (q + 1). split; [reflexivity |]. split; [lia |]. lia.
Qed.

(** Products of at most 53 bits are exact. *)
Lemma round53_nonneg_exact (z : Z) :
  0 <= z <= 2 ^ 53 -> round53_nonneg z = z.
Proof.
  intros [Hlo Hhi].
  destruct (round53_nonneg_spec z Hlo) as [[_ E] | (He & k & E & Hk & Hnear)];
    [exact E |].
  assert (Hzpos : 0 < z).
  { destruct (Z.eq_dec z 0) as [-> | ?]; [simpl in He |]; lia. }
  assert (HL : Z.log2 z <= 53).
  { pose proof (Z.log2_le_mono z (2 ^ 53) Hhi) as Hm.
    rewrite Z.log2_pow2 in Hm by lia. exact Hm. }
  assert (He1 : Z.log2 z - 52 = 1) by lia.
  rewrite He1 in *. rewrite E. change (2 ^ 1) with 2 in *.
  pose proof (Z.log2_spec z Hzpos) as [Hlow _].
  replace (Z.log2 z) with 53 in Hlow by lia. lia.
Qed.

Lemma round53_nonneg_bounds (z : Z) :
  0 < z -> 2 ^ Z.log2 z <= round53_nonneg z <= 2 ^ (Z.log2 z + 1).
Proof.
  intros Hz. pose proof (Z.log2_spec z Hz) as [Hlo Hhi].
  pose proof (Z.log2_nonneg z) as Hnn.
  destruct (round53_nonneg_spec z ltac:(lia))
    as [[_ E] | (He & k & E & Hk & _)].
  - rewrite E. replace (Z.log2 z + 1) with (Z.succ (Z.log2 z)) by lia. lia.
  - rewrite E. set (e := Z.log2 z - 52) in *.
    assert (E1 : 2 ^ Z.log2 z = 2 ^ 52 * 2 ^ e)
      by (rewrite <- Z.pow_add_r by lia; f_equal; lia).
    assert (E2 : 2 ^ (Z.log2 z + 1) = 2 ^ 53 * 2 ^ e)
      by (rewrite <- Z.pow_add_r by lia; f_equal; lia).
    rewrite E1, E2.
    assert (0 < 2 ^ e) by (apply Z.pow_pos_nonneg; lia).
    split; apply Z.mul_le_mono_nonneg_r; lia.
Qed.

(** Rounding to 53 bits keeps the order. *)
Lemma round53_nonneg_mono (z1 z2 : Z) :
  0 <= z1 <= z2 -> round53_nonneg z1 <= round53_nonneg z2.
Proof.
  intros [H1 H12].
  destruct (Z.eq_dec z1 0) as [-> | Hz1].
  { replace (round53_nonneg 0) with 0 by reflexivity.
    destruct (Z.eq_dec z2 0) as [-> | Hz2]; [reflexivity |].
    pose proof (round53_nonneg_bounds z2 ltac:(lia)) as [B _].
    assert (0 < 2 ^ Z.log2 z2)
      by (apply Z.pow_pos_nonneg; [lia | apply Z.log2_nonneg]).
    lia. }
  assert (Hp1 : 0 < z1) by lia. assert (Hp2 : 0 < z2) by lia.
  pose proof (Z.log2_le_mono z1 z2 H12) as HL.
  destruct (Z.eq_dec (Z.log2 z1) (Z.log2 z2)) as [Heq | Hne].
  - destruct (round53_nonneg_spec z1 H1)
      as [[He1 E1] | (He1 & k1 & E1 & _ & N1)];
      destruct (round53_nonneg_spec z2 ltac:(lia))
        as [[He2 E2] | (He2 & k2 & E2 & _ & N2)];
      try lia.
    rewrite E1, E2. rewrite Heq in *.
    set (P := 2 ^ (Z.log2 z2 - 52)) in *.
    assert (HP : 0 < P) by (subst P; apply Z.pow_pos_nonneg; lia).
    destruct (Z_le_gt_dec k1 k2) as [Hk | Hk]; [nia |].
    exfalso.
    assert (k2 + 1 <= k1) by lia.
    assert (k2 * P + P <= k1 * P) by nia.
    assert (z1 = z2) by lia. subst z2.
    rewrite E1 in E2. lia.
  - pose proof (round53_nonneg_bounds z1 Hp1) as [_ B1].
    pose proof (round53_nonneg_bounds z2 Hp2) as [B2 _].
    assert (2 ^ (Z.log2 z1 + 1) <= 2 ^ Z.log2 z2)
      by (apply Z.pow_le_mono_r; lia).
    lia.
Qed.

Lemma round53_nonneg_0 : round53_nonneg 0 = 0.
Proof. reflexivity. Qed.

Lemma round53_nonneg_nonneg (z : Z) : 0 <= z -> 0 <= round53_nonneg z.
Proof.
  intros Hz. rewrite <- round53_nonneg_0.
  apply round53_nonneg_mono. lia.
Qed.

Lemma round53_mono (z1 z2 : Z) : z1 <= z2 -> round53 z1 <= round53 z2.
Proof.
  intros H12. unfold round53.
  destruct (Z.ltb_spec z1 0) as [N1 | N1];
    destruct (Z.ltb_spec z2 0) as [N2 | N2].
  - pose proof (round53_nonneg_mono (- z2) (- z1) ltac:(lia)). lia.
  - pose proof (round53_nonneg_nonneg (- z1) ltac:(lia)).
    pose proof (round53_nonneg_nonneg z2 ltac:(lia)). lia.
  - lia.
  - apply round53_nonneg_mono. lia.
Qed.

Lemma round53_exact (z : Z) : Z.abs z <= 2 ^ 53 -> round53 z = z.
Proof.
  intros Hz. unfold round53. destruct (Z.ltb_spec z 0).
  - rewrite round53_nonneg_exact by lia. lia.
  - apply round53_nonneg_exact. lia.
Qed.

Lemma codec_base_is_worst_when_coarser (ctb stb : AVRational) :
  coarser ctb stb -> codec_base_is_worst ctb stb = true.
Proof.
  unfold coarser, codec_base_is_worst, double_mul_int. intros Hc.
  apply Z.leb_le. apply round53_mono. exact Hc.
Qed.

Lemma codec_base_is_worst_exact (ctb stb : AVRational) :
  Z.abs (num ctb * den stb) <= 2 ^ 53 ->
  Z.abs (num stb * den ctb) <= 2 ^ 53 ->
  codec_base_is_worst ctb stb = true <-> coarser ctb stb.
Proof.
  intros H1 H2. unfold coarser, codec_base_is_worst, double_mul_int.
  rewrite !round53_exact by assumption. apply Z.leb_le.
Qed.

(** The model of the double product agrees with the kernel's binary64
    arithmetic on the products used below. *)
Example round53_agrees_with_binary64 :
  let a := 2 ^ 27 + 1 in
  let b := 2 ^ 28 in
  let c := 2 ^ 26 + 1 in
  (Z_to_double a * Z_to_double a)%float = Z_to_double (round53 (a * a)) /\
  (Z_to_double b * Z_to_double c)%float = Z_to_double (round53 (b * c)) /\
  PrimFloat.leb (Z_to_double a * Z_to_double a)%float
    (Z_to_double b * Z_to_double c)%float
  = (round53 (a * a) <=? round53 (b * c)).
Proof. vm_compute. repeat split; reflexivity. Qed.

Section WorstTimeBase.
Context `{External}.

Lemma layout_fields (a a' : ao) p p' st cc cc' :
  layout a' = layout a ->
  ao_priv a = Some p -> ao_priv a' = Some p' ->
  stream p = Some st -> codec p = Some cc -> codec p' = Some cc' ->
  sstride a' = sstride a /\ num_planes a' = num_planes a /\
  aframesize p' = aframesize p /\ stream p' = Some st /\
  codec_time_base cc' = codec_time_base cc.
Proof.
  unfold layout. intros E Hp Hp' Hs Hc Hc'.
  rewrite Hp, Hp' in E. simpl in E. rewrite Hc, Hc', Hs in E. simpl in E.
  injection E as Hss Hfmt Hch HF Hst Htb.
  unfold num_planes. rewrite Hfmt, Hch. auto.
Qed.

(** C6 (as amended): the two time bases are compared by cross-multiplying,
    with the products taken in double: the codec base is chosen when
    codec.num * stream.den, rounded to 53 bits, is at least
    stream.num * codec.den, rounded alike, and the stream base otherwise.
    So the codec base is chosen whenever its tick is at least as long as
    the stream's, the stream base only when its tick is strictly longer,
    and the choice is the exact one when neither product exceeds 2^53.
    Over any run of [play] calls the choice is made at the first call that
    finds the encoder started, while [worst_time_base.den] is 0, and
    [worst_time_base] is the same after every later call; a
    [worst_time_base] with a non-zero denominator is never changed. *)
Theorem worst_time_base_selection (fuel : nat)
    (calls : list (bool * list plane * Z * Z)) (a : ao) p st cc :
  ao_priv a = Some p -> stream p = Some st -> codec p = Some cc ->
  0 < aframesize p ->
  num_planes a <= AV_NUM_DATA_POINTERS ->
  0 < sstride a ->
  Forall (fun c => fits fuel (aframesize p) (sstride a) (snd (fst c))) calls ->
  let ctb := codec_time_base cc in
  let stb := stream_time_base st in
  let selected := if codec_base_is_worst ctb stb then ctb else stb in
  codec_base_is_worst ctb stb
  = (round53 (num stb * den ctb) <=? round53 (num ctb * den stb)) /\
  (coarser ctb stb -> codec_base_is_worst ctb stb = true) /\
  (codec_base_is_worst ctb stb = false ->
   num ctb * den stb < num stb * den ctb) /\
  (Z.abs (num ctb * den stb) <= 2 ^ 53 ->
   Z.abs (num stb * den ctb) <= 2 ^ 53 ->
   (codec_base_is_worst ctb stb = true <-> coarser ctb stb)) /\
  exists counts a' p',
    play_calls fuel calls a = Some (counts, a') /\
    ao_priv a' = Some p' /\
    worst_time_base p'
    = if (den (worst_time_base p) =? 0)
         && existsb (fun c => fst (fst (fst c))) calls
      then selected else worst_time_base p.
Proof.
  intros Hp Hs Hc HF Hn Hst Hfits ctb stb selected.
  split; [reflexivity |].
  split; [apply codec_base_is_worst_when_coarser |].
  split.
  { intros Hfalse.
    destruct (Z_lt_le_dec (num ctb * den stb) (num stb * den ctb))
      as [Hlt | Hle]; [exact Hlt |].
    rewrite (codec_base_is_worst_when_coarser ctb stb Hle) in Hfalse.
    discriminate. }
  split; [apply codec_base_is_worst_exact |].
  subst selected ctb stb.
  revert a p cc Hp Hs Hc HF Hn Hst Hfits.
  induction calls as [| [[[started data] samples] flags] rest IH];
    intros a p cc Hp Hs Hc HF Hn Hst Hfits.
  - exists [], a, p. rewrite andb_false_r. repeat split; assumption.
  - inversion Hfits as [| ? ? [Hnn [Hmax Hfuel]] Hrest]; subst.
    cbn [fst snd] in Hnn, Hmax, Hfuel. cbn [play_calls existsb fst].
    destruct started.
    + destruct (play_spec fuel a data samples flags p st cc)
        as (a1 & p1 & cc1 & frames & lg & E & _ & _ & Hp1 & Hs1 & Hc1 & _
            & _ & _ & _ & _ & _ & Hworst & Hlay); try assumption.
      cbv zeta in E. rewrite E.
      destruct (layout_fields a a1 p p1 st cc cc1 Hlay Hp Hp1 Hs Hc Hc1)
        as (Hss & Hnp & HF1 & _ & Htb).
      destruct (IH a1 p1 cc1) as (counts & a' & p' & E' & Hp' & Hw');
        try assumption; try (rewrite ?HF1, ?Hss, ?Hnp; assumption).
      rewrite E'. eexists. exists a', p'.
      split; [reflexivity |]. split; [exact Hp' |].
      rewrite Hw', Hworst, Htb. unfold chosen_base. cbn [orb].
      rewrite andb_true_r.
      destruct (den (worst_time_base p) =? 0) eqn:Eden.
      * destruct (codec_base_is_worst (codec_time_base cc)
                    (stream_time_base st));
          cbn [fst]; split_ifs; reflexivity.
      * cbn [fst]. rewrite Eden. reflexivity.
    + assert (Eplay : play fuel false a data samples flags
                      = Some (0, MP_WARN "not ready yet for encoding audio" a))
        by reflexivity.
      rewrite Eplay.
      destruct (IH (MP_WARN "not ready yet for encoding audio" a) p cc)
        as (counts & a' & p' & E' & Hp' & Hw'); try assumption.
      rewrite E'. eexists. exists a', p'.
      split; [reflexivity |]. split; [exact Hp' |].
      rewrite Hw'. reflexivity.
Qed.

End WorstTimeBase.

(* ===================================================================== *)
(** * The theorems at work on the sample configuration *)

Lemma sample_live (stb : AVRational) opts last worst in_pts offset next nch :
  @live sample_encoder
    (sample_session stb opts last worst in_pts offset next nch).
Proof. do 3 eexists. repeat split; reflexivity. Qed.



Lemma encode_clamps_backward_pts_witness :
  exists a' p',
    @encode sample_encoder sample_external sample_played 1%float (Some [])
    = Some a' /\
    ao_priv a' = Some p' /\
    lastpts p' = 3001 /\
    exists f, last (the_sent a') None = Some f /\ frame_pts f = 144048.
Proof.
  destruct (@encode_clamps_backward_pts sample_encoder sample_external
              sample_played 1%float []
              (@mkPriv sample_encoder (Some (mkStream 0 (mkRational 1 1000)))
                 (Some sample_codec_ctx) 0 10 0 INT64_MIN 1200 3000 2 0%float
                 (mkRational 1 1000) 0 false)
              (mkStream 0 (mkRational 1 1000)) sample_codec_ctx)
    as (_ & _ & _ & a' & p' & E & Hp' & Hl & Hsent & Hpts).
  - reflexivity.
  - reflexivity.
  - reflexivity.
  - vm_compute. discriminate.
  - split; [vm_compute; discriminate |].
    split; vm_compute; [discriminate | reflexivity].
  - vm_compute. discriminate.
  - exists a', p'. split; [exact E |]. split; [exact Hp' |].
    split; [exact Hl |].
    eexists. rewrite Hsent. split; [reflexivity | reflexivity].
Defined.




Lemma play_returns_at_most_samples_witness :
  exists taken a',
    @play sample_encoder sample_external 4 true sample_ao sample_data 25 1
    = Some (taken, a') /\
    taken <= 25 /\
    samples_since_last_pts (encode_lavc_ctx a') = taken.
Proof.
  destruct (@play_returns_at_most_samples sample_encoder sample_external 4
              true sample_ao sample_data 25 1
              (@mkPriv sample_encoder (Some (mkStream 0 (mkRational 1 1000)))
                 (Some sample_codec_ctx) 0 10 0 INT64_MIN 1200 INT64_MIN 2
                 0%float (mkRational 0 0) 0 false)
              (mkStream 0 (mkRational 1 1000)) sample_codec_ctx)
    as (taken & a' & frames & E & _ & Htaken & Hle & Hsince & _).
  - reflexivity.
  - reflexivity.
  - reflexivity.
  - reflexivity.
  - vm_compute. discriminate.
  - vm_compute. discriminate.
  - reflexivity.
  - vm_compute. discriminate.
  - reflexivity.
  - exists taken, a'. split; [exact E |]. split; [exact Hle |].
    rewrite Hsince. change (wrap64 (0 + taken) = taken).
    apply wrap64_small.
    assert (0 <= taken).
    { rewrite Htaken. apply Z.min_glb; [| lia].
      apply Z.mul_nonneg_nonneg; [vm_compute; discriminate | lia]. }
    unfold INT64_MIN, INT64_MAX. lia.
Defined.

Lemma worst_time_base_selection_witness :
  exists counts a' p',
    @play_calls sample_encoder sample_external 4
      [(false, sample_data, 25, 0); (true, sample_data, 25, 0);
       (true, sample_data, 25, 1)] sample_ao
    = Some (counts, a') /\
    ao_priv a' = Some p' /\
    worst_time_base p' = mkRational 1 1000.
Proof.
  destruct (@worst_time_base_selection sample_encoder sample_external 4
              [(false, sample_data, 25, 0); (true, sample_data, 25, 0);
               (true, sample_data, 25, 1)]
              sample_ao
              (@mkPriv sample_encoder (Some (mkStream 0 (mkRational 1 1000)))
                 (Some sample_codec_ctx) 0 10 0 INT64_MIN 1200 INT64_MIN 2
                 0%float (mkRational 0 0) 0 false)
              (mkStream 0 (mkRational 1 1000)) sample_codec_ctx)
    as (_ & _ & _ & _ & counts & a' & p' & E & Hp' & Hworst).
  - reflexivity.
  - reflexivity.
  - reflexivity.
  - reflexivity.
  - vm_compute. discriminate.
  - reflexivity.
  - repeat constructor; vm_compute; discriminate.
  - exists counts, a', p'. split; [exact E |]. split; [exact Hp' |].
    exact Hworst.
Defined.

(** C6 (as stated): the comparison is not exact.  The stream tick
    (2^27+1)/(2^26+1) is strictly longer than the codec tick
    2^28/(2^27+1), yet both products round to the same double and the codec
    base is taken for the worst one. *)
Lemma worst_time_base_choice_is_rounded :
  let a :=
    sample_session close_stream_base (mkOpts false false) INT64_MIN
      (mkRational 0 0) 0%float (-0x1p+63)%float 0%float 2 in
  let cc :=
    @mkCodecCtx sample_encoder close_codec_base 48000 2 3 1 16 10 0 0
      ([], false) [] in
  let a := set_priv (option_map (set_codec (Some cc)) (ao_priv a)) a in
  num close_codec_base * den close_stream_base
  < num close_stream_base * den close_codec_base /\
  ~ coarser close_codec_base close_stream_base /\
  PrimFloat.leb
    (Z_to_double (num close_stream_base)
     * Z_to_double (den close_codec_base))%float
    (Z_to_double (num close_codec_base)
     * Z_to_double (den close_stream_base))%float = true /\
  codec_base_is_worst close_codec_base close_stream_base = true /\
  option_map (fun a' => option_map worst_time_base (ao_priv a'))
    (@choose_worst_time_base sample_encoder a)
  = Some (Some close_codec_base).
Proof.
  cbv zeta. split; [vm_compute; reflexivity |].
  split; [unfold coarser; vm_compute; intros Hc; apply Hc; reflexivity |].
  repeat split; vm_compute; reflexivity.
Qed.

Lemma uninit_twice_flushes_at_most_once_witness :
  exists a1 a2,
    @uninit sample_encoder sample_external true sample_ao = Some a1 /\
    @uninit sample_encoder sample_external true a1 = Some a2 /\
    flushes a2 = 1%nat /\ a2 = a1.
Proof.
  destruct (@uninit_twice_flushes_at_most_once sample_encoder sample_external
              true true sample_ao
              (@mkPriv sample_encoder (Some (mkStream 0 (mkRational 1 1000)))
                 (Some sample_codec_ctx) 0 10 0 INT64_MIN 1200 INT64_MIN 2
                 0%float (mkRational 0 0) 0 false)
              (mkStream 0 (mkRational 1 1000)) sample_codec_ctx)
    as (a1 & a2 & E1 & E2 & _ & Hstarted & _).
  - reflexivity.
  - reflexivity.
  - reflexivity.
  - reflexivity.
  - destruct (Hstarted eq_refl) as (Hf & _ & Heq).
    exists a1, a2. split; [exact E1 |]. split; [exact E2 |].
    split; [rewrite Heq; exact Hf | exact Heq].
Defined.

(** C7 (as stated): two calls of [uninit] while the encoder has not started
    submit no end-of-stream marker at all, and the first does not mark the
    session. *)
Lemma uninit_twice_without_start :
  exists a1 a2,
    @uninit sample_encoder sample_external false sample_ao = Some a1 /\
    @uninit sample_encoder sample_external false a1 = Some a2 /\
    is_shutdown a1 = false /\
    a2 <> a1 /\
    the_sent a2 = [] /\
    flushes a2 <> 1%nat.
Proof.
  eexists. eexists.
  split; [reflexivity |]. split; [reflexivity |].
  split; [reflexivity |].
  split; [intros Heq; apply (f_equal (fun x => List.length (log x))) in Heq;
          vm_compute in Heq; discriminate |].
  split; [reflexivity |]. vm_compute. discriminate.
Qed.

Lemma init_rejects_too_many_channels_witness :
  fst (@init sample_encoder sample_external true sample_nine_channels) = -1 /\
  is_shutdown (snd (@init sample_encoder sample_external true
                      sample_nine_channels)) = true.
Proof.
  destruct (@init_rejects_too_many_channels sample_encoder sample_external
              true sample_nine_channels) as (Hmany & _).
  destruct Hmany as (Hret & Hshut).
  - intros adjusted Hadj. vm_compute in Hadj. injection Hadj as <-.
    vm_compute. reflexivity.
  - split; [exact Hret | apply Hshut; reflexivity].
Defined.

(** C9 at the failing input: with nine channels asked for and no encoding
    context available, [init] returns -1 without marking the session. *)
Lemma init_unavailable_leaves_session_unmarked :
  chmap_num (ao_channels sample_nine_channels) = 9 /\
  @AV_NUM_DATA_POINTERS sample_encoder sample_external = 8 /\
  fst (@init sample_encoder sample_external false sample_nine_channels) = -1 /\
  is_shutdown (snd (@init sample_encoder sample_external false
                      sample_nine_channels)) = false.
Proof. repeat split; reflexivity. Qed.

(* ===================================================================== *)
(** * Format negotiation: supports_format and select_format *)

Section Formats.
Context `{External}.

(** X1: [supports_format] answers true exactly when some entry of
    [codec->sample_fmts] that comes before the first [AV_SAMPLE_FMT_NONE]
    converts to the format asked for; entries after the terminator are not
    looked at, and a codec without a list supports nothing. *)
Theorem supports_format_iff (c : AVCodec) (fmt : Z) :
  supports_format c fmt = true <->
  exists fmts pre f post,
    sample_fmts c = Some fmts /\ fmts = pre ++ f :: post /\
    ~ In AV_SAMPLE_FMT_NONE pre /\ f <> AV_SAMPLE_FMT_NONE /\
    af_from_avformat f = fmt.
Proof.
  unfold supports_format. destruct (sample_fmts c) as [fmts |].
  - assert (Hlist : supports_format_from fmts fmt = true <->
             exists pre f post,
               fmts = pre ++ f :: post /\ ~ In AV_SAMPLE_FMT_NONE pre /\
               f <> AV_SAMPLE_FMT_NONE /\ af_from_avformat f = fmt).
    { induction fmts as [| g rest IH]; simpl.
      - split; [discriminate |]. intros (pre & f & post & E & _).
        destruct pre; discriminate.
      - destruct (Z.eqb_spec g AV_SAMPLE_FMT_NONE) as [Hnone | Hsome].
        + split; [discriminate |].
          intros (pre & f & post & E & Hpre & Hf & _). exfalso.
          destruct pre as [| g' pre]; simpl in E; inversion E; subst.
          * apply Hf. reflexivity.
          * apply Hpre. left. reflexivity.
        + destruct (Z.eqb_spec (af_from_avformat g) fmt) as [Hm | Hm].
          * split; [| reflexivity]. intros _.
            exists [], g, rest. repeat split; auto.
          * rewrite IH. split.
            -- intros (pre & f & post & E & Hpre & Hf & Hfm).
               exists (g :: pre), f, post. rewrite E.
               repeat split; auto. intros [Hin | Hin]; auto.
            -- intros (pre & f & post & E & Hpre & Hf & Hfm).
               destruct pre as [| g' pre]; simpl in E; inversion E; subst.
               ++ contradiction.
               ++ exists pre, f, post. repeat split; auto.
                  intros Hin. apply Hpre. right. exact Hin. }
    rewrite Hlist. split.
    + intros (pre & f & post & E). exists fmts, pre, f, post. tauto.
    + intros (fmts' & pre & f & post & E & Rest). injection E as <-.
      exists pre, f, post. exact Rest.
  - split; [discriminate |]. intros (fmts & ? & ? & ? & E & _). discriminate.
Qed.

Lemma select_format_from_first (c : AVCodec) (formats : list Z) (cur : Z) :
  exists pre,
    Forall (fun f => f <> 0 /\ supports_format c f = false) pre /\
    ((exists post,
         formats = pre ++ select_format_from c formats cur :: post /\
         select_format_from c formats cur <> 0 /\
         supports_format c (select_format_from c formats cur) = true) \/
     (select_format_from c formats cur = cur /\
      (formats = pre \/ exists post, formats = pre ++ 0 :: post))).
Proof.
  induction formats as [| f rest IH]; simpl.
  - exists []. split; [constructor |]. right. auto.
  - destruct (Z.eqb_spec f 0) as [Hz | Hnz].
    + exists []. split; [constructor |]. right. split; [reflexivity |].
      right. exists rest. rewrite Hz. reflexivity.
    + destruct (supports_format c f) eqn:Hsup.
      * exists []. split; [constructor |]. left. exists rest. auto.
      * destruct IH as (pre & Hpre & Hcase).
        exists (f :: pre). split; [constructor; auto |].
        destruct Hcase as [(post & E & Hc) | (Ecur & Hend)].
        -- left. exists post. rewrite E at 1. auto.
        -- right. split; [exact Ecur |].
           destruct Hend as [E | (post & E)].
           ++ left. rewrite E. reflexivity.
           ++ right. exists post. rewrite E. reflexivity.
Qed.

(** X2: [select_format] takes the first format of the preference list, up
    to its 0 terminator, that the codec supports; when there is none it
    keeps the format it was given. *)
Theorem select_format_first_supported (fmt : Z) (c : AVCodec) :
  let formats := af_get_best_sample_formats fmt in
  let chosen := select_format fmt c in
  exists pre,
    Forall (fun f => f <> 0 /\ supports_format c f = false) pre /\
    ((exists post,
         formats = pre ++ chosen :: post /\ chosen <> 0 /\
         supports_format c chosen = true) \/
     (chosen = fmt /\
      (formats = pre \/ exists post, formats = pre ++ 0 :: post))).
Proof.
  intros formats chosen. subst formats chosen. unfold select_format.
  apply select_format_from_first.
Qed.

End Formats.

(* ===================================================================== *)
(** * init: what it returns and what it leaves *)

Section InitOutcome.
Context `{External}.

(** The steps of [init], one case each. *)
Ltac init_cases :=
  unfold init;
  match goal with
  | |- context [negb ?av] => destruct av; cbn [negb]
  end;
  [ destruct (encode_lavc_alloc_stream
                (encode_lavc_ctx (set_priv (Some zero_priv) _)))
      as [[?st ?cc] |] eqn:?Halloc;
    [ cbn [ao_channels set_priv];
      match goal with
      | |- context [ao_chmap_sel_adjust2 ?c] =>
          destruct (ao_chmap_sel_adjust2 c) as [?adjusted |] eqn:?Hadjust
      end;
      [ match goal with
        | |- context [encode_lavc_open_codec ?e ?c] =>
            destruct (encode_lavc_open_codec e c) as [?cc2 |] eqn:?Hopen
        end;
        [ match goal with
          | |- context [AV_NUM_DATA_POINTERS <? ?n] =>
              destruct (Z.ltb_spec AV_NUM_DATA_POINTERS n)
          end
        | ]
      | ]
    | ]
  | ].

(** X3: [init] returns 0 or -1 and nothing else, and -1 whenever the
    encoding context is not available, no stream can be allocated, the
    channel map cannot be negotiated or the codec cannot be opened. *)
Theorem init_failure_codes (available : bool) (a0 : ao) :
  (fst (init available a0) = 0 \/ fst (init available a0) = -1) /\
  (available = false -> fst (init available a0) = -1) /\
  (encode_lavc_alloc_stream (encode_lavc_ctx a0) = None ->
   fst (init available a0) = -1) /\
  (ao_chmap_sel_adjust2 (ao_channels a0) = None ->
   fst (init available a0) = -1) /\
  ((forall cc, encode_lavc_open_codec (encode_lavc_ctx a0) cc = None) ->
   fst (init available a0) = -1).
Proof.
  init_cases; cbn [fst]; simpl in *;
    repeat split; auto; try discriminate; try congruence;
    intros Hnone; try congruence;
    match goal with
    | Hopen : encode_lavc_open_codec ?e ?c = Some _ |- _ =>
        rewrite (Hnone c) in Hopen; discriminate
    end.
Qed.

Lemma FFMAX_ge_r (a b : Z) : b <= FFMAX a b.
Proof. unfold FFMAX. destruct (Z.ltb_spec b a); lia. Qed.

(** X4: when [init] returns 0 the session is complete and fresh: it has its
    stream and codec context, the stream time base is 1/samplerate, no pts
    is recorded or saved, no worst time base is chosen yet, no frame is
    counted, the session is not shut down, room is kept for at least one
    frame, the frame size is the codec's (or 16384 for a codec without
    one), and the sample rate is the negotiated one when there is one. *)
Theorem init_success_state (available : bool) (a0 : ao) :
  fst (init available a0) = 0 ->
  let a := snd (init available a0) in
  let best :=
    af_select_best_samplerate (samplerate a0)
      (supported_samplerates (ac (encode_lavc_ctx a0))) in
  available = true /\
  exists p st cc,
    ao_priv a = Some p /\ stream p = Some st /\ codec p = Some cc /\
    stream_time_base st = mkRational 1 (samplerate a) /\
    samplerate a = (if 0 <? best then best else samplerate a0) /\
    lastpts p = AV_NOPTS_VALUE /\ savepts p = AV_NOPTS_VALUE /\
    worst_time_base p = mkRational 0 0 /\
    aframecount p = 0 /\ shutdown p = false /\
    1 <= framecount p /\
    aframesize p = (if pcmhack p =? 0 then frame_size cc else 16384) /\
    format a = select_format (format a0) (ac (encode_lavc_ctx a0)) /\
    sample_size p = af_fmt_to_bytes (format a) /\
    untimed a = true /\ log a = log a0 /\
    encode_lavc_ctx a = encode_lavc_ctx a0.
Proof.
  intros Hok a best. subst a best. revert Hok.
  init_cases; cbn [fst snd]; try discriminate.
  intros _. split; [reflexivity |].
  eexists. eexists. eexists.
  repeat (split; [reflexivity |]).
  split; [apply FFMAX_ge_r |].
  repeat (split; [reflexivity |]). reflexivity.
Qed.

(** X5: when [init] gets past the availability check and fails, it leaves
    the session marked, and [uninit] on it does nothing at all: no flush,
    no warning, no change. *)
Theorem uninit_after_failed_init (available started : bool) (a0 : ao) :
  available = true ->
  fst (init available a0) = -1 ->
  uninit started (snd (init available a0)) = Some (snd (init available a0)).
Proof.
  init_cases; cbn [fst snd]; try discriminate; intros _ _; reflexivity.
Qed.

End InitOutcome.

(* ===================================================================== *)
(** * Packets: from the encoder to the muxer *)

Section Packets.
Context `{External}.

(** Lines 219-231: a packet that comes without a pts gets the saved pts,
    rescaled, and stays without one when none is saved; a packet with a pts
    gets its own, rescaled. *)
Lemma written_packet_pts (st : AVStream) (cc : AVCodecContext) (sv : Z)
    (packet : AVPacket) :
  pkt_pts (written_packet st cc sv packet)
  = (if pkt_pts packet =? AV_NOPTS_VALUE then
       if PrimFloat.eqb (Z_to_double sv) MP_NOPTS_VALUE
       then AV_NOPTS_VALUE
       else av_rescale_q sv (codec_time_base cc) (stream_time_base st)
     else av_rescale_q (pkt_pts packet) (codec_time_base cc)
            (stream_time_base st)).
Proof.
  unfold written_packet. cbn [pkt_pts].
  destruct (Z.eqb_spec (pkt_pts packet) AV_NOPTS_VALUE) as [E | _];
    cbn [negb]; [| reflexivity].
  destruct (PrimFloat.eqb (Z_to_double sv) MP_NOPTS_VALUE); cbn [negb];
    [exact E | reflexivity].
Qed.

(** [(double) INT64_MIN] is -0x1p+63, the value of [MP_NOPTS_VALUE]: an
    unset [savepts] reads as unset on line 226. *)
Lemma Z_to_double_INT64_MIN : Z_to_double INT64_MIN = (-0x1p+63)%float.
Proof. vm_compute. reflexivity. Qed.

(** On the sample session: a packet without pts stays without one when no
    pts is saved, and gets the saved pts 480 as 10 ticks of the stream's
    1/1000 when there is one. *)
Lemma write_packet_without_pts :
  option_map the_muxed
    (@write_packet sample_encoder sample_external sample_ao
       (mkPacket 7 INT64_MIN INT64_MIN 0))
  = Some [mkPacket 0 INT64_MIN INT64_MIN 0] /\
  option_map the_muxed
    (@write_packet sample_encoder sample_external
       (set_priv (Some (set_savepts 480 sample_priv)) sample_ao)
       (mkPacket 7 INT64_MIN INT64_MIN 0))
  = Some [mkPacket 0 10 INT64_MIN 0].
Proof. split; vm_compute; reflexivity. Qed.

Lemma write_packet_effect (a : ao) (packet : AVPacket) p st cc :
  ao_priv a = Some p -> stream p = Some st -> codec p = Some cc ->
  let w := written_packet st cc (savepts p) packet in
  exists a',
    write_packet a packet = Some a' /\
    ao_priv a' = Some (set_savepts AV_NOPTS_VALUE p) /\
    the_muxed a' = the_muxed a ++ [w] /\
    log a'
    = log a
      ++ (if negb (pkt_pts packet =? AV_NOPTS_VALUE) then []
          else [(MSGL_WARN, "encoder lost pts, why?"%string)])
      ++ (if encode_lavc_write_frame (encode_lavc_ctx a) st w <? 0
          then [(MSGL_ERR, "error writing"%string)] else []).
Proof.
  intros Hp Hs Hc w. subst w. unfold write_packet, written_packet, the_muxed.
  rewrite Hp, Hs, Hc.
  destruct a as [? ? ? ? ? pr ec lg]. simpl in Hp. subst pr.
  cbn [encode_lavc_ctx log ao_priv].
  destruct (negb (pkt_pts packet =? AV_NOPTS_VALUE));
    [| destruct (negb (PrimFloat.eqb (Z_to_double (savepts p)) MP_NOPTS_VALUE))];
    cbn [MP_WARN MP_ERR mp_msg set_priv set_ectx set_muxed encode_lavc_ctx
         log ao_priv muxed];
    match goal with
    | |- context [encode_lavc_write_frame ?e ?s ?w <? 0] =>
        destruct (encode_lavc_write_frame e s w <? 0)
    end;
    eexists; (split; [reflexivity |]); (split; [reflexivity |]);
    (split; [reflexivity |]);
    cbn [MP_WARN MP_ERR mp_msg set_priv set_ectx set_muxed encode_lavc_ctx
         log ao_priv muxed app];
    rewrite ?app_nil_r, <- ?app_assoc; reflexivity.
Qed.

Lemma receive_one_effect (frame : option AVFrame) (a : ao)
    (packet : AVPacket) p st cc :
  ao_priv a = Some p -> stream p = Some st -> codec p = Some cc ->
  savepts p = AV_NOPTS_VALUE ->
  exists a' lg,
    receive_one frame a packet = Some a' /\
    ao_priv a' = Some (set_savepts AV_NOPTS_VALUE p) /\
    the_muxed a'
    = the_muxed a ++ [written_packet st cc (pts_for frame) packet] /\
    log a' = log a ++ lg.
Proof.
  intros Hp Hs Hc Hsv. unfold receive_one. rewrite Hp.
  destruct frame as [f |].
  - rewrite Hsv, Z.eqb_refl.
    destruct (write_packet_effect
                (set_priv (Some (set_savepts (frame_pts f) p)) a) packet
                (set_savepts (frame_pts f) p) st cc)
      as (a' & E & Hp' & Hmux & Hlog); try reflexivity; try assumption.
    exists a'. eexists. split; [exact E |]. split; [exact Hp' |].
    split; [exact Hmux |]. rewrite Hlog. reflexivity.
  - destruct (write_packet_effect a packet p st cc Hp Hs Hc)
      as (a' & E & Hp' & Hmux & Hlog).
    exists a'. eexists. split; [exact E |]. split; [exact Hp' |].
    split; [rewrite Hmux, Hsv; reflexivity |]. rewrite Hlog. reflexivity.
Qed.

Lemma receive_loop_effect (frame : option AVFrame)
    (packets : list AVPacket) :
  forall (a : ao) p st cc,
    ao_priv a = Some p -> stream p = Some st -> codec p = Some cc ->
    savepts p = AV_NOPTS_VALUE ->
    exists a' p' lg,
      receive_loop frame a packets = Some a' /\
      ao_priv a' = Some p' /\
      savepts p' = AV_NOPTS_VALUE /\ lastpts p' = lastpts p /\
      shutdown p' = shutdown p /\
      stream p' = Some st /\ codec p' = Some cc /\
      the_muxed a'
      = the_muxed a ++ map (written_packet st cc (pts_for frame)) packets /\
      log a' = log a ++ lg.
Proof.
  induction packets as [| packet rest IH]; intros a p st cc Hp Hs Hc Hsv.
  - exists a, p, []. simpl. rewrite !app_nil_r. auto 12.
  - destruct (receive_one_effect frame a packet p st cc Hp Hs Hc Hsv)
      as (a1 & lg1 & E1 & Hp1 & Hmux1 & Hlog1).
    destruct (IH a1 (set_savepts AV_NOPTS_VALUE p) st cc Hp1 Hs Hc eq_refl)
      as (a' & p' & lg & E & Hp' & Hsv' & Hl' & Hsh' & Hs' & Hc' & Hmux
          & Hlog).
    exists a', p', (lg1 ++ lg). simpl. rewrite E1, E.
    repeat split; try assumption.
    + rewrite Hmux, Hmux1, <- app_assoc. reflexivity.
    + rewrite Hlog, Hlog1, <- app_assoc. reflexivity.
Qed.

(** X6: [write_packet] hands the muxer exactly one packet per call.  The
    packet carries the index of the audio stream; a pts, dts or positive
    duration that the encoder set is rescaled from the codec time base to
    the stream time base; an unset dts and a duration that is not positive
    go through as they are.  The saved pts is cleared, nothing is submitted
    to the encoder, and a muxer error does not stop the call. *)
Theorem write_packet_forwards (a : ao) (packet : AVPacket) p st cc :
  ao_priv a = Some p -> stream p = Some st -> codec p = Some cc ->
  let to_stream x :=
    av_rescale_q x (codec_time_base cc) (stream_time_base st) in
  exists a' w,
    write_packet a packet = Some a' /\
    the_muxed a' = the_muxed a ++ [w] /\
    stream_index w = index st /\
    (pkt_pts packet <> AV_NOPTS_VALUE ->
     pkt_pts w = to_stream (pkt_pts packet)) /\
    (pkt_dts packet <> AV_NOPTS_VALUE ->
     pkt_dts w = to_stream (pkt_dts packet)) /\
    (pkt_dts packet = AV_NOPTS_VALUE -> pkt_dts w = AV_NOPTS_VALUE) /\
    (0 < duration packet -> duration w = to_stream (duration packet)) /\
    (duration packet <= 0 -> duration w = duration packet) /\
    the_savepts a' = Some AV_NOPTS_VALUE /\
    the_sent a' = the_sent a.
Proof.
  intros Hp Hs Hc to_stream.
  destruct (write_packet_effect a packet p st cc Hp Hs Hc)
    as (a' & E & Hp' & Hmux & _).
  exists a', (written_packet st cc (savepts p) packet).
  split; [exact E |]. split; [exact Hmux |]. split; [reflexivity |].
  unfold written_packet, to_stream. cbn [pkt_pts pkt_dts duration].
  repeat split.
  - intros Hne. apply Z.eqb_neq in Hne. rewrite Hne. reflexivity.
  - intros Hne. apply Z.eqb_neq in Hne. rewrite Hne. reflexivity.
  - intros He. rewrite He, Z.eqb_refl. reflexivity.
  - intros Hd. apply Z.ltb_lt in Hd. rewrite Hd. reflexivity.
  - intros Hd. apply Z.ltb_ge in Hd. rewrite Hd. reflexivity.
  - unfold the_savepts. rewrite Hp'. reflexivity.
  - unfold the_sent. rewrite Hp', Hp. reflexivity.
Qed.

Lemma receive_end_keeps (frame : option AVFrame) (status : Z) (a : ao) :
  exists lg,
    ao_priv (receive_end frame status a) = ao_priv a /\
    encode_lavc_ctx (receive_end frame status a) = encode_lavc_ctx a /\
    log (receive_end frame status a) = log a ++ lg.
Proof.
  unfold receive_end.
  repeat split_if;
    first [ exists []; rewrite app_nil_r; repeat split; reflexivity
          | eexists; repeat split; reflexivity ].
Qed.

Lemma encode_audio_and_write_effect (a : ao) (frame : option AVFrame)
    p st cc status e1 packets last e2 :
  ao_priv a = Some p -> stream p = Some st -> codec p = Some cc ->
  savepts p = AV_NOPTS_VALUE ->
  avcodec_send_frame (enc cc) frame = (status, e1) ->
  avcodec_receive_packets e1 = (packets, last, e2) ->
  exists a' p' cc' lg,
    encode_audio_and_write a frame = Some a' /\
    ao_priv a' = Some p' /\ stream p' = Some st /\ codec p' = Some cc' /\
    savepts p' = AV_NOPTS_VALUE /\ lastpts p' = lastpts p /\
    shutdown p' = shutdown p /\
    codec_time_base cc' = codec_time_base cc /\
    sent cc' = sent cc ++ [frame] /\
    enc cc' = (if status <? 0 then e1 else e2) /\
    the_muxed a'
    = the_muxed a
      ++ (if status <? 0 then []
          else map (written_packet st cc (pts_for frame)) packets) /\
    log a' = log a ++ lg.
Proof.
  intros Hp Hs Hc Hsv Hsend Hrecv. unfold encode_audio_and_write.
  rewrite Hp, Hc, Hsend.
  destruct (status <? 0).
  - eexists. eexists. eexists. exists [(MSGL_ERR, "error encoding"%string)].
    split; [reflexivity |]. cbn.
    repeat split; try assumption. rewrite app_nil_r. reflexivity.
  - rewrite Hrecv.
    set (cc2 := set_enc e2 (sent (set_enc e1 (sent cc ++ [frame]) cc))
                  (set_enc e1 (sent cc ++ [frame]) cc)).
    destruct (receive_loop_effect frame packets
                (set_priv (Some (set_codec (Some cc2) p)) a)
                (set_codec (Some cc2) p) st cc2)
      as (a3 & p3 & lg & E & Hp3 & Hsv3 & Hl3 & Hsh3 & Hs3 & Hc3 & Hmux
          & Hlog);
      try reflexivity; try assumption.
    rewrite E.
    destruct (receive_end_keeps frame last a3) as (lg' & Ep & Ee & El).
    exists (receive_end frame last a3), p3, cc2, (lg ++ lg').
    split; [reflexivity |]. unfold the_muxed in *.
    rewrite Ep, Ee, El.
    repeat split; try assumption; try reflexivity.
    rewrite Hlog, <- app_assoc. reflexivity.
Qed.

(** X7: with no pts saved from before, one submission to the encoder hands
    the muxer exactly the packets the encoder gives out for it, in their
    order, each as [write_packet] writes it and with the pts of the
    submitted frame to fall back on (none for the end-of-stream marker).
    A packet that comes without a pts is written with the frame's pts,
    rescaled, and without one when the frame's pts reads as
    [MP_NOPTS_VALUE].  When the encoder refuses the submission nothing is
    read from it and nothing is written.  Either way the submission is
    recorded and no pts stays saved. *)
Theorem encode_audio_and_write_forwards (a : ao) (frame : option AVFrame)
    p st cc status e1 packets last e2 :
  ao_priv a = Some p -> stream p = Some st -> codec p = Some cc ->
  savepts p = AV_NOPTS_VALUE ->
  avcodec_send_frame (enc cc) frame = (status, e1) ->
  avcodec_receive_packets e1 = (packets, last, e2) ->
  exists a' p' cc',
    encode_audio_and_write a frame = Some a' /\
    ao_priv a' = Some p' /\ codec p' = Some cc' /\
    the_muxed a'
    = the_muxed a
      ++ (if status <? 0 then []
          else map (written_packet st cc (pts_for frame)) packets) /\
    enc cc' = (if status <? 0 then e1 else e2) /\
    the_sent a' = the_sent a ++ [frame] /\
    the_savepts a' = Some AV_NOPTS_VALUE /\
    Forall
      (fun packet =>
         pkt_pts packet = AV_NOPTS_VALUE ->
         pkt_pts (written_packet st cc (pts_for frame) packet)
         = (if PrimFloat.eqb (Z_to_double (pts_for frame)) MP_NOPTS_VALUE
            then AV_NOPTS_VALUE
            else av_rescale_q (pts_for frame) (codec_time_base cc)
                   (stream_time_base st)))
      packets.
Proof.
  intros Hp Hs Hc Hsv Hsend Hrecv.
  destruct (encode_audio_and_write_effect a frame p st cc status e1 packets
              last e2 Hp Hs Hc Hsv Hsend Hrecv)
    as (a' & p' & cc' & lg & E & Hp' & Hs' & Hc' & Hsv' & _ & _ & _ & Hsent
        & Henc & Hmux & _).
  exists a', p', cc'. repeat split; try assumption.
  - unfold the_sent. rewrite Hp', Hc', Hp, Hc. exact Hsent.
  - unfold the_savepts. rewrite Hp'. cbn. rewrite Hsv'. reflexivity.
  - apply Forall_forall. intros packet _ Hunset.
    rewrite written_packet_pts, Hunset, Z.eqb_refl. reflexivity.
Qed.

(** X8: the branch for the older encoder interface and the branch for the
    send and receive interface do the same to the session when the two
    encoders answer alike: the same status, and the one packet of
    [avcodec_encode_audio2] (or none) as what [avcodec_receive_packet]
    gives out.  The same packets reach the muxer, the same submission is
    recorded, and no pts stays saved. *)
Theorem old_api_forwards_alike
    (avcodec_encode_audio2 :
       encoder -> option AVFrame -> Z * option AVPacket * encoder)
    (a : ao) (frame : option AVFrame)
    p st cc status got e0 e1 last e2 :
  ao_priv a = Some p -> stream p = Some st -> codec p = Some cc ->
  savepts p = AV_NOPTS_VALUE ->
  avcodec_encode_audio2 (enc cc) frame = (status, got, e0) ->
  avcodec_send_frame (enc cc) frame = (status, e1) ->
  avcodec_receive_packets e1
  = (match got with Some packet => [packet] | None => [] end, last, e2) ->
  exists a_old a_new,
    encode_audio_and_write_old_api avcodec_encode_audio2 a frame
    = Some a_old /\
    encode_audio_and_write a frame = Some a_new /\
    the_muxed a_old = the_muxed a_new /\
    the_sent a_old = the_sent a_new /\
    the_savepts a_old = the_savepts a_new /\
    (List.length (the_muxed a_old) <= S (List.length (the_muxed a)))%nat.
Proof.
  intros Hp Hs Hc Hsv Hold Hsend Hrecv.
  destruct (encode_audio_and_write_effect a frame p st cc status e1 _
              last e2 Hp Hs Hc Hsv Hsend Hrecv)
    as (a' & p' & cc' & lg & E & Hp' & Hs' & Hc' & Hsv' & _ & _ & _ & Hsent
        & Henc & Hmux & _).
  assert (Hnew_sent : the_sent a' = sent cc ++ [frame])
    by (unfold the_sent; rewrite Hp', Hc'; exact Hsent).
  assert (Hnew_sv : the_savepts a' = Some AV_NOPTS_VALUE)
    by (unfold the_savepts; rewrite Hp'; cbn; rewrite Hsv'; reflexivity).
  unfold encode_audio_and_write_old_api. rewrite Hp, Hc, Hold, E.
  destruct (status <? 0); [| destruct got as [packet |]].
  - eexists. exists a'. split; [reflexivity |]. split; [reflexivity |].
    rewrite Hnew_sent, Hnew_sv, Hmux.
    unfold the_muxed, the_sent, the_savepts. cbn.
    rewrite app_nil_r, Hsv. repeat split. lia.
  - set (cc1 := set_enc e0 (sent cc ++ [frame]) cc).
    destruct (receive_one_effect frame
                (set_priv (Some (set_codec (Some cc1) p)) a) packet
                (set_codec (Some cc1) p) st cc1)
      as (a1 & lg1 & E1 & Hp1 & Hmux1 & _);
      try reflexivity; try assumption.
    exists a1, a'. split; [exact E1 |]. split; [reflexivity |].
    rewrite Hnew_sent, Hnew_sv, Hmux.
    split; [exact Hmux1 |].
    split; [unfold the_sent; rewrite Hp1; reflexivity |].
    split; [unfold the_savepts; rewrite Hp1; reflexivity |].
    rewrite Hmux1, length_app. unfold the_muxed. cbn. lia.
  - eexists. exists a'. split; [reflexivity |]. split; [reflexivity |].
    rewrite Hnew_sent, Hnew_sv, Hmux.
    unfold the_muxed, the_sent, the_savepts. cbn.
    rewrite app_nil_r, Hsv. repeat split. lia.
Qed.

End Packets.

(* ===================================================================== *)
(** * From submissions to muxed packets *)

Section Pipeline.
Context `{External}.

Lemma encoder_run_app (l1 l2 : list (option AVFrame)) :
  forall e,
    encoder_run e (l1 ++ l2)
    = (fst (encoder_run e l1) ++ fst (encoder_run (snd (encoder_run e l1)) l2),
       snd (encoder_run (snd (encoder_run e l1)) l2)).
Proof.
  induction l1 as [| f rest IH]; intros e.
  - simpl. destruct (encoder_run e l2). reflexivity.
  - cbn [app encoder_run].
    destruct (avcodec_send_frame e f) as [status e1].
    destruct (if status <? 0 then ([], e1)
              else let '(packets, _, e2) := avcodec_receive_packets e1 in
                   (packets, e2)) as [packets e2].
    rewrite IH. destruct (encoder_run e2 rest) as [out e']. reflexivity.
Qed.

Lemma muxer_input_app (st : AVStream) (cc : AVCodecContext)
    (r1 r2 : list (option AVFrame * list AVPacket)) :
  muxer_input st cc (r1 ++ r2) = muxer_input st cc r1 ++ muxer_input st cc r2.
Proof. unfold muxer_input. apply flat_map_app. Qed.

Lemma muxer_input_base (st : AVStream) (cc cc' : AVCodecContext)
    (run : list (option AVFrame * list AVPacket)) :
  codec_time_base cc' = codec_time_base cc ->
  muxer_input st cc' run = muxer_input st cc run.
Proof.
  intros E. unfold muxer_input, written_packet. rewrite E. reflexivity.
Qed.

Lemma muxer_input_index (st : AVStream) (cc : AVCodecContext)
    (run : list (option AVFrame * list AVPacket)) :
  Forall (fun w => stream_index w = index st) (muxer_input st cc run).
Proof.
  unfold muxer_input. apply Forall_flat_map. apply Forall_forall.
  intros r _. apply Forall_map. apply Forall_forall. intros packet _.
  reflexivity.
Qed.

Lemma forwarded_refl (a : ao) p st cc :
  ao_priv a = Some p -> stream p = Some st -> codec p = Some cc ->
  savepts p = AV_NOPTS_VALUE ->
  forwarded st cc a a [].
Proof.
  intros Hp Hs Hc Hsv. exists p, cc. simpl.
  rewrite !app_nil_r. auto 10.
Qed.

Lemma forwarded_trans (st : AVStream) (cc : AVCodecContext) (a a1 a2 : ao)
    (s1 s2 : list (option AVFrame)) :
  forwarded st cc a a1 s1 ->
  (forall p1 cc1, ao_priv a1 = Some p1 -> codec p1 = Some cc1 ->
                  forwarded st cc1 a1 a2 s2) ->
  forwarded st cc a a2 (s1 ++ s2).
Proof.
  intros (p1 & cc1 & Hp1 & Hs1 & Hc1 & Hsv1 & Htb1 & Hsent1 & Henc1 & Hmux1
          & Hsh1) H2.
  destruct (H2 p1 cc1 Hp1 Hc1)
    as (p2 & cc2 & Hp2 & Hs2 & Hc2 & Hsv2 & Htb2 & Hsent2 & Henc2 & Hmux2
        & Hsh2).
  exists p2, cc2. rewrite encoder_run_app. cbn [fst snd].
  repeat split; try assumption.
  - congruence.
  - rewrite Hsent2, Hsent1, app_assoc. reflexivity.
  - rewrite Henc2, Henc1. reflexivity.
  - rewrite Hmux2, Hmux1, muxer_input_app, Henc1,
      (muxer_input_base st cc cc1 _ Htb1), app_assoc.
    reflexivity.
  - congruence.
Qed.

Lemma encode_audio_and_write_forwarded (a : ao) (frame : option AVFrame)
    p st cc :
  ao_priv a = Some p -> stream p = Some st -> codec p = Some cc ->
  savepts p = AV_NOPTS_VALUE ->
  exists a' p',
    encode_audio_and_write a frame = Some a' /\
    ao_priv a' = Some p' /\ lastpts p' = lastpts p /\
    forwarded st cc a a' [frame].
Proof.
  intros Hp Hs Hc Hsv.
  destruct (avcodec_send_frame (enc cc) frame) as [status e1] eqn:Hsend.
  destruct (avcodec_receive_packets e1) as [[packets last] e2] eqn:Hrecv.
  destruct (encode_audio_and_write_effect a frame p st cc status e1 packets
              last e2 Hp Hs Hc Hsv Hsend Hrecv)
    as (a' & p' & cc' & lg & E & Hp' & Hs' & Hc' & Hsv' & Hl & Hsh & Htb
        & Hsent & Henc & Hmux & _).
  exists a', p'. split; [exact E |]. split; [exact Hp' |].
  split; [exact Hl |].
  assert (Hshut : is_shutdown a' = is_shutdown a)
    by (unfold is_shutdown; rewrite Hp', Hp; exact Hsh).
  exists p', cc'. cbn [encoder_run]. rewrite Hsend.
  destruct (status <? 0); [| rewrite Hrecv]; cbn [fst snd];
    unfold muxer_input; cbn [flat_map fst snd map];
    rewrite ?app_nil_r in *; auto 12.
Qed.

Lemma before_submit_keeps (a : ao) p (apts : float) (last : Z)
    (warned : bool) :
  ao_priv (before_submit a p apts last warned)
  = Some (set_lastpts last
            (set_aframecount (wrap32 (aframecount p + 1)) p)) /\
  the_muxed (before_submit a p apts last warned) = the_muxed a.
Proof. unfold before_submit. destruct warned; split; reflexivity. Qed.

Lemma is_shutdown_priv (a b : ao) p q :
  ao_priv a = Some p -> ao_priv b = Some q -> shutdown q = shutdown p ->
  is_shutdown b = is_shutdown a.
Proof. intros Hp Hq E. unfold is_shutdown. rewrite Hp, Hq. exact E. Qed.

Lemma forwarded_from (st : AVStream) (cc : AVCodecContext) (a b a' : ao)
    (subs : list (option AVFrame)) :
  the_muxed b = the_muxed a -> is_shutdown b = is_shutdown a ->
  forwarded st cc b a' subs -> forwarded st cc a a' subs.
Proof.
  intros E E' (p' & cc' & F). exists p', cc'. rewrite <- E, <- E'. exact F.
Qed.

Lemma encode_frame_forwarded (a : ao) (apts : float) (planes : list plane)
    p st cc :
  ao_priv a = Some p -> stream p = Some st -> codec p = Some cc ->
  num_planes a <= AV_NUM_DATA_POINTERS ->
  savepts p = AV_NOPTS_VALUE ->
  exists a' f,
    encode a apts (Some planes) = Some a' /\
    forwarded st cc a a' [Some f].
Proof.
  intros Hp Hs Hc Hn Hsv.
  rewrite (encode_frame_unfold a apts planes p cc Hp Hc Hn).
  destruct (monotonic_pts p (codec_time_base cc)
              (initial_frame_pts a p cc apts)) as [[last pts1] warned].
  destruct (before_submit_keeps a p apts last warned) as [Hpb Hmb].
  destruct (encode_audio_and_write_forwarded
              (before_submit a p apts last warned)
              (Some (make_frame a p cc planes pts1)) _ st cc Hpb)
    as (a' & p' & E & _ & _ & F); try assumption.
  exists a', (make_frame a p cc planes pts1). split; [exact E |].
  apply (forwarded_from st cc a _ a' _ Hmb); [| exact F].
  exact (is_shutdown_priv a _ p _ Hp Hpb eq_refl).
Qed.

Lemma encode_flush_forwarded (a : ao) (apts : float) p st cc :
  ao_priv a = Some p -> stream p = Some st -> codec p = Some cc ->
  savepts p = AV_NOPTS_VALUE ->
  exists a' p',
    encode a apts None = Some a' /\
    ao_priv a' = Some p' /\ shutdown p' = shutdown p /\
    forwarded st cc a a' [None].
Proof.
  intros Hp Hs Hc Hsv.
  destruct (encode_flush_shape a apts p st cc Hp Hs Hc)
    as (sv & e & mx & lg & Eshape).
  unfold encode in *. rewrite Hp in *.
  set (p1 := set_aframecount (wrap32 (aframecount p + 1)) p) in *.
  destruct (encode_audio_and_write_forwarded (set_priv (Some p1) a) None
              p1 st cc)
    as (a' & p' & E & Hp' & _ & F); try assumption; try reflexivity.
  exists a', p'. split; [exact E |]. split; [exact Hp' |].
  split.
  - rewrite E in Eshape. injection Eshape as ->.
    cbn in Hp'. injection Hp' as <-. reflexivity.
  - apply (forwarded_from st cc a (set_priv (Some p1) a) a' _ eq_refl);
      [| exact F].
    exact (is_shutdown_priv a (set_priv (Some p1) a) p p1 Hp eq_refl
             eq_refl).
Qed.

Lemma play_loop_forwarded (fuel : nat) :
  forall (a : ao) (data : list plane) (samples : Z) (outpts : float)
         (bufpos : Z) p st cc a' bufpos',
    ao_priv a = Some p -> stream p = Some st -> codec p = Some cc ->
    num_planes a <= AV_NUM_DATA_POINTERS ->
    savepts p = AV_NOPTS_VALUE ->
    play_loop fuel a data samples outpts bufpos = Some (a', bufpos') ->
    exists frames, forwarded st cc a a' (map Some frames).
Proof.
  induction fuel as [| fuel IH];
    intros a data samples outpts bufpos p st cc a' bufpos' Hp Hs Hc Hn Hsv E.
  - cbn [play_loop] in E. rewrite Hp in E.
    destruct (aframesize p <=? wrap32 (samples - bufpos)); [discriminate |].
    injection E as <- _. exists [].
    exact (forwarded_refl a p st cc Hp Hs Hc Hsv).
  - rewrite (play_loop_step fuel a data samples outpts bufpos p Hp) in E.
    destruct (aframesize p <=? wrap32 (samples - bufpos)).
    + match type of E with
      | context [encode a ?t (Some ?d)] =>
          destruct (encode_frame_forwarded a t d p st cc Hp Hs Hc Hn Hsv)
            as (a1 & f & E1 & F1);
          destruct (encode_frame_facts a t d p st cc Hp Hs Hc Hn)
            as (a1' & _ & _ & _ & E1' & _ & _ & _ & Hfix & _)
      end.
      rewrite E1 in E1'. injection E1' as <-.
      rewrite E1 in E.
      pose proof (ao_fixed_num_planes a a1 Hfix) as Hnp.
      destruct F1 as (p1 & cc1 & Hp1 & Hs1 & Hc1 & Hsv1 & F1).
      destruct (IH a1 data samples outpts _ p1 st cc1 a' bufpos'
                  Hp1 Hs1 Hc1 ltac:(rewrite Hnp; exact Hn) Hsv1 E)
        as (frames & F2).
      exists (f :: frames).
      apply (forwarded_trans st cc a a1 a' [Some f] (map Some frames)).
      * exists p1, cc1. auto 10.
      * intros q1 c1 Hq1 Hc1'. rewrite Hp1 in Hq1. injection Hq1 as <-.
        rewrite Hc1 in Hc1'. injection Hc1' as <-. exact F2.
    + injection E as <- _. exists [].
      exact (forwarded_refl a p st cc Hp Hs Hc Hsv).
Qed.

Lemma play_with_pts_forwarded (fuel : nat) (a : ao) (pts : float)
    (data : list plane) (samples orig_samples : Z) (final : bool)
    p st cc taken a' :
  ao_priv a = Some p -> stream p = Some st -> codec p = Some cc ->
  num_planes a <= AV_NUM_DATA_POINTERS ->
  savepts p = AV_NOPTS_VALUE ->
  play_with_pts fuel a pts data samples orig_samples final
  = Some (taken, a') ->
  exists frames, forwarded st cc a a' (map Some frames).
Proof.
  intros Hp Hs Hc Hn Hsv E. unfold play_with_pts in E.
  destruct (choose_worst_time_base_shape a p st cc Hp Hs Hc) as (lg2 & E2).
  rewrite E2 in E. clear E2.
  set (p2 := set_worst_time_base (fst (chosen_base p cc st))
               (snd (chosen_base p cc st)) p) in *.
  set (a2 := mkAo _ (samplerate a) (ao_channels a) (format a) (sstride a)
               (untimed a) (Some p2) (encode_lavc_ctx a) (log a ++ lg2)) in *.
  destruct (apply_discontinuity_shape a2 pts) as (off & lg3 & E3).
  destruct (apply_discontinuity a2 pts) as [outpts a3]. simpl in E3.
  subst a3. cbn [ao_priv] in E. cbn [codec p2 set_worst_time_base] in E.
  rewrite Hc in E.
  match type of E with
  | context [play_loop fuel ?a3 data samples ?o 0] =>
      destruct (play_loop fuel a3 data samples o 0) as [[a4 bufpos] |] eqn:E4;
        [| discriminate];
      destruct (play_loop_forwarded fuel a3 data samples o 0 p2 st cc a4
                  bufpos eq_refl Hs Hc Hn Hsv E4)
        as (frames & p4 & cc4 & Hp4 & Hs4 & Hc4 & Hsv4 & Htb4 & Hsent4
            & Henc4 & Hmux4 & Hsh4)
  end.
  rewrite Hp4 in E. exists frames.
  eexists (set_expected_next_pts _ p4), cc4.
  injection E as _ <-.
  unfold the_muxed, is_shutdown in *. rewrite Hp. rewrite Hp4 in Hsh4.
  repeat split_if; cbn; repeat split; assumption.
Qed.

Lemma play_forwarded (fuel : nat) (a : ao) (data : list plane)
    (samples flags : Z) p st cc taken a' :
  ao_priv a = Some p -> stream p = Some st -> codec p = Some cc ->
  num_planes a <= AV_NUM_DATA_POINTERS ->
  savepts p = AV_NOPTS_VALUE ->
  play fuel true a data samples flags = Some (taken, a') ->
  exists frames, forwarded st cc a a' (map Some frames).
Proof.
  intros Hp Hs Hc Hn Hsv E. unfold play in E. simpl negb in E.
  cbv iota in E. rewrite Hp in E.
  destruct (if negb (Z.land flags AOPLAY_FINAL_CHUNK =? 0)
               && negb (Z.rem samples (aframesize p) =? 0)
            then pad_final_chunk a p data samples
            else (data, samples)) as [data' samples'].
  destruct (PrimFloat.eqb (input_pts a) MP_NOPTS_VALUE).
  - match type of E with
    | play_with_pts _ ?b _ _ _ _ _ = _ =>
        destruct (play_with_pts_forwarded fuel b _ data' samples' samples _
                    p st cc taken a' Hp Hs Hc Hn Hsv E) as (frames & F);
        exists frames;
        exact (forwarded_from st cc a b a' _ eq_refl eq_refl F)
    end.
  - exact (play_with_pts_forwarded fuel a _ data' samples' samples _
             p st cc taken a' Hp Hs Hc Hn Hsv E).
Qed.

(** X9: a [play] call hands the muxer exactly what the encoder gives out
    for the frames of that call: frame by frame in the order submitted, each
    packet as [write_packet] writes it, so with the index of the audio
    stream.  No pts stays saved for a later call. *)
Theorem play_forwards_packets (fuel : nat) (a : ao) (data : list plane)
    (samples flags : Z) p st cc :
  ao_priv a = Some p -> stream p = Some st -> codec p = Some cc ->
  savepts p = AV_NOPTS_VALUE ->
  0 < aframesize p ->
  num_planes a <= AV_NUM_DATA_POINTERS ->
  0 <= samples -> 0 < sstride a ->
  (samples + aframesize p - 1) * sstride a <= INT_MAX ->
  (samples + aframesize p - 1) / aframesize p < Z.of_nat fuel ->
  exists taken a' frames,
    let run := fst (encoder_run (enc cc) (map Some frames)) in
    play fuel true a data samples flags = Some (taken, a') /\
    the_sent a' = the_sent a ++ map Some frames /\
    map fst run = map Some frames /\
    the_muxed a' = the_muxed a ++ muxer_input st cc run /\
    Forall (fun w => stream_index w = index st) (muxer_input st cc run) /\
    the_savepts a' = Some AV_NOPTS_VALUE.
Proof.
  intros Hp Hs Hc Hsv HF Hn Hsamples Hst Hmax Hfuel.
  destruct (play_spec fuel a data samples flags p st cc)
    as (a' & _ & _ & frames0 & _ & E & _); try assumption.
  cbv zeta in E.
  destruct (play_forwarded fuel a data samples flags p st cc _ a'
              Hp Hs Hc Hn Hsv E)
    as (frames & p' & cc' & Hp' & Hs' & Hc' & Hsv' & Htb & Hsent & Henc
        & Hmux & _).
  eexists. exists a', frames. cbv zeta.
  split; [exact E |].
  split; [unfold the_sent; rewrite Hp, Hp', Hc, Hc'; exact Hsent |].
  split.
  { clear. generalize (enc cc).
    induction (map Some frames) as [| f rest IH]; intros e; [reflexivity |].
    cbn [encoder_run].
    destruct (avcodec_send_frame e f) as [status e1].
    destruct (if status <? 0 then ([], e1)
              else let '(packets, _, e2) := avcodec_receive_packets e1 in
                   (packets, e2)) as [packets e2].
    specialize (IH e2). destruct (encoder_run e2 rest) as [out e'].
    cbn [fst map] in *. rewrite IH. reflexivity. }
  split; [exact Hmux |].
  split; [apply muxer_input_index |].
  unfold the_savepts. rewrite Hp'. cbn. rewrite Hsv'. reflexivity.
Qed.

Lemma uninit_flush_effect (a : ao) p st cc :
  ao_priv a = Some p -> stream p = Some st -> codec p = Some cc ->
  savepts p = AV_NOPTS_VALUE ->
  shutdown p = false ->
  exists a' p' cc',
    uninit true a = Some a' /\
    ao_priv a' = Some p' /\ codec p' = Some cc' /\
    sent cc' = sent cc ++ [None] /\
    the_muxed a'
    = the_muxed a ++ muxer_input st cc (fst (encoder_run (enc cc) [None])) /\
    shutdown p' = true.
Proof.
  intros Hp Hs Hc Hsv Hsh. unfold uninit. rewrite Hp, Hsh, Hs, Hc.
  simpl negb. cbv iota.
  match goal with
  | |- context [encode a ?t None] =>
      destruct (encode_flush_forwarded a t p st cc Hp Hs Hc Hsv)
        as (a1 & p1 & E & Hp1 & _ & (q1 & cc1 & Hq1 & Hs1 & Hc1 & Hsv1 & Htb
                                     & Hsent & Henc & Hmux & _))
  end.
  rewrite E, Hp1. rewrite Hp1 in Hq1. injection Hq1 as <-.
  eexists. exists (set_shutdown true p1), cc1.
  split; [reflexivity |]. split; [reflexivity |]. split; [exact Hc1 |].
  split; [exact Hsent |]. split; [exact Hmux | reflexivity].
Qed.

(** X10: when the encoder was started and the session is not shut down,
    [uninit] sends the end-of-stream marker, hands the muxer the packets
    the encoder still gives out for it, and marks the session shut down.
    Where [AV_NOPTS_VALUE] reads as [MP_NOPTS_VALUE] in double, as
    [INT64_MIN] and -0x1p+63 do, a packet that comes without a pts is
    written without one, and any other with its own pts rescaled. *)
Theorem uninit_drains_encoder (a : ao) p st cc :
  ao_priv a = Some p -> stream p = Some st -> codec p = Some cc ->
  savepts p = AV_NOPTS_VALUE ->
  shutdown p = false ->
  exists a',
    let run := fst (encoder_run (enc cc) [None]) in
    uninit true a = Some a' /\
    the_sent a' = the_sent a ++ [None] /\
    the_muxed a' = the_muxed a ++ muxer_input st cc run /\
    Forall (fun w => stream_index w = index st) (muxer_input st cc run) /\
    is_shutdown a' = true /\
    (PrimFloat.eqb (Z_to_double AV_NOPTS_VALUE) MP_NOPTS_VALUE = true ->
     map pkt_pts (muxer_input st cc run)
     = map (fun packet =>
              if pkt_pts packet =? AV_NOPTS_VALUE then AV_NOPTS_VALUE
              else av_rescale_q (pkt_pts packet) (codec_time_base cc)
                     (stream_time_base st))
         (List.concat (map snd run))).
Proof.
  intros Hp Hs Hc Hsv Hsh.
  destruct (uninit_flush_effect a p st cc Hp Hs Hc Hsv Hsh)
    as (a' & p' & cc' & E & Hp' & Hc' & Hsent & Hmux & Hsh').
  exists a'. cbv zeta. split; [exact E |].
  split; [unfold the_sent; rewrite Hp', Hc', Hp, Hc; exact Hsent |].
  split; [exact Hmux |].
  split; [apply muxer_input_index |].
  split; [unfold is_shutdown; rewrite Hp'; exact Hsh' |].
  intros Hsame. cbn [encoder_run].
  destruct (avcodec_send_frame (enc cc) None) as [status e1].
  destruct (if status <? 0 then ([], e1)
            else let '(packets, _, e2) := avcodec_receive_packets e1 in
                 (packets, e2)) as [packets e2].
  unfold muxer_input. cbn [fst snd flat_map map List.concat pts_for].
  rewrite !app_nil_r, map_map. apply map_ext. intros packet.
  rewrite written_packet_pts, Hsame. reflexivity.
Qed.

Lemma play_calls_forwarded (fuel : nat)
    (calls : list (bool * list plane * Z * Z)) :
  forall (a : ao) p st cc,
    ao_priv a = Some p -> stream p = Some st -> codec p = Some cc ->
    savepts p = AV_NOPTS_VALUE ->
    0 < aframesize p ->
    num_planes a <= AV_NUM_DATA_POINTERS ->
    0 < sstride a ->
    Forall (fun c => fits fuel (aframesize p) (sstride a) (snd (fst c)))
      calls ->
    exists counts a' frames,
      play_calls fuel calls a = Some (counts, a') /\
      List.length counts = List.length calls /\
      forwarded st cc a a' (map Some frames).
Proof.
  induction calls as [| [[[started data] samples] flags] rest IH];
    intros a p st cc Hp Hs Hc Hsv HF Hn Hst Hfits.
  - exists [], a, []. split; [reflexivity |]. split; [reflexivity |].
    exact (forwarded_refl a p st cc Hp Hs Hc Hsv).
  - inversion Hfits as [| ? ? [Hnn [Hmax Hfuel]] Hrest]; subst.
    cbn [fst snd] in Hnn, Hmax, Hfuel. cbn [play_calls].
    destruct started.
    + destruct (play_spec fuel a data samples flags p st cc)
        as (a1 & p1 & cc1 & frames0 & lg & E & _ & _ & Hp1 & Hs1 & Hc1 & _
            & _ & _ & _ & _ & _ & _ & Hlay); try assumption.
      cbv zeta in E.
      destruct (play_forwarded fuel a data samples flags p st cc _ a1
                  Hp Hs Hc Hn Hsv E) as (frames1 & F1).
      rewrite E.
      destruct (layout_fields a a1 p p1 st cc cc1 Hlay Hp Hp1 Hs Hc Hc1)
        as (Hss & Hnp & HF1 & _ & Htb).
      assert (Hsv1 : savepts p1 = AV_NOPTS_VALUE).
      { destruct F1 as (q1 & _ & Hq1 & _ & _ & Hsv1 & _).
        rewrite Hp1 in Hq1. injection Hq1 as <-. exact Hsv1. }
      destruct (IH a1 p1 st cc1) as (counts & a' & frames & E' & Hlen & F2);
        try assumption; try (rewrite ?HF1, ?Hss, ?Hnp; assumption).
      rewrite E'. eexists. exists a', (frames1 ++ frames).
      split; [reflexivity |]. split; [simpl; congruence |].
      rewrite map_app.
      apply (forwarded_trans st cc a a1 a' _ _ F1).
      intros q1 c1 Hq1 Hc1'. rewrite Hp1 in Hq1. injection Hq1 as <-.
      rewrite Hc1 in Hc1'. injection Hc1' as <-. exact F2.
    + assert (Eplay : play fuel false a data samples flags
                      = Some (0, MP_WARN "not ready yet for encoding audio" a))
        by reflexivity.
      rewrite Eplay.
      destruct (IH (MP_WARN "not ready yet for encoding audio" a) p st cc)
        as (counts & a' & frames & E' & Hlen & F2); try assumption.
      rewrite E'. eexists. exists a', frames.
      split; [reflexivity |]. split; [simpl; congruence |].
      exact (forwarded_from st cc a _ a' _ eq_refl eq_refl F2).
Qed.

(** X11: over a whole session, any run of [play] calls followed by
    [uninit] with the encoder started, every submission to the encoder is a
    frame but the last one, which is the end-of-stream marker, and the
    muxer receives exactly what the encoder gives out for these
    submissions, in their order, each packet with the index of the audio
    stream.  The session ends shut down, and each [play] call has returned
    a count. *)
Theorem session_forwards_everything (fuel : nat)
    (calls : list (bool * list plane * Z * Z)) (a : ao) p st cc :
  ao_priv a = Some p -> stream p = Some st -> codec p = Some cc ->
  savepts p = AV_NOPTS_VALUE ->
  shutdown p = false ->
  0 < aframesize p ->
  num_planes a <= AV_NUM_DATA_POINTERS ->
  0 < sstride a ->
  Forall (fun c => fits fuel (aframesize p) (sstride a) (snd (fst c))) calls ->
  exists counts a' frames,
    let subs := map Some frames ++ [None] in
    let run := fst (encoder_run (enc cc) subs) in
    session fuel calls a = Some (counts, a') /\
    List.length counts = List.length calls /\
    the_sent a' = the_sent a ++ subs /\
    the_muxed a' = the_muxed a ++ muxer_input st cc run /\
    Forall (fun w => stream_index w = index st) (muxer_input st cc run) /\
    is_shutdown a' = true /\
    flushes a' = S (flushes a).
Proof.
  intros Hp Hs Hc Hsv Hsh HF Hn Hst Hfits.
  destruct (play_calls_forwarded fuel calls a p st cc Hp Hs Hc Hsv HF Hn Hst
              Hfits)
    as (counts & a1 & frames & E1 & Hlen
        & (p1 & cc1 & Hp1 & Hs1 & Hc1 & Hsv1 & Htb1 & Hsent1 & Henc1 & Hmux1
           & Hsh1)).
  assert (Hshut : shutdown p1 = false).
  { unfold is_shutdown in Hsh1. rewrite Hp1, Hp in Hsh1. congruence. }
  destruct (uninit_flush_effect a1 p1 st cc1 Hp1 Hs1 Hc1 Hsv1 Hshut)
    as (a' & p' & cc' & E & Hp' & Hc' & Hsent & Hmux & Hsh').
  exists counts, a', frames. cbv zeta. unfold session. rewrite E1, E.
  assert (Hs' : the_sent a' = the_sent a ++ map Some frames ++ [None]).
  { unfold the_sent. rewrite Hp', Hc', Hp, Hc, Hsent, Hsent1, app_assoc.
    reflexivity. }
  split; [reflexivity |]. split; [exact Hlen |]. split; [exact Hs' |].
  split.
  { rewrite Hmux, Hmux1, encoder_run_app. cbn [fst].
    rewrite muxer_input_app, (muxer_input_base st cc cc1 _ Htb1), Henc1,
      app_assoc.
    reflexivity. }
  split; [apply muxer_input_index |].
  split; [unfold is_shutdown; rewrite Hp'; exact Hsh' |].
  unfold flushes. rewrite Hs', !filter_app, !length_app.
  assert (Hnone : filter is_flush (map Some frames) = []).
  { clear. induction frames as [| f rest IH]; [reflexivity | exact IH]. }
  rewrite Hnone. simpl. lia.
Qed.

End Pipeline.

(* ===================================================================== *)
(** * How much a play call takes, and the pts of frames in order *)

Section Counts.
Context `{External}.

Lemma play_exact (fuel : nat) (a : ao) (data : list plane)
    (samples flags : Z) p st cc :
  ao_priv a = Some p -> stream p = Some st -> codec p = Some cc ->
  0 < aframesize p ->
  num_planes a <= AV_NUM_DATA_POINTERS ->
  0 <= samples -> 0 < sstride a ->
  (samples + aframesize p - 1) * sstride a <= INT_MAX ->
  (samples + aframesize p - 1) / aframesize p < Z.of_nat fuel ->
  exists a' frames,
    play fuel true a data samples flags
    = Some ((if is_final flags then samples
             else samples - samples mod aframesize p), a') /\
    the_sent a' = the_sent a ++ map Some frames /\
    Z.of_nat (List.length frames)
    = (if needs_padding p samples flags
       then samples / aframesize p + 1 else samples / aframesize p) /\
    Forall (fun f => nb_samples f = aframesize p) frames.
Proof.
  intros Hp Hs Hc HF Hn Hsamples Hst Hmax Hfuel.
  destruct (play_spec fuel a data samples flags p st cc)
    as (a' & p' & cc' & frames & lg & E & Hlen & Hwork & Hp' & Hs' & Hc'
        & Hsent & Hnb & _); try assumption.
  cbv zeta in *. rewrite FFMIN_min in E. rewrite Hwork in Hlen.
  exists a', frames.
  assert (Hsent' : the_sent a' = the_sent a ++ map Some frames)
    by (unfold the_sent; rewrite Hp, Hp', Hc, Hc'; exact Hsent).
  pose proof (Z.div_mod samples (aframesize p) ltac:(lia)) as Hdm.
  pose proof (Z.mod_pos_bound samples (aframesize p) HF) as Hmb.
  unfold needs_padding in *.
  destruct (is_final flags) eqn:Efin;
    destruct (Z.eqb_spec (Z.rem samples (aframesize p)) 0) as [Hrem | Hrem];
    cbn [andb negb] in *.
  - rewrite Z.rem_mod_nonneg in Hrem by lia.
    rewrite E. repeat split; try assumption. f_equal. f_equal. lia.
  - destruct (padded_frame_count samples (aframesize p) Hsamples HF Hrem)
      as [Hq Hlt].
    rewrite E. repeat split; try assumption; [| lia].
    f_equal. f_equal. rewrite Hlen. lia.
  - rewrite E. repeat split; try assumption. f_equal. f_equal. lia.
  - rewrite E. repeat split; try assumption. f_equal. f_equal. lia.
Qed.

(** X12: with the encoder started, [play] takes all the samples of a final
    chunk, and of any other chunk the whole frames: what it leaves to the
    caller is less than one frame.  It submits one frame for each
    [aframesize] samples, and one more for a final chunk that does not end
    on a frame boundary. *)
Theorem play_takes_whole_frames (fuel : nat) (a : ao) (data : list plane)
    (samples flags : Z) p st cc :
  ao_priv a = Some p -> stream p = Some st -> codec p = Some cc ->
  0 < aframesize p ->
  num_planes a <= AV_NUM_DATA_POINTERS ->
  0 <= samples -> 0 < sstride a ->
  (samples + aframesize p - 1) * sstride a <= INT_MAX ->
  (samples + aframesize p - 1) / aframesize p < Z.of_nat fuel ->
  exists taken a' frames,
    play fuel true a data samples flags = Some (taken, a') /\
    taken = (if is_final flags then samples
             else aframesize p * (samples / aframesize p)) /\
    0 <= samples - taken < aframesize p /\
    the_sent a' = the_sent a ++ map Some frames /\
    Z.of_nat (List.length frames)
    = (if needs_padding p samples flags
       then samples / aframesize p + 1 else samples / aframesize p) /\
    Forall (fun f => nb_samples f = aframesize p) frames.
Proof.
  intros Hp Hs Hc HF Hn Hsamples Hst Hmax Hfuel.
  destruct (play_exact fuel a data samples flags p st cc)
    as (a' & frames & E & Hsent & Hlen & Hnb); try assumption.
  pose proof (Z.div_mod samples (aframesize p) ltac:(lia)) as Hdm.
  pose proof (Z.mod_pos_bound samples (aframesize p) HF) as Hmb.
  eexists. exists a', frames. split; [exact E |].
  split; [destruct (is_final flags); lia |].
  split; [destruct (is_final flags); lia |].
  auto.
Qed.


(** X14: a frame whose pts does not go backwards is left as it is.  When no
    pts was recorded yet, or the pts of the frame rescaled into the worst
    time base is above the recorded one, [encode] records the rescaled
    value, gives the frame its own pts, and prints no warning before it
    submits the frame.  It counts the frame and stores the difference of
    the running time and the pts given as the audio pts offset. *)
Theorem encode_keeps_forward_pts (a : ao) (apts : float)
    (planes : list plane) p st cc :
  ao_priv a = Some p -> stream p = Some st -> codec p = Some cc ->
  num_planes a <= AV_NUM_DATA_POINTERS ->
  let pts := initial_frame_pts a p cc apts in
  let scaled := av_rescale_q pts (codec_time_base cc) (worst_time_base p) in
  lastpts p = AV_NOPTS_VALUE \/ lastpts p < scaled ->
  let frame := make_frame a p cc planes pts in
  let pre := before_submit a p apts scaled false in
  encode a apts (Some planes) = encode_audio_and_write pre (Some frame) /\
  log pre = log a /\
  exists a' p',
    encode a apts (Some planes) = Some a' /\
    ao_priv a' = Some p' /\
    lastpts p' = scaled /\
    the_sent a' = the_sent a ++ [Some frame] /\
    frame_pts frame = pts /\
    aframecount p' = wrap32 (aframecount p + 1) /\
    audio_pts_offset (encode_lavc_ctx a') = (realapts a p - apts)%float.
Proof.
  intros Hp Hs Hc Hn pts scaled Hfwd frame pre.
  assert (Hm : monotonic_pts p (codec_time_base cc) pts = (scaled, pts, false)).
  { unfold monotonic_pts. fold scaled.
    destruct Hfwd as [Hunset | Hlt].
    - rewrite Hunset, Z.eqb_refl. reflexivity.
    - assert (E : (scaled <=? lastpts p) = false) by (apply Z.leb_gt; exact Hlt).
      rewrite E, andb_false_r. reflexivity. }
  split.
  { rewrite (encode_frame_unfold a apts planes p cc Hp Hc Hn).
    fold pts. rewrite Hm. reflexivity. }
  split; [reflexivity |].
  destruct (encode_frame_shape a apts planes p st cc scaled pts false
              Hp Hs Hc Hn Hm) as (sv & e & mx & lg & E).
  rewrite E. eexists. eexists. split; [reflexivity |].
  split; [reflexivity |]. split; [reflexivity |].
  split; [unfold the_sent; cbn; rewrite Hp, Hc; reflexivity |].
  repeat split.
Qed.

End Counts.

(* ===================================================================== *)
(** * The further theorems at work on the sample configuration *)

Lemma init_success_state_witness :
  exists p,
    ao_priv (snd (@init sample_encoder sample_external true sample_ao))
    = Some p /\
    savepts p = INT64_MIN /\ lastpts p = INT64_MIN /\ shutdown p = false /\
    aframesize p = 10.
Proof.
  pose proof (@init_success_state sample_encoder sample_external true
                sample_ao eq_refl) as W.
  cbv zeta in W.
  destruct W as (_ & p & st & cc & Hp & _ & Hc & _ & _ & Hl & Hsv & _ & _
                 & Hsh & _ & HF & _).
  exists p. split; [exact Hp |]. split; [exact Hsv |]. split; [exact Hl |].
  split; [exact Hsh |].
  vm_compute in Hp. injection Hp as <-. reflexivity.
Defined.

Lemma uninit_after_failed_init_witness :
  @uninit sample_encoder sample_external true
    (snd (@init sample_encoder sample_external true sample_nine_channels))
  = Some (snd (@init sample_encoder sample_external true
                 sample_nine_channels)).
Proof.
  apply (@uninit_after_failed_init sample_encoder sample_external true true
           sample_nine_channels); reflexivity.
Defined.

Lemma write_packet_forwards_witness :
  exists a',
    @write_packet sample_encoder sample_external sample_ao
      (mkPacket 7 480 INT64_MIN 0)
    = Some a' /\
    the_muxed a' = [mkPacket 0 10 INT64_MIN 0].
Proof.
  destruct (@write_packet_forwards sample_encoder sample_external sample_ao
              (mkPacket 7 480 INT64_MIN 0) sample_priv sample_stream
              sample_codec_ctx eq_refl eq_refl eq_refl)
    as (a' & w & E & Hmux & Hidx & Hpts & _ & Hdts & _ & Hdur & _).
  exists a'. split; [exact E |]. rewrite Hmux.
  specialize (Hpts ltac:(vm_compute; discriminate)).
  specialize (Hdts eq_refl).
  specialize (Hdur ltac:(vm_compute; discriminate)).
  destruct w as [i pt dt du]. cbn [stream_index pkt_pts pkt_dts duration] in *.
  rewrite Hidx, Hpts, Hdts, Hdur. reflexivity.
Defined.

Lemma encode_audio_and_write_forwards_witness :
  (exists a',
      @encode_audio_and_write sample_encoder sample_external sample_ao
        (Some sample_frame)
      = Some a' /\
      the_muxed a' = [mkPacket 0 10 10 0] /\
      the_sent a' = [Some sample_frame]) /\
  (exists a',
      @encode_audio_and_write sample_encoder sample_external sample_pending
        None
      = Some a' /\
      the_muxed a'
      = [mkPacket 0 INT64_MIN INT64_MIN 0; mkPacket 0 10 10 0]).
Proof.
  split.
  - destruct (@encode_audio_and_write_forwards sample_encoder sample_external
                sample_ao (Some sample_frame) sample_priv sample_stream
                sample_codec_ctx 0 ([480], false)
                [mkPacket 0 480 480 1] (-11) ([], false)
                eq_refl eq_refl eq_refl eq_refl eq_refl eq_refl)
      as (a' & p' & cc' & E & _ & _ & Hmux & _ & Hsent & _).
    exists a'. split; [exact E |]. split; [exact Hmux | exact Hsent].
  - destruct (@encode_audio_and_write_forwards sample_encoder sample_external
                sample_pending None sample_pending_priv sample_stream
                sample_pending_codec_ctx 0 ([INT64_MIN; 480], true)
                [mkPacket 0 INT64_MIN INT64_MIN 1; mkPacket 0 480 480 1]
                (-541478725) ([], true)
                eq_refl eq_refl eq_refl eq_refl eq_refl eq_refl)
      as (a' & p' & cc' & E & _ & _ & Hmux & _).
    exists a'. split; [exact E | exact Hmux].
Defined.

Lemma old_api_forwards_alike_witness :
  exists a_old a_new,
    @encode_audio_and_write_old_api sample_encoder sample_external
      sample_encode_audio2 sample_ao (Some sample_frame)
    = Some a_old /\
    @encode_audio_and_write sample_encoder sample_external sample_ao
      (Some sample_frame)
    = Some a_new /\
    the_muxed a_old = the_muxed a_new.
Proof.
  destruct (@old_api_forwards_alike sample_encoder sample_external
              sample_encode_audio2 sample_ao (Some sample_frame) sample_priv
              sample_stream sample_codec_ctx 0
              (Some (mkPacket 0 480 480 1)) ([], false) ([480], false)
              (-11) ([], false)
              eq_refl eq_refl eq_refl eq_refl eq_refl eq_refl eq_refl)
    as (a_old & a_new & Eold & Enew & Hmux & _).
  exists a_old, a_new. auto.
Defined.

Lemma play_forwards_packets_witness :
  (exists taken a',
      @play sample_encoder sample_external 4 true sample_ao sample_data 25 1
      = Some (taken, a') /\
      Forall (fun w => stream_index w = 0) (the_muxed a') /\
      the_savepts a' = Some INT64_MIN) /\
  (exists taken a',
      @play sample_encoder sample_external 4 true sample_lowest sample_data
        10 0
      = Some (taken, a') /\
      map (option_map frame_pts) (the_sent a') = [Some INT64_MIN] /\
      the_muxed a' = [mkPacket 0 INT64_MIN INT64_MIN 1]).
Proof.
  split.
  - destruct (@play_forwards_packets sample_encoder sample_external 4
                sample_ao sample_data 25 1 sample_priv sample_stream
                sample_codec_ctx)
      as (taken & a' & frames & E & _ & _ & Hmux & Hidx & Hsv).
    + reflexivity.
    + reflexivity.
    + reflexivity.
    + reflexivity.
    + reflexivity.
    + vm_compute. discriminate.
    + vm_compute. discriminate.
    + reflexivity.
    + vm_compute. discriminate.
    + reflexivity.
    + exists taken, a'. split; [exact E |].
      split; [rewrite Hmux; exact Hidx | exact Hsv].
  - destruct (@play_forwards_packets sample_encoder sample_external 4
                sample_lowest sample_data 10 0
                (@mkPriv sample_encoder
                   (Some (mkStream 0 (mkRational 1 48000)))
                   (Some sample_codec_ctx) 0 10 0 INT64_MIN 1200 INT64_MIN 2
                   0%float (mkRational 1 48000) 0 false)
                (mkStream 0 (mkRational 1 48000)) sample_codec_ctx)
      as (taken & a' & frames & E & Hsent & _ & Hmux & _).
    + reflexivity.
    + reflexivity.
    + reflexivity.
    + reflexivity.
    + reflexivity.
    + vm_compute. discriminate.
    + vm_compute. discriminate.
    + reflexivity.
    + vm_compute. discriminate.
    + reflexivity.
    + exists taken, a'. split; [exact E |].
      assert (Hs : the_sent a'
                   = [Some (mkFrame 1 10 [firstn 40 (hd [] sample_data)] 40
                              INT64_MIN 0)])
        by (pose proof E as E0; vm_compute in E0; injection E0 as _ <-;
            vm_compute; reflexivity).
      split; [rewrite Hs; reflexivity |].
      rewrite Hs in Hsent. change (the_sent sample_lowest) with
        (@nil (option AVFrame)) in Hsent. cbn [app] in Hsent.
      destruct frames as [| f [| g rest]]; try discriminate.
      injection Hsent as <-. rewrite Hmux. vm_compute. reflexivity.
Defined.

Lemma uninit_drains_encoder_witness :
  exists a',
    @uninit sample_encoder sample_external true sample_pending = Some a' /\
    the_sent a' = [None] /\
    the_muxed a' = [mkPacket 0 INT64_MIN INT64_MIN 0; mkPacket 0 10 10 0] /\
    map pkt_pts (the_muxed a') = [INT64_MIN; 10] /\
    is_shutdown a' = true.
Proof.
  destruct (@uninit_drains_encoder sample_encoder sample_external
              sample_pending sample_pending_priv sample_stream
              sample_pending_codec_ctx
              eq_refl eq_refl eq_refl eq_refl eq_refl)
    as (a' & E & Hsent & Hmux & _ & Hsh & Hpts).
  exists a'. split; [exact E |]. split; [exact Hsent |].
  split; [exact Hmux |]. split; [| exact Hsh].
  rewrite Hmux. exact (Hpts eq_refl).
Defined.

Lemma session_forwards_everything_witness :
  (exists counts a',
      @session sample_encoder sample_external 4
        [(false, sample_data, 25, 0); (true, sample_data, 25, 0);
         (true, sample_data, 25, 1)] sample_ao
      = Some (counts, a') /\
      List.length counts = 3%nat /\
      Forall (fun w => stream_index w = 0) (the_muxed a') /\
      last (the_sent a') (Some sample_frame) = None /\
      flushes a' = 1%nat) /\
  (exists a',
      @session sample_encoder sample_external 4 [] sample_pending
      = Some ([], a') /\
      the_sent a' = [None] /\
      the_muxed a'
      = [mkPacket 0 INT64_MIN INT64_MIN 0; mkPacket 0 10 10 0]).
Proof.
  split.
  - destruct (@session_forwards_everything sample_encoder sample_external 4
                [(false, sample_data, 25, 0); (true, sample_data, 25, 0);
                 (true, sample_data, 25, 1)]
                sample_ao sample_priv sample_stream sample_codec_ctx)
      as (counts & a' & frames & E & Hlen & Hsent & Hmux & Hidx & _ & Hfl).
    + reflexivity.
    + reflexivity.
    + reflexivity.
    + reflexivity.
    + reflexivity.
    + reflexivity.
    + vm_compute. discriminate.
    + reflexivity.
    + repeat constructor; vm_compute; discriminate.
    + exists counts, a'. split; [exact E |]. split; [exact Hlen |].
      split; [rewrite Hmux; exact Hidx |].
      split; [| exact Hfl].
      rewrite Hsent. cbn [the_sent sample_ao app]. apply last_last.
  - destruct (@session_forwards_everything sample_encoder sample_external 4
                [] sample_pending sample_pending_priv sample_stream
                sample_pending_codec_ctx)
      as (counts & a' & frames & E & Hlen & Hsent & Hmux & _).
    + reflexivity.
    + reflexivity.
    + reflexivity.
    + reflexivity.
    + reflexivity.
    + reflexivity.
    + vm_compute. discriminate.
    + reflexivity.
    + constructor.
    + destruct counts; [| discriminate].
      exists a'. split; [exact E |].
      assert (Hs : the_sent a' = [None])
        by (pose proof E as E0; vm_compute in E0; injection E0 as <-;
            reflexivity).
      split; [exact Hs |].
      rewrite Hs in Hsent. change (the_sent sample_pending) with
        (@nil (option AVFrame)) in Hsent. cbn [app] in Hsent.
      destruct frames as [| f rest]; [| destruct rest; discriminate].
      rewrite Hmux. vm_compute. reflexivity.
Defined.

Lemma play_takes_whole_frames_witness :
  exists a' frames,
    @play sample_encoder sample_external 4 true sample_ao sample_data 25 0
    = Some (20, a') /\
    the_sent a' = map Some frames /\ List.length frames = 2%nat.
Proof.
  destruct (@play_takes_whole_frames sample_encoder sample_external 4
              sample_ao sample_data 25 0 sample_priv sample_stream
              sample_codec_ctx)
    as (taken & a' & frames & E & Htaken & _ & Hsent & Hlen & _).
  - reflexivity.
  - reflexivity.
  - reflexivity.
  - reflexivity.
  - vm_compute. discriminate.
  - vm_compute. discriminate.
  - reflexivity.
  - vm_compute. discriminate.
  - reflexivity.
  - exists a', frames. rewrite Htaken in E.
    split; [exact E |]. split; [exact Hsent |].
    change (Z.of_nat (List.length frames) = 2) in Hlen. lia.
Defined.


Lemma encode_keeps_forward_pts_witness :
  exists a' p',
    @encode sample_encoder sample_external sample_played 4%float (Some [])
    = Some a' /\
    ao_priv a' = Some p' /\
    lastpts p' = 4000 /\ aframecount p' = 1 /\
    exists f, last (the_sent a') None = Some f /\ frame_pts f = 192000.
Proof.
  destruct (@encode_keeps_forward_pts sample_encoder sample_external
              sample_played 4%float []
              (@mkPriv sample_encoder (Some (mkStream 0 (mkRational 1 1000)))
                 (Some sample_codec_ctx) 0 10 0 INT64_MIN 1200 3000 2 0%float
                 (mkRational 1 1000) 0 false)
              (mkStream 0 (mkRational 1 1000)) sample_codec_ctx)
    as (_ & _ & a' & p' & E & Hp' & Hl & Hsent & Hpts & Hcount & _).
  - reflexivity.
  - reflexivity.
  - reflexivity.
  - vm_compute. discriminate.
  - right. vm_compute. reflexivity.
  - exists a', p'. split; [exact E |]. split; [exact Hp' |].
    split; [exact Hl |]. split; [exact Hcount |].
    eexists. rewrite Hsent. split; [reflexivity | reflexivity].
Defined.

(* ===================================================================== *)
(** * play: the next allowed input pts *)

Section NextInPts.
Context `{External}.

Lemma play_loop_fixed (fuel : nat) :
  forall (a : ao) (data : list plane) (samples : Z) (outpts : float)
         (bufpos : Z) p st cc a' bufpos',
    ao_priv a = Some p -> stream p = Some st -> codec p = Some cc ->
    num_planes a <= AV_NUM_DATA_POINTERS ->
    play_loop fuel a data samples outpts bufpos = Some (a', bufpos') ->
    ao_fixed a' = ao_fixed a /\
    exists p', ao_priv a' = Some p'.
Proof.
  induction fuel as [| fuel IH];
    intros a data samples outpts bufpos p st cc a' bufpos' Hp Hs Hc Hn E.
  - cbn [play_loop] in E. rewrite Hp in E.
    destruct (aframesize p <=? wrap32 (samples - bufpos)); [discriminate |].
    injection E as <- _. split; [reflexivity | exists p; exact Hp].
  - rewrite (play_loop_step fuel a data samples outpts bufpos p Hp) in E.
    destruct (aframesize p <=? wrap32 (samples - bufpos)).
    + match type of E with
      | context [encode a ?t (Some ?d)] =>
          destruct (encode_frame_facts a t d p st cc Hp Hs Hc Hn)
            as (a1 & p1 & cc1 & lg & E1 & Hp1 & Hs1 & Hc1 & Hfix & _)
      end.
      rewrite E1 in E.
      pose proof (ao_fixed_num_planes a a1 Hfix) as Hnp.
      destruct (IH a1 data samples outpts _ p1 st cc1 a' bufpos'
                  Hp1 Hs1 Hc1 ltac:(rewrite Hnp; exact Hn) E)
        as (Hfix' & Hp').
      split; [congruence | exact Hp'].
    + injection E as <- _. split; [reflexivity | exists p; exact Hp].
Qed.

Lemma play_with_pts_next_in_pts (fuel : nat) (a : ao) (pts : float)
    (data : list plane) (samples orig_samples : Z) (final : bool)
    p st cc taken a' :
  ao_priv a = Some p -> stream p = Some st -> codec p = Some cc ->
  num_planes a <= AV_NUM_DATA_POINTERS ->
  play_with_pts fuel a pts data samples orig_samples final
  = Some (taken, a') ->
  exists p',
    ao_priv a' = Some p' /\
    options (encode_lavc_ctx a') = options (encode_lavc_ctx a) /\
    next_in_pts (encode_lavc_ctx a')
    = (let old := next_in_pts (encode_lavc_ctx a) in
       let target :=
         (expected_next_pts p'
          + discontinuity_pts_offset (encode_lavc_ctx a'))%float in
       if negb (rawts (options (encode_lavc_ctx a)))
          && copyts (options (encode_lavc_ctx a))
       then if PrimFloat.ltb old target then target else old
       else old).
Proof.
  intros Hp Hs Hc Hn E. unfold play_with_pts in E.
  destruct (choose_worst_time_base_shape a p st cc Hp Hs Hc) as (lg2 & E2).
  rewrite E2 in E. clear E2.
  set (p2 := set_worst_time_base (fst (chosen_base p cc st))
               (snd (chosen_base p cc st)) p) in *.
  set (a2 := mkAo _ (samplerate a) (ao_channels a) (format a) (sstride a)
               (untimed a) (Some p2) (encode_lavc_ctx a) (log a ++ lg2)) in *.
  destruct (apply_discontinuity_shape a2 pts) as (off & lg3 & E3).
  destruct (apply_discontinuity a2 pts) as [outpts a3]. simpl in E3.
  subst a3. cbn [ao_priv] in E. cbn [codec p2 set_worst_time_base] in E.
  rewrite Hc in E.
  match type of E with
  | context [play_loop fuel ?a3 data samples ?o 0] =>
      destruct (play_loop fuel a3 data samples o 0) as [[a4 bufpos] |] eqn:E4;
        [| discriminate];
      destruct (play_loop_fixed fuel a3 data samples o 0 p2 st cc a4
                  bufpos eq_refl Hs Hc Hn E4) as (Hfix & p4 & Hp4)
  end.
  rewrite Hp4 in E. injection E as _ <-.
  unfold ao_fixed, ectx_fixed in Hfix. cbn in Hfix.
  destruct a4 as [? ? ? ? ? pr4 ec4 lg4].
  destruct ec4 as [o4 c4 d4 n4 ap4 l4 s4 m4]. cbn in Hfix, Hp4 |- *.
  injection Hfix as _ _ _ _ _ _ Ho _ Hd Hn4 _ _. subst o4 d4 n4 pr4.
  destruct (encode_lavc_ctx a) as [[r cp] c d n ap l s m]. cbn.
  exists (set_expected_next_pts
            (pts + Z_to_double bufpos / Z_to_double samplerate0)%float p4).
  destruct final; destruct (bufpos <? orig_samples);
    destruct (orig_samples <? bufpos); destruct r; destruct cp; cbn;
    try (destruct (PrimFloat.ltb n
                     (pts + Z_to_double bufpos / Z_to_double samplerate0
                      + off)%float) eqn:Elt;
         cbn; rewrite ?Elt);
    repeat split; reflexivity.
Qed.

(** X15: with the encoder started, [play] raises the next allowed input
    pts only in copyts mode without rawts, and then to the pts expected
    after this batch plus the discontinuity offset, when that is later than
    the value it had; it never lowers it, and in the other modes it leaves
    it alone.  The options themselves are not touched. *)
Theorem play_raises_next_in_pts (fuel : nat) (a : ao) (data : list plane)
    (samples flags : Z) p st cc :
  ao_priv a = Some p -> stream p = Some st -> codec p = Some cc ->
  0 < aframesize p ->
  num_planes a <= AV_NUM_DATA_POINTERS ->
  0 <= samples -> 0 < sstride a ->
  (samples + aframesize p - 1) * sstride a <= INT_MAX ->
  (samples + aframesize p - 1) / aframesize p < Z.of_nat fuel ->
  exists taken a' p',
    let old := next_in_pts (encode_lavc_ctx a) in
    let target :=
      (expected_next_pts p'
       + discontinuity_pts_offset (encode_lavc_ctx a'))%float in
    play fuel true a data samples flags = Some (taken, a') /\
    ao_priv a' = Some p' /\
    options (encode_lavc_ctx a') = options (encode_lavc_ctx a) /\
    next_in_pts (encode_lavc_ctx a')
    = (if negb (rawts (options (encode_lavc_ctx a)))
          && copyts (options (encode_lavc_ctx a))
       then if PrimFloat.ltb old target then target else old
       else old).
Proof.
  intros Hp Hs Hc HF Hn Hsamples Hst Hmax Hfuel.
  destruct (play_spec fuel a data samples flags p st cc)
    as (a' & _ & _ & frames & _ & E & _); try assumption.
  cbv zeta in E. eexists. exists a'.
  assert (W : exists p',
             ao_priv a' = Some p' /\
             options (encode_lavc_ctx a') = options (encode_lavc_ctx a) /\
             next_in_pts (encode_lavc_ctx a')
             = (let old := next_in_pts (encode_lavc_ctx a) in
                let target :=
                  (expected_next_pts p'
                   + discontinuity_pts_offset (encode_lavc_ctx a'))%float in
                if negb (rawts (options (encode_lavc_ctx a)))
                   && copyts (options (encode_lavc_ctx a))
                then if PrimFloat.ltb old target then target else old
                else old)).
  { pose proof E as E'. unfold play in E'. simpl negb in E'.
    cbv iota in E'. rewrite Hp in E'.
    destruct (if negb (Z.land flags AOPLAY_FINAL_CHUNK =? 0)
                 && negb (Z.rem samples (aframesize p) =? 0)
              then pad_final_chunk a p data samples
              else (data, samples)) as [data' samples'].
    destruct (PrimFloat.eqb (input_pts a) MP_NOPTS_VALUE).
    - match type of E' with
      | play_with_pts _ ?b _ _ _ _ _ = _ =>
          exact (play_with_pts_next_in_pts fuel b _ data' samples' samples _
                   p st cc _ a' Hp Hs Hc Hn E')
      end.
    - exact (play_with_pts_next_in_pts fuel a _ data' samples' samples _
               p st cc _ a' Hp Hs Hc Hn E'). }
  destruct W as (p' & Hp' & Hopt & Hnext).
  exists p'. cbv zeta in *. split; [exact E |]. auto.
Qed.

End NextInPts.

Lemma play_raises_next_in_pts_witness :
  exists taken a' p',
    @play sample_encoder sample_external 4 true (sample_copyts 2%float)
      sample_data 25 0
    = Some (taken, a') /\
    ao_priv a' = Some p' /\
    options (encode_lavc_ctx a') = mkOpts false true /\
    let target :=
      (expected_next_pts p'
       + discontinuity_pts_offset (encode_lavc_ctx a'))%float in
    next_in_pts (encode_lavc_ctx a')
    = if PrimFloat.ltb 10 target then target else 10%float.
Proof.
  destruct (@play_raises_next_in_pts sample_encoder sample_external 4
              (sample_copyts 2%float) sample_data 25 0
              (@mkPriv sample_encoder (Some (mkStream 0 (mkRational 1 1000)))
                 (Some sample_codec_ctx) 0 10 0 INT64_MIN 1200 INT64_MIN 2
                 0%float (mkRational 1 1000) 0 false)
              (mkStream 0 (mkRational 1 1000)) sample_codec_ctx)
    as (taken & a' & p' & E & Hp' & Hopt & Hnext).
  - reflexivity.
  - reflexivity.
  - reflexivity.
  - reflexivity.
  - vm_compute. discriminate.
  - vm_compute. discriminate.
  - reflexivity.
  - vm_compute. discriminate.
  - reflexivity.
  - exists taken, a', p'. split; [exact E |]. split; [exact Hp' |].
    split; [exact Hopt | exact Hnext].
Defined.
